(** * Monitoring page of the compression-band front end

    A shallow embedding of [MonitoringPage] (the React component that
    creates a session, opens the serial device, reads telemetry lines,
    buffers them and uploads them) together with the part of the
    JavaScript platform its code relies on: strings of UTF-16 code
    units, IEEE-754 numbers, [JSON.parse], [Number], [Math.max] and
    [Math.min].

    Layout: the platform model; the data model, [parseLine] and [clamp];
    the state of the component with its handlers and the read loop; the
    page as a transition system; the statements of the specification that
    the code contradicts; lemmas on the model; and the claims C1 to C10,
    each with its theorem. *)

From Stdlib Require Import ZArith NArith List Bool Lia String Ascii SpecFloat.
Import ListNotations.

(** ** Strings

    A JavaScript string is a sequence of 16-bit code units. *)

Definition code_unit := N.
Definition jsstring := list code_unit.

Definition ch (a : ascii) : code_unit := N_of_ascii a.

(** [js "abc"] is the string literal [abc]. *)
Definition js (s : string) : jsstring := map ch (list_ascii_of_string s).

(** [jsq] is [js] with every apostrophe read as a double quote (code unit
    34), so that JSON texts can be written down as literals. *)
Definition jsq (s : string) : jsstring :=
  map (fun c => if N.eqb c 39 then 34%N else c) (js s).

Definition jsstring_eqb (a b : jsstring) : bool :=
  if list_eq_dec N.eq_dec a b then true else false.

(** ECMAScript WhiteSpace and LineTerminator, the set removed by
    [String.prototype.trim] and by the string-to-number conversion. *)
Definition is_white_space (c : code_unit) : bool :=
  (N.leb 9 c && N.leb c 13) || N.eqb c 32 || N.eqb c 160 || N.eqb c 5760
  || (N.leb 8192 c && N.leb c 8202) || N.eqb c 8232 || N.eqb c 8233
  || N.eqb c 8239 || N.eqb c 8287 || N.eqb c 12288 || N.eqb c 65279.

Fixpoint trimStart (s : jsstring) : jsstring :=
  match s with
  | c :: r => if is_white_space c then trimStart r else s
  | [] => []
  end.

Definition trim (s : jsstring) : jsstring :=
  rev (trimStart (rev (trimStart s))).

(** [strip_prefix p s] is the rest of [s] after the prefix [p], if [s]
    starts with [p]. *)
Fixpoint strip_prefix (p s : jsstring) : option jsstring :=
  match p, s with
  | [], _ => Some s
  | a :: p', b :: s' => if N.eqb a b then strip_prefix p' s' else None
  | _ :: _, [] => None
  end.

Definition startsWith (s p : jsstring) : bool :=
  match strip_prefix p s with Some _ => true | None => false end.

Definition endsWith (s p : jsstring) : bool := startsWith (rev s) (rev p).

(** ** Numbers

    A JavaScript number is an IEEE-754 binary64 value: the Standard
    Library's [spec_float] at precision 53 and maximal exponent 1024. *)

Definition number := spec_float.
Definition prec : Z := 53.
Definition emax : Z := 1024.

Definition NaN : number := S754_nan.
Definition Infinity : number := S754_infinity false.

(** The number nearest to the integer [z] (ties to even). *)
Definition num_of_Z (z : Z) : number := binary_normalize prec emax z 0 false.

(** The number nearest to [(-1)^neg * m * 10^e10], for [0 <= m]: the value
    of a decimal literal with digits [m] and decimal exponent [e10]. For a
    negative exponent the quotient is computed to more than 64 bits and a
    sticky bit keeps the rounding exact. *)
Definition decimal_to_number (neg : bool) (m : Z) (e10 : Z) : number :=
  if (m <=? 0)%Z then S754_zero neg
  else
    let sgn (z : Z) := if neg then Z.opp z else z in
    if (0 <=? e10)%Z then binary_normalize prec emax (sgn (m * 10 ^ e10)%Z) 0 false
    else
      let d := (10 ^ (- e10))%Z in
      let s := Z.max 0 (Z.log2 d + 66 - Z.log2 m) in
      let q := (m * 2 ^ s / d)%Z in
      let r := (m * 2 ^ s mod d)%Z in
      let q' := (2 * q + (if (r =? 0)%Z then 0 else 1))%Z in
      binary_normalize prec emax (sgn q') (- (s + 1)) false.

Definition is_nan (x : number) : bool :=
  match x with S754_nan => true | _ => false end.

(** [Number.isFinite] on a number. *)
Definition Number_isFinite (x : number) : bool :=
  match x with
  | S754_zero _ | S754_finite _ _ _ => true
  | S754_infinity _ | S754_nan => false
  end.

(** [a < b], [a <= b] and [a > b] on numbers (false when either is NaN). *)
Definition num_lt (a b : number) : bool := SFltb a b.
Definition num_le (a b : number) : bool := SFleb a b.
Definition num_gt (a b : number) : bool := SFltb b a.

(** [Math.min] and [Math.max] of two numbers: NaN if either is NaN, and
    [-0] counts as smaller than [+0]. *)
Definition Math_min (a b : number) : number :=
  if is_nan a || is_nan b then NaN
  else if num_lt a b then a
  else if num_lt b a then b
  else match a with S754_zero true => a | _ => b end.

Definition Math_max (a b : number) : number :=
  if is_nan a || is_nan b then NaN
  else if num_lt a b then b
  else if num_lt b a then a
  else match a with S754_zero false => a | _ => b end.

Definition clamp (n min max : number) : number :=
  Math_max min (Math_min max n).

(** ** Completions: a computation returns normally or throws *)

Inductive completion (A : Type) : Type :=
| Normal (a : A)
| Throw.
Arguments Normal {A} a.
Arguments Throw {A}.

Definition bind {A B : Type} (c : completion A) (k : A -> completion B) : completion B :=
  match c with
  | Normal a => k a
  | Throw => Throw
  end.

Notation "x <- c ;; k" := (bind c (fun x => k))
  (at level 61, c at next level, right associativity).

(** ** Decimal digits and literals *)

Definition is_digit (c : code_unit) : bool := N.leb 48 c && N.leb c 57.

Definition digit_value (c : code_unit) : Z := Z.of_N (c - 48).

(** The longest prefix of decimal digits, and the rest. *)
Fixpoint span_digits (s : jsstring) : jsstring * jsstring :=
  match s with
  | c :: r =>
      if is_digit c then let '(d, r') := span_digits r in (c :: d, r')
      else ([], s)
  | [] => ([], [])
  end.

Definition digits_value (ds : jsstring) : Z :=
  fold_left (fun acc c => (acc * 10 + digit_value c)%Z) ds 0%Z.

(** The text after an exponent indicator: an optional sign and at least
    one digit. *)
Definition parse_exponent (s : jsstring) : option (Z * jsstring) :=
  let '(neg, s1) :=
    match s with
    | c :: r =>
        if N.eqb c (ch "-") then (true, r)
        else if N.eqb c (ch "+") then (false, r)
        else (false, s)
    | [] => (false, s)
    end in
  match span_digits s1 with
  | ([], _) => None
  | (ds, r) => Some (if neg then Z.opp (digits_value ds) else digits_value ds, r)
  end.

Definition is_exponent_indicator (c : code_unit) : bool :=
  N.eqb c (ch "e") || N.eqb c (ch "E").

(** ** JSON values and [JSON.parse] *)

#[warnings="-register-all"]
Inductive json : Type :=
| JNull
| JBool (b : bool)
| JNumber (x : number)
| JString (s : jsstring)
| JArray (l : list json)
| JObject (m : list (jsstring * json)).

(** Result of a parser on a text: a value and the unread rest, a syntax
    error, or the recursion budget ran out. *)
Inductive parsed (A : Type) : Type :=
| Parsed (a : A) (rest : jsstring)
| SyntaxError
| OutOfFuel.
Arguments Parsed {A} a rest.
Arguments SyntaxError {A}.
Arguments OutOfFuel {A}.

Definition parsed_map {A B : Type} (f : A -> B) (p : parsed A) : parsed B :=
  match p with
  | Parsed a rest => Parsed (f a) rest
  | SyntaxError => SyntaxError
  | OutOfFuel => OutOfFuel
  end.

(** JSON insignificant whitespace: tab, line feed, carriage return, space. *)
Definition is_json_ws (c : code_unit) : bool :=
  N.eqb c 9 || N.eqb c 10 || N.eqb c 13 || N.eqb c 32.

Fixpoint skip_ws (s : jsstring) : jsstring :=
  match s with
  | c :: r => if is_json_ws c then skip_ws r else s
  | [] => []
  end.

(** A JSON number: an optional minus sign; an integer part that is [0] or
    starts with a non-zero digit; an optional fraction, a dot and at least
    one digit; an optional exponent. *)
Definition parse_json_number (s : jsstring) : option (number * jsstring) :=
  let '(neg, s1) :=
    match s with
    | c :: r => if N.eqb c (ch "-") then (true, r) else (false, s)
    | [] => (false, s)
    end in
  let '(ip, s2) :=
    match s1 with
    | c :: r => if N.eqb c (ch "0") then ([c], r) else span_digits s1
    | [] => ([], [])
    end in
  match ip with
  | [] => None
  | _ :: _ =>
      let frac :=
        match s2 with
        | c :: r =>
            if N.eqb c (ch ".") then
              match span_digits r with
              | ([], _) => None
              | (fp, r') => Some (fp, r')
              end
            else Some ([], s2)
        | [] => Some ([], s2)
        end in
      match frac with
      | None => None
      | Some (fp, s3) =>
          let ex :=
            match s3 with
            | c :: r => if is_exponent_indicator c then parse_exponent r else Some (0%Z, s3)
            | [] => Some (0%Z, s3)
            end in
          match ex with
          | None => None
          | Some (e, s4) =>
              Some (decimal_to_number neg (digits_value (ip ++ fp))
                      (e - Z.of_nat (List.length fp)), s4)
          end
      end
  end.

Definition hex_digit (c : code_unit) : option Z :=
  if is_digit c then Some (Z.of_N (c - 48))
  else if N.leb 97 c && N.leb c 102 then Some (Z.of_N (c - 87))
  else if N.leb 65 c && N.leb c 70 then Some (Z.of_N (c - 55))
  else None.

(** The code unit of [\uXXXX]. *)
Definition hex4 (a b c d : code_unit) : option code_unit :=
  match hex_digit a, hex_digit b, hex_digit c, hex_digit d with
  | Some x, Some y, Some z, Some w => Some (Z.to_N (((x * 16 + y) * 16 + z) * 16 + w))
  | _, _, _, _ => None
  end.

(** The character a single-letter escape stands for. *)
Definition simple_escape (c : code_unit) : option code_unit :=
  if N.eqb c 34 then Some 34%N
  else if N.eqb c 92 then Some 92%N
  else if N.eqb c (ch "/") then Some (ch "/")
  else if N.eqb c (ch "b") then Some 8%N
  else if N.eqb c (ch "f") then Some 12%N
  else if N.eqb c (ch "n") then Some 10%N
  else if N.eqb c (ch "r") then Some 13%N
  else if N.eqb c (ch "t") then Some 9%N
  else None.

(** The characters of a JSON string after its opening quote, up to and
    including the closing quote; [acc] holds the decoded characters read so
    far, last first. *)
Fixpoint parse_string_chars (s : jsstring) (acc : jsstring) : option (jsstring * jsstring) :=
  match s with
  | [] => None
  | c :: r =>
      if N.eqb c 34 then Some (rev acc, r)
      else if N.eqb c 92 then
        match r with
        | [] => None
        | e :: r' =>
            if N.eqb e (ch "u") then
              match r' with
              | h1 :: h2 :: h3 :: h4 :: r'' =>
                  match hex4 h1 h2 h3 h4 with
                  | Some u => parse_string_chars r'' (u :: acc)
                  | None => None
                  end
              | _ => None
              end
            else
              match simple_escape e with
              | Some x => parse_string_chars r' (x :: acc)
              | None => None
              end
        end
      else if N.ltb c 32 then None
      else parse_string_chars r (c :: acc)
  end.

(** The literals [true], [false], [null] and numbers. *)
Definition parse_literal (s : jsstring) : parsed json :=
  match strip_prefix (js "true") s with
  | Some rest => Parsed (JBool true) rest
  | None =>
  match strip_prefix (js "false") s with
  | Some rest => Parsed (JBool false) rest
  | None =>
  match strip_prefix (js "null") s with
  | Some rest => Parsed JNull rest
  | None =>
  match parse_json_number s with
  | Some (x, rest) => Parsed (JNumber x) rest
  | None => SyntaxError
  end end end end.

(** Recursive descent over the JSON grammar. [parse_members] reads the
    members of an object after the opening brace (at least one member) and
    the closing brace, [parse_elements] the elements of an array and the
    closing bracket. Every call spends one unit of [fuel]. *)
Fixpoint parse_value (fuel : nat) (s : jsstring) : parsed json :=
  match fuel with
  | O => OutOfFuel
  | S fuel' =>
      match skip_ws s with
      | [] => SyntaxError
      | c :: r =>
          if N.eqb c (ch "{") then
            match skip_ws r with
            | [] => SyntaxError
            | c' :: r' =>
                if N.eqb c' (ch "}") then Parsed (JObject []) r'
                else parsed_map JObject (parse_members fuel' (c' :: r'))
            end
          else if N.eqb c (ch "[") then
            match skip_ws r with
            | [] => SyntaxError
            | c' :: r' =>
                if N.eqb c' (ch "]") then Parsed (JArray []) r'
                else parsed_map JArray (parse_elements fuel' (c' :: r'))
            end
          else if N.eqb c 34 then
            match parse_string_chars r [] with
            | Some (str, rest) => Parsed (JString str) rest
            | None => SyntaxError
            end
          else parse_literal (c :: r)
      end
  end
with parse_members (fuel : nat) (s : jsstring) : parsed (list (jsstring * json)) :=
  match fuel with
  | O => OutOfFuel
  | S fuel' =>
      match skip_ws s with
      | [] => SyntaxError
      | c :: r =>
          if N.eqb c 34 then
            match parse_string_chars r [] with
            | None => SyntaxError
            | Some (k, r1) =>
                match skip_ws r1 with
                | [] => SyntaxError
                | c1 :: r2 =>
                    if N.eqb c1 (ch ":") then
                      match parse_value fuel' r2 with
                      | Parsed v r3 =>
                          match skip_ws r3 with
                          | [] => SyntaxError
                          | c3 :: r4 =>
                              if N.eqb c3 (ch ",") then
                                parsed_map (cons (k, v)) (parse_members fuel' r4)
                              else if N.eqb c3 (ch "}") then Parsed [(k, v)] r4
                              else SyntaxError
                          end
                      | SyntaxError => SyntaxError
                      | OutOfFuel => OutOfFuel
                      end
                    else SyntaxError
                end
            end
          else SyntaxError
      end
  end
with parse_elements (fuel : nat) (s : jsstring) : parsed (list json) :=
  match fuel with
  | O => OutOfFuel
  | S fuel' =>
      match parse_value fuel' s with
      | Parsed v r1 =>
          match skip_ws r1 with
          | [] => SyntaxError
          | c :: r2 =>
              if N.eqb c (ch ",") then parsed_map (cons v) (parse_elements fuel' r2)
              else if N.eqb c (ch "]") then Parsed [v] r2
              else SyntaxError
          end
      | SyntaxError => SyntaxError
      | OutOfFuel => OutOfFuel
      end
  end.

(** [JSON.parse(s)]: one value surrounded by whitespace; anything else
    throws a SyntaxError. The fuel, twice the length of the text and one, is
    never used up (lemma [JSON_parse_fuel] below). Limits of an engine on
    the depth of nesting are not modelled. *)
Definition JSON_parse (s : jsstring) : completion json :=
  match parse_value (S (2 * List.length s)) s with
  | Parsed v rest =>
      match skip_ws rest with
      | [] => Normal v
      | _ :: _ => Throw
      end
  | SyntaxError | OutOfFuel => Throw
  end.

(** ** Values, property reads and [Number]

    What an expression over a parsed object evaluates to: [undefined] or a
    value that came out of [JSON.parse]. *)

Inductive jsvalue : Type :=
| Undefined
| Json (j : json).

(** An own property of an object built by [JSON.parse]: of two members
    with the same key the later one wins. *)
Fixpoint own_property (k : jsstring) (m : list (jsstring * json)) : option json :=
  match m with
  | [] => None
  | (k', v) :: m' =>
      match own_property k m' with
      | Some v' => Some v'
      | None => if jsstring_eqb k k' then Some v else None
      end
  end.

(** [obj.k] for one of the keys read by [parseLine]. None of them is a
    property of a prototype, so on a parsed object the read finds an own
    property or [undefined]; on [null] a property read throws a TypeError;
    on a boolean, number, string or array it is [undefined]. *)
Definition Get (obj : json) (k : jsstring) : completion jsvalue :=
  match obj with
  | JNull => Throw
  | JObject m =>
      match own_property k m with
      | Some v => Normal (Json v)
      | None => Normal Undefined
      end
  | _ => Normal Undefined
  end.

(** [a ?? b]: [b] when [a] is [null] or [undefined], else [a]. *)
Definition nullish (a b : jsvalue) : jsvalue :=
  match a with
  | Undefined | Json JNull => b
  | _ => a
  end.

Infix "??" := nullish (at level 45, left associativity).

(** [typeof v === "number"]. *)
Definition typeof_number (v : jsvalue) : bool :=
  match v with
  | Json (JNumber _) => true
  | _ => false
  end.

(** Digits of a literal in radix 2, 8 or 16. *)
Fixpoint radix_value (radix : Z) (s : jsstring) (acc : Z) : option Z :=
  match s with
  | [] => Some acc
  | c :: r =>
      match hex_digit c with
      | Some d => if (d <? radix)%Z then radix_value radix r (acc * radix + d)%Z else None
      | None => None
      end
  end.

Definition radix_literal (radix : Z) (digits : jsstring) : number :=
  match digits with
  | [] => NaN
  | _ :: _ =>
      match radix_value radix digits 0%Z with
      | Some z => num_of_Z z
      | None => NaN
      end
  end.

(** StrUnsignedDecimalLiteral: [Infinity], or digits with an optional
    fraction and exponent, of which the integer part or the fraction has a
    digit; the whole text must match, else NaN. *)
Definition unsigned_decimal (neg : bool) (s : jsstring) : number :=
  if jsstring_eqb s (js "Infinity") then S754_infinity neg
  else
    let '(ip, s1) := span_digits s in
    let '(fp, s2) :=
      match s1 with
      | c :: r => if N.eqb c (ch ".") then span_digits r else ([], s1)
      | [] => ([], s1)
      end in
    match ip ++ fp with
    | [] => NaN
    | _ :: _ =>
        let ex :=
          match s2 with
          | [] => Some 0%Z
          | c :: r =>
              if is_exponent_indicator c then
                match parse_exponent r with
                | Some (e, []) => Some e
                | _ => None
                end
              else None
          end in
        match ex with
        | Some e => decimal_to_number neg (digits_value (ip ++ fp)) (e - Z.of_nat (List.length fp))
        | None => NaN
        end
    end.

(** StringToNumber: the text is trimmed; the empty text is [+0]; a text
    that is no numeric literal is NaN. *)
Definition StringToNumber (s : jsstring) : number :=
  match trim s with
  | [] => S754_zero false
  | c :: r =>
      match strip_prefix (js "0x") (c :: r), strip_prefix (js "0X") (c :: r),
            strip_prefix (js "0o") (c :: r), strip_prefix (js "0O") (c :: r),
            strip_prefix (js "0b") (c :: r), strip_prefix (js "0B") (c :: r) with
      | Some d, _, _, _, _, _ | _, Some d, _, _, _, _ => radix_literal 16 d
      | _, _, Some d, _, _, _ | _, _, _, Some d, _, _ => radix_literal 8 d
      | _, _, _, _, Some d, _ | _, _, _, _, _, Some d => radix_literal 2 d
      | None, None, None, None, None, None =>
          if N.eqb c (ch "-") then unsigned_decimal true r
          else if N.eqb c (ch "+") then unsigned_decimal false r
          else unsigned_decimal false (c :: r)
      end
  end.

Definition has_own (k : jsstring) (m : list (jsstring * json)) : bool :=
  existsb (fun kv => jsstring_eqb k (fst kv)) m.

(** Converting a parsed value to a string throws a TypeError exactly when
    the value is, or an array holds at some depth, an object with an own
    property [toString]: that property, never callable, hides
    [Object.prototype.toString], and [Object.prototype.valueOf] returns no
    primitive. *)
Fixpoint ToString_throws (j : json) : bool :=
  match j with
  | JObject m => has_own (js "toString") m
  | JArray l => existsb ToString_throws l
  | _ => false
  end.

(** [StringToNumber(ToString(j))] for a [j] whose conversion to a string
    does not throw. A number prints to a text that reads back as itself,
    but for [-0], which prints as [0]; a boolean prints as [true] or
    [false] and an object as [[object Object]], no numeric literals; [null]
    inside an array prints as the empty text; an array prints its elements
    separated by commas, and a text with a comma is no numeric literal. *)
Fixpoint number_of_text (in_array : bool) (j : json) : number :=
  match j with
  | JNull => if in_array then S754_zero false else NaN
  | JBool _ => NaN
  | JNumber x => match x with S754_zero _ => S754_zero false | _ => x end
  | JString s => StringToNumber s
  | JObject _ => NaN
  | JArray l =>
      match l with
      | [] => S754_zero false
      | [e] => number_of_text true e
      | _ :: _ :: _ => NaN
      end
  end.

(** [Number(v)]. *)
Definition Number (v : jsvalue) : completion number :=
  match v with
  | Undefined => Normal NaN
  | Json JNull => Normal (S754_zero false)
  | Json (JBool b) => Normal (num_of_Z (if b then 1 else 0))
  | Json (JNumber x) => Normal x
  | Json (JString s) => Normal (StringToNumber s)
  | Json (JObject m) => if has_own (js "toString") m then Throw else Normal NaN
  | Json (JArray l) =>
      if existsb ToString_throws l then Throw
      else Normal (number_of_text false (JArray l))
  end.

(** ** Data model (session.interface) *)

Record CreateSessionDto : Type := {
  dto_patientId : jsstring;
  dto_targetPressure : number;
  dto_holdTimeSeconds : number
}.

Record CreateSessionDataDto : Type := {
  dto_measuredPressure : number;
  dto_temperature : number;
  dto_cycleIndex : option number
}.

Record SessionData : Type := {
  record_id : jsstring;
  record_measuredPressure : number;
  record_temperature : number;
  record_cycleIndex : option number;
  recordedAt : jsstring
}.

(** A session as the backend returns it. Of its fields the page reads
    [id] only; the patient's name and e-mail are left out. *)
Record Session : Type := {
  id : jsstring;
  patient_id : jsstring;
  startedAt : jsstring;
  endedAt : option jsstring;
  session_targetPressure : number;
  session_holdTimeSeconds : number;
  records : list SessionData
}.

Record RealtimeRow : Type := {
  timestamp : jsstring;
  measuredPressure : number;
  temperature : number;
  cycleIndex : option number
}.

(** ** [parseLine]

    [ts] is the time stamp [new Date().toISOString()] taken on entry. The
    body of the [try] block is [parseLine_try]; whatever it throws is
    caught and the line is dropped. *)

Definition parseLine_try (ts : jsstring) (s : jsstring) : completion (option RealtimeRow) :=
  obj <- JSON_parse s ;;
  v_pressure <- Get obj (js "pressure") ;;
  v_measuredPressure <- Get obj (js "measuredPressure") ;;
  v_p <- Get obj (js "p") ;;
  v_pr <- Get obj (js "pr") ;;
  pressure <- Number (v_pressure ?? v_measuredPressure ?? v_p ?? v_pr) ;;
  v_temperature <- Get obj (js "temperature") ;;
  v_temp <- Get obj (js "temp") ;;
  v_t <- Get obj (js "t") ;;
  temp <- Number (v_temperature ?? v_temp ?? v_t) ;;
  v_cycle <- Get obj (js "cycle") ;;
  v_cycleIndex <- Get obj (js "cycleIndex") ;;
  let cycle := v_cycle ?? v_cycleIndex in
  if Number_isFinite pressure && Number_isFinite temp then
    ci <- (match cycle with
           | Json (JNumber x) => Normal (Some x)
           | _ =>
               n <- Number cycle ;;
               if Number_isFinite n then (n' <- Number cycle ;; Normal (Some n'))
               else Normal None
           end) ;;
    Normal (Some {| timestamp := ts;
                    measuredPressure := pressure;
                    temperature := temp;
                    cycleIndex := ci |})
  else Normal None.

Definition parseLine (ts : jsstring) (line : jsstring) : option RealtimeRow :=
  let s := trim line in
  match s with
  | [] => None
  | _ :: _ =>
      if negb (startsWith s (js "{")) || negb (endsWith s (js "}")) then None
      else
        match parseLine_try ts s with
        | Normal r => r
        | Throw => None
        end
  end.

(** ** The outside world

    Serial ports and open connections are known by their identity only.
    An awaited promise is fulfilled with a value or rejected with what was
    thrown: an [Error] with its message, or something else. *)

Definition SerialPort := N.
Definition SerialIO := N.

Inductive thrown : Type :=
| ErrorWith (message : jsstring)
| NotAnError.

Inductive settled (A : Type) : Type :=
| Fulfilled (a : A)
| Rejected (e : thrown).
Arguments Fulfilled {A} a.
Arguments Rejected {A} e.

(** [e instanceof Error ? e.message : fallback]. *)
Definition message_or (e : thrown) (fallback : jsstring) : jsstring :=
  match e with
  | ErrorWith m => m
  | NotAnError => fallback
  end.

Definition msg_create_failed : jsstring :=
  js "Error creando la sesi" ++ [243%N] ++ js "n.".
Definition msg_open_failed : jsstring := js "No se pudo abrir el puerto serial.".
Definition msg_read_failed : jsstring := js "Error leyendo datos del dispositivo.".

(** What a read of the line reader resolves to. *)
Record ReadResult : Type := {
  value : option jsstring;
  done : bool
}.

(** Calls that leave the page: to the session service and to the serial
    adapter. *)
Inductive call : Type :=
| call_create (dto : CreateSessionDto)
| call_addData (sessionId : jsstring) (dto : CreateSessionDataDto)
| call_requestPort
| call_getAuthorizedPorts
| call_openPort (port : option SerialPort) (baudRate : Z)
| call_close (c : SerialIO)
| call_writeLine (c : SerialIO) (command : jsstring)
| call_read (c : SerialIO).

(** ** State of the component

    The [useState] cells and the two [useRef] cells of [MonitoringPage]
    (the list of patients, which is only shown, is left out). Time stamps
    of [Date.now()] are integers of milliseconds, far below 2^53, so the
    subtraction on them is exact and they are modelled in [Z]. *)

Record State : Type := mkState {
  patientId : jsstring;
  session : option Session;
  targetPressure : number;
  holdTimeSeconds : number;
  ports : list SerialPort;
  selectedPortIdx : Z;
  io : option SerialIO;
  isMonitoring : bool;
  startedFromDevice : bool;
  loading : bool;
  err : option jsstring;
  realtime : list RealtimeRow;
  lastSentRef : Z;
  closeLoopRef : bool
}.

Definition initial : State := {|
  patientId := [];
  session := None;
  targetPressure := num_of_Z 30;
  holdTimeSeconds := num_of_Z 10;
  ports := [];
  selectedPortIdx := (-1)%Z;
  io := None;
  isMonitoring := false;
  startedFromDevice := false;
  loading := false;
  err := None;
  realtime := [];
  lastSentRef := 0%Z;
  closeLoopRef := false
|}.

Definition setPatientId (v : jsstring) (s : State) : State :=
  let 'mkState a b c d e f g h i j k l m n := s in mkState v b c d e f g h i j k l m n.
Definition setSession (v : option Session) (s : State) : State :=
  let 'mkState a b c d e f g h i j k l m n := s in mkState a v c d e f g h i j k l m n.
Definition setTargetPressure (v : number) (s : State) : State :=
  let 'mkState a b c d e f g h i j k l m n := s in mkState a b v d e f g h i j k l m n.
Definition setHoldTimeSeconds (v : number) (s : State) : State :=
  let 'mkState a b c d e f g h i j k l m n := s in mkState a b c v e f g h i j k l m n.
Definition setPorts (v : list SerialPort) (s : State) : State :=
  let 'mkState a b c d e f g h i j k l m n := s in mkState a b c d v f g h i j k l m n.
Definition setSelectedPortIdx (v : Z) (s : State) : State :=
  let 'mkState a b c d e f g h i j k l m n := s in mkState a b c d e v g h i j k l m n.
Definition setIo (v : option SerialIO) (s : State) : State :=
  let 'mkState a b c d e f g h i j k l m n := s in mkState a b c d e f v h i j k l m n.
Definition setIsMonitoring (v : bool) (s : State) : State :=
  let 'mkState a b c d e f g h i j k l m n := s in mkState a b c d e f g v i j k l m n.
Definition setStartedFromDevice (v : bool) (s : State) : State :=
  let 'mkState a b c d e f g h i j k l m n := s in mkState a b c d e f g h v j k l m n.
Definition setLoading (v : bool) (s : State) : State :=
  let 'mkState a b c d e f g h i j k l m n := s in mkState a b c d e f g h i v k l m n.
Definition setErr (v : option jsstring) (s : State) : State :=
  let 'mkState a b c d e f g h i j k l m n := s in mkState a b c d e f g h i j v l m n.
Definition setRealtime (f : list RealtimeRow -> list RealtimeRow) (s : State) : State :=
  let 'mkState a b c d e f' g h i j k l m n := s in mkState a b c d e f' g h i j k (f l) m n.
Definition set_lastSentRef (v : Z) (s : State) : State :=
  let 'mkState a b c d e f g h i j k l m n := s in mkState a b c d e f g h i j k l v n.
Definition set_closeLoopRef (v : bool) (s : State) : State :=
  let 'mkState a b c d e f g h i j k l m n := s in mkState a b c d e f g h i j k l m v.

(** Truthiness of a string, of an optional object and of a number. *)
Definition nonempty (s : jsstring) : bool :=
  match s with [] => false | _ :: _ => true end.

Definition present {A : Type} (o : option A) : bool :=
  match o with Some _ => true | None => false end.

Definition truthy_number (x : number) : bool :=
  match x with S754_zero _ | S754_nan => false | _ => true end.

(** *** Derived rules *)

Definition zero : number := num_of_Z 0.

Definition canCreateSession (s : State) : bool :=
  nonempty (patientId s) && negb (present (session s))
  && num_gt (targetPressure s) zero && num_gt (holdTimeSeconds s) zero.
Definition canPickDevice (s : State) : bool :=
  present (session s) && negb (isMonitoring s).
Definition isConnected (s : State) : bool := present (io s).
Definition canConnect (s : State) : bool :=
  present (session s) && (0 <=? selectedPortIdx s)%Z && negb (isConnected s).
Definition canStart (s : State) : bool :=
  present (session s) && isConnected s && negb (isMonitoring s).
Definition canStop (s : State) : bool :=
  present (session s) && isMonitoring s.
Definition canReset (s : State) : bool :=
  negb (isMonitoring s) && (present (session s) || nonempty (patientId s)).

(** ** Handlers

    A handler runs from the state of the render it was created in, makes
    its calls, and ends fulfilled or rejected. The results of the calls it
    awaits are given as arguments. *)

Record run : Type := {
  after : State;
  calls : list call;
  result : settled unit
}.

Definition returns (s : State) (cs : list call) : run :=
  {| after := s; calls := cs; result := Fulfilled tt |}.

Definition handleCreateSession (s : State) (created : settled Session) : run :=
  if negb (nonempty (patientId s)) then returns s []
  else
    let s1 := setErr None (setLoading true s) in
    let dto := {| dto_patientId := patientId s;
                  dto_targetPressure := targetPressure s;
                  dto_holdTimeSeconds := holdTimeSeconds s |} in
    let s2 :=
      match created with
      | Fulfilled sess => setSession (Some sess) s1
      | Rejected e => setErr (Some (message_or e msg_create_failed)) s1
      end in
    returns (setLoading false s2) [call_create dto].

(** [list.findIndex((x) => x === p)]. *)
Fixpoint findIndex_from (i : Z) (p : SerialPort) (l : list SerialPort) : Z :=
  match l with
  | [] => (-1)%Z
  | x :: l' => if N.eqb x p then i else findIndex_from (i + 1)%Z p l'
  end.

Definition handleRequestPort (s : State) (picked : settled SerialPort)
    (listed : settled (list SerialPort)) : run :=
  let s1 := setErr None s in
  match picked with
  | Rejected _ => returns s1 [call_requestPort]
  | Fulfilled p =>
      match listed with
      | Rejected _ => returns s1 [call_requestPort; call_getAuthorizedPorts]
      | Fulfilled list =>
          let idx := findIndex_from 0 p list in
          returns (setSelectedPortIdx (if (0 <=? idx)%Z then idx else (-1)%Z)
                     (setPorts list s1))
                  [call_requestPort; call_getAuthorizedPorts]
      end
  end.

(** [ports[selectedPortIdx]]: [undefined] out of range. *)
Definition port_at (l : list SerialPort) (i : Z) : option SerialPort :=
  if (i <? 0)%Z then None else nth_error l (Z.to_nat i).

(** ** The read loop

    [readLoop(connected)] is an asynchronous function: it runs until it
    awaits, and goes on when what it awaits has settled. It is suspended
    either on [connected.reader.read()] or on [sessionService.addData], or
    it has returned. The loop is a closure of the render in which
    [handleConnect] was created: [session] and [isMonitoring] in its body
    are the values of that render, for as long as the loop runs, while the
    refs and the updater passed to [setRealtime] see the current values. *)

Inductive loop_pc : Type :=
| AwaitRead
| AwaitAddData
| Returned.

Record Loop : Type := {
  connected : SerialIO;
  seen_session : option Session;
  seen_isMonitoring : bool;
  pc : loop_pc
}.

Definition at_pc (p : loop_pc) (l : Loop) : Loop :=
  {| connected := connected l;
     seen_session := seen_session l;
     seen_isMonitoring := seen_isMonitoring l;
     pc := p |}.

(** What settles and resumes a suspended loop. A settled read comes with
    the two clock readings its iteration takes: the ISO time stamp of
    [parseLine] and [Date.now()]. *)
Inductive loop_event : Type :=
| ReadSettled (r : settled ReadResult) (ts : jsstring) (now : Z)
| AddDataSettled (r : settled SessionData).

(** [up.slice(-k)]: the last [k] elements. *)
Definition slice_last {A : Type} (k : nat) (l : list A) : list A :=
  skipn (List.length l - k) l.

Definition push_reading (reading : RealtimeRow) (prev : list RealtimeRow) : list RealtimeRow :=
  let up := prev ++ [reading] in slice_last 200 up.

(** The head of the [while]: test the flag, start the next read. *)
Definition loop_head (l : Loop) (s : State) : Loop * State * list call :=
  if closeLoopRef s then (at_pc Returned l, s, [])
  else (at_pc AwaitRead l, s, [call_read (connected l)]).

Definition upload_dto (reading : RealtimeRow) : CreateSessionDataDto :=
  {| dto_measuredPressure := clamp (measuredPressure reading) zero (num_of_Z 200);
     dto_temperature := clamp (temperature reading) zero (num_of_Z 80);
     dto_cycleIndex := cycleIndex reading |}.

(** The body of one iteration once a line has been decoded. *)
Definition on_reading (l : Loop) (s : State) (reading : RealtimeRow) (now : Z)
    : Loop * State * list call :=
  let s1 :=
    if present (seen_session l) && negb (seen_isMonitoring l)
    then setStartedFromDevice true (setIsMonitoring true s)
    else s in
  let s2 := setRealtime (push_reading reading) s1 in
  match seen_session l with
  | Some sess =>
      if (1000 <=? now - lastSentRef s2)%Z then
        (at_pc AwaitAddData l, set_lastSentRef now s2,
         [call_addData (id sess) (upload_dto reading)])
      else loop_head l s2
  | None => loop_head l s2
  end.

(** Resume the loop with [ev]; [None] when the loop is not waiting for
    that. *)
Definition readLoop_resume (l : Loop) (s : State) (ev : loop_event)
    : option (Loop * State * list call) :=
  match pc l, ev with
  | AwaitRead, ReadSettled (Fulfilled r) ts now =>
      if done r then Some (at_pc Returned l, s, [])
      else
        match value r with
        | None | Some [] => Some (loop_head l s)
        | Some (c :: v) =>
            match parseLine ts (c :: v) with
            | None => Some (loop_head l s)
            | Some reading => Some (on_reading l s reading now)
            end
        end
  | AwaitRead, ReadSettled (Rejected e) _ _ =>
      if closeLoopRef s then Some (at_pc Returned l, s, [])
      else Some (at_pc Returned l, setErr (Some (message_or e msg_read_failed)) s, [])
  | AwaitAddData, AddDataSettled _ => Some (loop_head l s)
  | _, _ => None
  end.

(** [handleConnect]: besides its run, the loop it starts. The new loop
    runs at once up to its first [await], the read. *)
Definition handleConnect (s : State) (opened : settled SerialIO) : run * option Loop :=
  if (selectedPortIdx s <? 0)%Z then (returns s [], None)
  else
    let s1 := setErr None s in
    let open := call_openPort (port_at (ports s) (selectedPortIdx s)) 115200 in
    match opened with
    | Fulfilled c =>
        (returns (set_closeLoopRef false (setIo (Some c) s1)) [open; call_read c],
         Some {| connected := c;
                 seen_session := session s;
                 seen_isMonitoring := isMonitoring s;
                 pc := AwaitRead |})
    | Rejected e =>
        (returns (setErr (Some (message_or e msg_open_failed)) s1) [open], None)
    end.

(** *** [handleConnect] in its two parts

    Between them [openPort] is pending and the page goes on: other
    handlers may run. *)



Definition handleDisconnect (s : State) (closed : settled unit) : run :=
  match io s with
  | None => returns s []
  | Some c => returns (setIo None (set_closeLoopRef true s)) [call_close c]
  end.

Definition handleStart (s : State) (written : settled unit) : run :=
  match io s, session s with
  | Some c, Some _ =>
      let s1 := setStartedFromDevice false (setErr None s) in
      match written with
      | Fulfilled _ => returns (setIsMonitoring true s1) [call_writeLine c (js "I")]
      | Rejected e =>
          {| after := s1; calls := [call_writeLine c (js "I")]; result := Rejected e |}
      end
  | _, _ => returns s []
  end.

Definition handleStop (s : State) (written : settled unit) : run :=
  match io s, session s with
  | Some c, Some _ =>
      let s1 := setErr None s in
      match written with
      | Fulfilled _ => returns (setIsMonitoring false s1) [call_writeLine c (js "S")]
      | Rejected e =>
          {| after := s1; calls := [call_writeLine c (js "S")]; result := Rejected e |}
      end
  | _, _ => returns s []
  end.

Definition handleReset (s : State) (closed : settled unit) : run :=
  if isMonitoring s then returns s []
  else
    let d := handleDisconnect s closed in
    returns
      (setHoldTimeSeconds (num_of_Z 10)
        (setTargetPressure (num_of_Z 30)
          (setSelectedPortIdx (-1)%Z
            (setErr None
              (setPatientId []
                (setSession None
                  (setStartedFromDevice false
                    (setRealtime (fun _ => []) (after d)))))))))
      (calls d).

(** ** The page as a transition system

    The page together with the read loops that have been started and the
    calls made so far. An event is an operator's action on a control, with
    the results of the calls its handler awaits, or the resumption of a
    suspended loop. A handler runs to its end within its event: what
    other events could do while a handler awaits a call is not part of the
    model. *)

Record System : Type := {
  page : State;
  loops : list Loop;
  log : list call
}.

Definition mounted : System := {| page := initial; loops := []; log := [] |}.

Inductive event : Type :=
| ChoosePatient (pid : jsstring)
| TypeTargetPressure (text : jsstring)
| TypeHoldTime (text : jsstring)
| ClickCreateSession (created : settled Session)
| ChoosePort (idx : Z)
| ClickRequestPort (picked : settled SerialPort) (listed : settled (list SerialPort))
| ClickConnect (opened : settled SerialIO)
| ClickDisconnect (closed : settled unit)
| ClickStart (written : settled unit)
| ClickStop (written : settled unit)
| ClickReset (closed : settled unit)
| LoopResumes (i : nat) (ev : loop_event).

(** [Number(e.target.value) || 0]. *)
Definition number_or_zero (text : jsstring) : number :=
  let x := StringToNumber text in
  if truthy_number x then x else zero.

Fixpoint replace_nth {A : Type} (i : nat) (x : A) (l : list A) : list A :=
  match l, i with
  | [], _ => []
  | _ :: l', O => x :: l'
  | y :: l', S i' => y :: replace_nth i' x l'
  end.

Definition with_page (sys : System) (s : State) : System :=
  {| page := s; loops := loops sys; log := log sys |}.

Definition with_run (sys : System) (r : run) : System :=
  {| page := after r; loops := loops sys; log := log sys ++ calls r |}.

(** The handler or updater bound to the control, run whether or not the
    control is enabled. *)
Definition step (sys : System) (ev : event) : System :=
  let s := page sys in
  match ev with
  | ChoosePatient pid => with_page sys (setPatientId pid s)
  | TypeTargetPressure text => with_page sys (setTargetPressure (number_or_zero text) s)
  | TypeHoldTime text => with_page sys (setHoldTimeSeconds (number_or_zero text) s)
  | ClickCreateSession created => with_run sys (handleCreateSession s created)
  | ChoosePort idx => with_page sys (setSelectedPortIdx idx s)
  | ClickRequestPort picked listed => with_run sys (handleRequestPort s picked listed)
  | ClickConnect opened =>
      let '(r, started) := handleConnect s opened in
      {| page := after r;
         loops := loops sys ++ match started with Some l => [l] | None => [] end;
         log := log sys ++ calls r |}
  | ClickDisconnect closed => with_run sys (handleDisconnect s closed)
  | ClickStart written => with_run sys (handleStart s written)
  | ClickStop written => with_run sys (handleStop s written)
  | ClickReset closed => with_run sys (handleReset s closed)
  | LoopResumes i ev' =>
      match nth_error (loops sys) i with
      | None => sys
      | Some l =>
          match readLoop_resume l s ev' with
          | None => sys
          | Some (l', s', cs) =>
              {| page := s'; loops := replace_nth i l' (loops sys); log := log sys ++ cs |}
          end
      end
  end.

(** Whether the control of an event is rendered and not disabled (Web
    Serial being supported by the browser). A loop resumes whenever what
    it awaits settles. *)
Definition enabled (s : State) (ev : event) : bool :=
  match ev with
  | ChoosePatient _ => negb (present (session s) || loading s)
  | TypeTargetPressure _ | TypeHoldTime _ => negb (present (session s))
  | ClickCreateSession _ => negb (negb (canCreateSession s) || loading s)
  | ChoosePort _ | ClickRequestPort _ _ => canPickDevice s
  | ClickConnect _ => negb (isConnected s) && canConnect s
  | ClickDisconnect _ => isConnected s
  | ClickStart _ => negb (isMonitoring s) && canStart s
  | ClickStop _ => isMonitoring s && canStop s
  | ClickReset _ => canReset s
  | LoopResumes _ _ => true
  end.

(** What the operator can do: an action on a disabled control does
    nothing. *)
Definition act (sys : System) (ev : event) : System :=
  if enabled (page sys) ev then step sys ev else sys.

Definition run_steps (sys : System) (evs : list event) : System :=
  fold_left step evs sys.

Definition run_acts (sys : System) (evs : list event) : System :=
  fold_left act evs sys.

(** Events that close the connection: [handleDisconnect], called by the
    disconnect button and by [handleReset]. *)
Definition disconnects (ev : event) : bool :=
  match ev with
  | ClickDisconnect _ | ClickReset _ => true
  | _ => false
  end.

(** ** The read loop fed with lines

    One iteration for a line that arrives at time [now]: the read settles
    with the line and, if the iteration dispatches an upload, the upload
    settles with [up] and the loop comes back to its next read. The
    result also tells whether an upload was dispatched. *)

Definition is_addData (c : call) : bool :=
  match c with call_addData _ _ => true | _ => false end.

Record offer : Type := {
  offer_ts : jsstring;
  offer_now : Z;
  offer_line : jsstring;
  offer_upload : settled SessionData
}.

Definition line_read (line : jsstring) : settled ReadResult :=
  Fulfilled {| value := Some line; done := false |}.

Definition iteration (ls : Loop * State) (o : offer) : Loop * State * bool :=
  let '(l, s) := ls in
  match readLoop_resume l s (ReadSettled (line_read (offer_line o)) (offer_ts o) (offer_now o)) with
  | None => (l, s, false)
  | Some (l1, s1, cs1) =>
      match readLoop_resume l1 s1 (AddDataSettled (offer_upload o)) with
      | None => (l1, s1, existsb is_addData cs1)
      | Some (l2, s2, _) => (l2, s2, existsb is_addData cs1)
      end
  end.

(** The times at which uploads are dispatched while the offers are fed,
    and the loop and state at the end. *)
Fixpoint feed (ls : Loop * State) (os : list offer) : Loop * State * list Z :=
  match os with
  | [] => (ls, [])
  | o :: os' =>
      let '(l1, s1, sent) := iteration ls o in
      let '(ls2, times) := feed (l1, s1) os' in
      (ls2, if sent then offer_now o :: times else times)
  end.

(** The number of uploads dispatched in the window of 1000 ms that starts
    at [w]. *)
Definition in_window (w t : Z) : bool := (w <=? t)%Z && (t <? w + 1000)%Z.

Definition uploads_in_window (w : Z) (times : list Z) : nat :=
  List.length (filter (in_window w) times).

(** ** The decoder as the specification words it

    The aliases of a field, in the order in which they are tried. *)

Definition pressure_aliases : list jsstring :=
  [js "pressure"; js "measuredPressure"; js "p"; js "pr"].
Definition temperature_aliases : list jsstring :=
  [js "temperature"; js "temp"; js "t"].
Definition cycle_aliases : list jsstring := [js "cycle"; js "cycleIndex"].

(** The trimmed line is the text of a JSON object with members [m]. *)
Definition is_object_text (s : jsstring) (m : list (jsstring * json)) : Prop :=
  startsWith s (js "{") = true /\ endsWith s (js "}") = true
  /\ JSON_parse s = Normal (JObject m).

(** The value of the first alias that is a field of the object
    ([undefined] if none is). *)
Fixpoint first_present (aliases : list jsstring) (m : list (jsstring * json)) : jsvalue :=
  match aliases with
  | [] => Undefined
  | k :: ks =>
      match own_property k m with
      | Some v => Json v
      | None => first_present ks m
      end
  end.

(** The value of the first alias that is a field of the object with a
    value other than [null]. *)
Fixpoint first_non_null (aliases : list jsstring) (m : list (jsstring * json)) : option json :=
  match aliases with
  | [] => None
  | k :: ks =>
      match own_property k m with
      | Some JNull | None => first_non_null ks m
      | Some v => Some v
      end
  end.

(** The cycle index kept for a cycle field with value [v]: a number as it
    is, another value if it coerces to a finite number, else none. *)
Definition cycle_value (v : json) : option number :=
  match v with
  | JNumber x => Some x
  | _ =>
      match Number (Json v) with
      | Normal n => if Number_isFinite n then Some n else None
      | Throw => None
      end
  end.

(** Whether the last alias of a field is a field of the object with the
    value [null]. *)
Definition last_alias_null (aliases : list jsstring) (m : list (jsstring * json)) : bool :=
  match aliases with
  | [] => false
  | _ :: _ =>
      match own_property (last aliases []) m with
      | Some JNull => true
      | _ => false
      end
  end.

(** The number a field decodes to, if any: the coercion of the first alias
    with a value other than [null], if it is finite; when every alias is
    absent or [null], 0 if the last alias is [null], else nothing. *)
Definition alias_number (aliases : list jsstring) (m : list (jsstring * json)) : option number :=
  match first_non_null aliases m with
  | Some v =>
      match Number (Json v) with
      | Normal x => if Number_isFinite x then Some x else None
      | Throw => None
      end
  | None => if last_alias_null aliases m then Some zero else None
  end.

(** The cycle index a line decodes to, if the line decodes at all: a
    number as it is, another value by its coercion if that is finite. *)
Definition alias_cycle (m : list (jsstring * json)) : option (option number) :=
  match first_non_null cycle_aliases m with
  | Some (JNumber x) => Some (Some x)
  | Some v =>
      match Number (Json v) with
      | Normal n => Some (if Number_isFinite n then Some n else None)
      | Throw => None
      end
  | None => Some (if last_alias_null cycle_aliases m then Some zero else None)
  end.

(** A parser result that did not run out of fuel and, if it is a value,
    left a rest shorter than the text [s]. *)
Definition fuel_ok {A : Type} (p : parsed A) (s : jsstring) : Prop :=
  p <> OutOfFuel /\ forall a rest, p = Parsed a rest -> List.length rest < List.length s.

(** Times of which each is at least 1000 ms after the one before, the
    first one after [last]. *)
Fixpoint spaced (last : Z) (times : list Z) : Prop :=
  match times with
  | [] => True
  | t :: times' => (last + 1000 <= t)%Z /\ spaced t times'
  end.

(** A value within [lo, hi]. *)
Definition within (lo hi x : number) : Prop :=
  num_le lo x = true /\ num_le x hi = true.

Definition last_row (l : list RealtimeRow) : option RealtimeRow :=
  match rev l with
  | [] => None
  | r :: _ => Some r
  end.

(** ** Sample data for the examples *)

Definition session1 : Session := {|
  id := js "s1";
  patient_id := js "p1";
  startedAt := js "2025-01-01T00:00:00.000Z";
  endedAt := None;
  session_targetPressure := num_of_Z 30;
  session_holdTimeSeconds := num_of_Z 10;
  records := []
|}.

Definition ts1 : jsstring := js "2025-01-01T00:00:05.000Z".

(** The operator chooses a patient, creates the session, picks port 7 and
    connects: connection 1 is open and its loop awaits a line. *)
Definition connect_events : list event :=
  [ChoosePatient (js "p1");
   ClickCreateSession (Fulfilled session1);
   ClickRequestPort (Fulfilled 7%N) (Fulfilled [7%N]);
   ClickConnect (Fulfilled 1%N)].

(** The loop that [connect_events] starts. *)
Definition loop1 : Loop := {|
  connected := 1%N;
  seen_session := Some session1;
  seen_isMonitoring := false;
  pc := AwaitRead
|}.

(** Scenario D of the specification. *)
Definition line_D : jsstring := jsq "{'p':250,'t':10}".

(** ** Statements of the specification that the code contradicts *)

(** C1 as stated: the row appended for a decoded line and the uploaded
    values are both within range. *)
Definition C1_as_stated : Prop :=
  forall (l l' : Loop) (s s' : State) (ts line : jsstring) (now : Z) (cs : list call),
    readLoop_resume l s (ReadSettled (line_read line) ts now) = Some (l', s', cs) ->
    (forall r, parseLine ts line = Some r ->
       exists row, last_row (realtime s') = Some row
         /\ within zero (num_of_Z 200) (measuredPressure row)
         /\ within zero (num_of_Z 80) (temperature row))
    /\ (forall sid dto, In (call_addData sid dto) cs ->
          within zero (num_of_Z 200) (dto_measuredPressure dto)
          /\ within zero (num_of_Z 80) (dto_temperature dto)).

(** C2 as stated: in every reachable state monitoring implies an open
    connection. *)
Definition C2_as_stated : Prop :=
  forall evs : list event,
    isMonitoring (page (run_steps mounted evs)) = true ->
    io (page (run_steps mounted evs)) <> None.

(** C3 as stated: a stop that sends [S] leaves both flags false. *)
Definition C3_as_stated : Prop :=
  forall (s : State) (c : SerialIO),
    calls (handleStop s (Fulfilled tt)) = [call_writeLine c (js "S")] ->
    isMonitoring (after (handleStop s (Fulfilled tt))) = false
    /\ startedFromDevice (after (handleStop s (Fulfilled tt))) = false.

(** C4 as stated: the run of the loop that dispatches an upload goes on
    to the next read. *)
Definition C4_as_stated : Prop :=
  forall (l l' : Loop) (s s' : State) (r : settled ReadResult) (ts : jsstring) (now : Z)
         (cs : list call),
    readLoop_resume l s (ReadSettled r ts now) = Some (l', s', cs) ->
    closeLoopRef s = false ->
    existsb is_addData cs = true ->
    In (call_read (connected l)) cs /\ pc l' = AwaitRead.

(** C5 as stated: with a precondition false the handler fails, makes no
    call and leaves the state as it was. *)
Definition C5_as_stated : Prop :=
  forall (s : State) (created : settled Session),
    canCreateSession s = false ->
    (exists e, result (handleCreateSession s created) = Rejected e)
    /\ calls (handleCreateSession s created) = []
    /\ after (handleCreateSession s created) = s.

(** C6 as stated: a reading is returned exactly for an object text whose
    first pressure and temperature fields present coerce to finite
    numbers, and it carries those numbers. *)
Definition C6_as_stated : Prop :=
  forall (ts line : jsstring) (r : RealtimeRow),
    parseLine ts line = Some r <->
    exists m, is_object_text (trim line) m
      /\ Number (first_present pressure_aliases m) = Normal (measuredPressure r)
      /\ Number_isFinite (measuredPressure r) = true
      /\ Number (first_present temperature_aliases m) = Normal (temperature r)
      /\ Number_isFinite (temperature r) = true
      /\ timestamp r = ts
      /\ cycleIndex r = match first_present cycle_aliases m with
                        | Undefined => None
                        | Json v => cycle_value v
                        end.

(** C9 as stated: with the monitoring flag false, a session, an open
    connection and a decoded line, the loop sets both flags. *)
Definition C9_as_stated : Prop :=
  forall (sys : System) (i : nat) (l : Loop) (ts line : jsstring) (now : Z) (r : RealtimeRow),
    nth_error (loops sys) i = Some l -> pc l = AwaitRead ->
    isMonitoring (page sys) = false -> session (page sys) <> None -> io (page sys) <> None ->
    parseLine ts line = Some r ->
    let sys' := step sys (LoopResumes i (ReadSettled (line_read line) ts now)) in
    isMonitoring (page sys') = true /\ startedFromDevice (page sys') = true.

(** ** The decoder on a parsed object *)

(** [obj.k] on an object with members [m]. *)
Definition look (m : list (jsstring * json)) (k : jsstring) : jsvalue :=
  match own_property k m with
  | Some v => Json v
  | None => Undefined
  end.

Definition is_nullish (v : jsvalue) : bool :=
  match v with
  | Undefined | Json JNull => true
  | _ => false
  end.

(** The cycle index that [parseLine] computes from the value of the cycle
    chain. *)
Definition decode_cycle (c : jsvalue) : completion (option number) :=
  match c with
  | Json (JNumber x) => Normal (Some x)
  | _ =>
      n <- Number c ;;
      if Number_isFinite n then (n' <- Number c ;; Normal (Some n')) else Normal None
  end.

(** The body of the [try] of [parseLine] once the text has parsed to an
    object with members [m], each chain of [??] written as a fold over the
    aliases (lemma [parseLine_try_object]). *)
Definition decode_object (ts : jsstring) (m : list (jsstring * json)) : completion (option RealtimeRow) :=
  pressure <- Number (fold_left nullish (map (look m) pressure_aliases) Undefined) ;;
  temp <- Number (fold_left nullish (map (look m) temperature_aliases) Undefined) ;;
  if Number_isFinite pressure && Number_isFinite temp then
    ci <- decode_cycle (fold_left nullish (map (look m) cycle_aliases) Undefined) ;;
    Normal (Some {| timestamp := ts; measuredPressure := pressure;
                    temperature := temp; cycleIndex := ci |})
  else Normal None.

(** ** The buffer after several appends *)

Definition push_all (prev : list RealtimeRow) (rs : list RealtimeRow) : list RealtimeRow :=
  fold_left (fun b r => push_reading r b) rs prev.

(** ** An invariant of the page

    Without an open connection the page is not monitoring and no loop has
    been started. *)
Definition connection_invariant (sys : System) : Prop :=
  io (page sys) = None -> isMonitoring (page sys) = false /\ loops sys = [].

(** ** Scenarios *)

(** Scenario B of the specification, and a line with a null alias. *)
Definition line_B : jsstring := jsq "{'pressure':23.4,'temperature':32.1,'cycle':1}".
Definition line_null_alias : jsstring := jsq "{'pressure':null,'p':5,'t':1}".

Definition num_23_4 : number := decimal_to_number false 234 (-1).
Definition num_32_1 : number := decimal_to_number false 321 (-1).

(** The rows that scenarios B and D decode to. *)
Definition row_B : RealtimeRow :=
  {| timestamp := ts1; measuredPressure := num_23_4; temperature := num_32_1;
     cycleIndex := Some (num_of_Z 1) |}.

Definition row_D : RealtimeRow :=
  {| timestamp := ts1; measuredPressure := num_of_Z 250; temperature := num_of_Z 10;
     cycleIndex := None |}.

Definition connected_page : State := page (run_acts mounted connect_events).

(** The device starts a cycle on its own: the loop of connection 1 reads
    a line, and its upload settles. *)
Definition device_start_events : list event :=
  connect_events ++
  [LoopResumes 0 (ReadSettled (line_read line_B) ts1 5000);
   LoopResumes 0 (AddDataSettled (Rejected NotAnError))].

Definition device_started_page : State := page (run_acts mounted device_start_events).

(** A patient is chosen; and then the target pressure is typed as 0. *)
Definition patient_chosen_page : State := page (run_acts mounted [ChoosePatient (js "p1")]).

Definition bad_pressure_page : State :=
  page (run_acts mounted [ChoosePatient (js "p1"); TypeTargetPressure (js "0")]).

(** The operator starts and then disconnects while monitoring. *)
Definition disconnect_while_monitoring : list event :=
  connect_events ++ [ClickStart (Fulfilled tt); ClickDisconnect (Fulfilled tt)].

(** The operator starts, disconnects while monitoring (the read of the
    first loop ends), connects again and stops: the loop of the second
    connection was started in a render in which [isMonitoring] was true. *)
Definition reconnect_events : list event :=
  connect_events ++
  [ClickStart (Fulfilled tt);
   ClickDisconnect (Fulfilled tt);
   LoopResumes 0 (ReadSettled (Fulfilled {| value := None; done := true |}) ts1 4000);
   ClickConnect (Fulfilled 2%N);
   ClickStop (Fulfilled tt)].

Definition reconnected : System := run_acts mounted reconnect_events.

(** Lines that arrive 1000 ms or more apart, and lines that arrive faster;
    every upload fails. *)
Definition offers_spaced : list offer :=
  [ {| offer_ts := ts1; offer_now := 5000; offer_line := line_B;
       offer_upload := Rejected NotAnError |};
    {| offer_ts := ts1; offer_now := 6000; offer_line := line_D;
       offer_upload := Rejected NotAnError |};
    {| offer_ts := ts1; offer_now := 7500; offer_line := line_B;
       offer_upload := Rejected NotAnError |} ].

Definition offers_dense : list offer :=
  map (fun t => {| offer_ts := ts1; offer_now := t; offer_line := line_B;
                   offer_upload := Rejected NotAnError |})
      [5000; 5400; 5999; 6000; 6100; 7000; 7001]%Z.

(** 300 rows, told apart by their pressure. *)
Definition rows_300 : list RealtimeRow :=
  map (fun n => {| timestamp := ts1; measuredPressure := num_of_Z (Z.of_nat n);
                   temperature := num_of_Z 20; cycleIndex := None |})
      (seq 0 300).

(** ** The bar of a metric box

    [MetricBox] shows the last pressure and the last temperature, each
    with a bar filled to [pct] per cent of the full-scale value [maxBar].
    [value] is absent while nothing has been read. Division and
    multiplication are those of binary64. *)

Definition num_div (a b : number) : number := SFdiv prec emax a b.
Definition num_mul (a b : number) : number := SFmul prec emax a b.

(** [Number.isFinite(value) ? Number(value) : null]. *)
Definition MetricBox_v (value : option number) : option number :=
  match value with
  | Some x => if Number_isFinite x then Some x else None
  | None => None
  end.

Definition MetricBox_pct (value : option number) (maxBar : number) : number :=
  match MetricBox_v value with
  | None => zero
  | Some v =>
      Math_max zero (Math_min (num_of_Z 100) (num_mul (num_div v maxBar) (num_of_Z 100)))
  end.

(** ** What the page asks of the outside world

    The sessions that the service has returned to the page and the
    connections that the adapter has opened for it, in a run of events. *)

Definition created_sessions (evs : list event) : list Session :=
  flat_map (fun ev => match ev with
                      | ClickCreateSession (Fulfilled sess) => [sess]
                      | _ => []
                      end) evs.

Definition opened_connections (evs : list event) : list SerialIO :=
  flat_map (fun ev => match ev with
                      | ClickConnect (Fulfilled c) => [c]
                      | _ => []
                      end) evs.

(** A call to the serial adapter that is in order, [cs] being the
    connections opened so far. *)
Definition serial_call_ok (cs : list SerialIO) (c : call) : Prop :=
  match c with
  | call_openPort _ baudRate => baudRate = 115200%Z
  | call_writeLine c cmd => In c cs /\ (cmd = js "I" \/ cmd = js "S")
  | call_close c | call_read c => In c cs
  | _ => True
  end.

(** A call to the session service that is in order, [ss] being the
    sessions created so far. *)
Definition service_call_ok (ss : list Session) (c : call) : Prop :=
  match c with
  | call_create dto => nonempty (dto_patientId dto) = true
  | call_addData sid dto =>
      (exists sess, In sess ss /\ sid = id sess)
      /\ within zero (num_of_Z 200) (dto_measuredPressure dto)
      /\ within zero (num_of_Z 80) (dto_temperature dto)
  | _ => True
  end.

(** The connection of the page and of every loop is one of [cs], and the
    calls made so far are in order; likewise for the sessions [ss]. *)
Definition serial_inv (cs : list SerialIO) (sys : System) : Prop :=
  (forall c, io (page sys) = Some c -> In c cs)
  /\ Forall (fun l => In (connected l) cs) (loops sys)
  /\ Forall (serial_call_ok cs) (log sys).

Definition service_inv (ss : list Session) (sys : System) : Prop :=
  (forall sess, session (page sys) = Some sess -> In sess ss)
  /\ Forall (fun l => forall sess, seen_session l = Some sess -> In sess ss) (loops sys)
  /\ Forall (service_call_ok ss) (log sys).

(** ** Events that reset the page *)

Definition resets (ev : event) : bool :=
  match ev with ClickReset _ => true | _ => false end.

(** ** Further scenarios *)

(** The connected page after a disconnect: the loop is cancelled. *)
Definition cancelled_page : State := after (handleDisconnect connected_page (Fulfilled tt)).


(** ** Tactics *)

Ltac case_if H :=
  match type of H with
  | context [if ?b then _ else _] => destruct b eqn:?
  end.

Ltac goal_if :=
  match goal with
  | |- context [if ?b then _ else _] => destruct b eqn:?
  end.

(** Replace a state by its fields, so that the updaters compute. *)
Ltac open_state s :=
  let pid := fresh "pid" in let sess := fresh "sess" in let tp := fresh "tp" in
  let ht := fresh "ht" in let pts := fresh "pts" in let idx := fresh "idx" in
  let cio := fresh "cio" in let mon := fresh "mon" in let sfd := fresh "sfd" in
  let ld := fresh "ld" in let er := fresh "er" in let rt := fresh "rt" in
  let lst := fresh "lst" in let cl := fresh "cl" in
  destruct s as [pid sess tp ht pts idx cio mon sfd ld er rt lst cl].

(** The cases of an event, with its arguments named. *)
Ltac open_event ev :=
  destruct ev as [pid'|text|text|created|idx'|picked listed|opened|closed|written|written|closed|j ev'].

(** Equal fields, one by one. *)
Ltac same_fields := repeat (split; [reflexivity|]); reflexivity.

(** * Properties *)

(** ** [JSON.parse] terminates within its fuel

    Every parser leaves a rest shorter than its text, so the fuel given by
    [JSON_parse] is never used up: a [Throw] of [JSON_parse] is a syntax
    error. *)

Lemma skip_ws_length (s : jsstring) : List.length (skip_ws s) <= List.length s.
Proof.
  induction s as [|c r IH]; simpl; [lia|].
  destruct (is_json_ws c); simpl; lia.
Qed.

Lemma strip_prefix_length (p s r : jsstring) :
  strip_prefix p s = Some r -> List.length r + List.length p = List.length s.
Proof.
  revert s; induction p as [|a p IH]; intros [|b s] H; simpl in *; try congruence.
  - inversion H; subst; simpl; lia.
  - inversion H; subst; simpl; lia.
  - destruct (N.eqb a b); [|discriminate]. apply IH in H. lia.
Qed.

Lemma span_digits_length (s d r : jsstring) :
  span_digits s = (d, r) -> List.length d + List.length r = List.length s.
Proof.
  revert d r; induction s as [|c s IH]; intros d r H; simpl in H.
  - inversion H; reflexivity.
  - destruct (is_digit c).
    + destruct (span_digits s) as [d' r'] eqn:E. inversion H; subst.
      specialize (IH _ _ eq_refl). simpl. lia.
    + inversion H; subst. simpl. lia.
Qed.

Lemma parse_exponent_length (s r : jsstring) (e : Z) :
  parse_exponent s = Some (e, r) -> List.length r < List.length s.
Proof.
  unfold parse_exponent. intros H.
  destruct (match s with
            | [] => (false, s)
            | c :: r0 =>
                if N.eqb c (ch "-") then (true, r0)
                else if N.eqb c (ch "+") then (false, r0) else (false, s)
            end) as [neg s1] eqn:E1.
  destruct (span_digits s1) as [d r0] eqn:E. apply span_digits_length in E.
  destruct d as [|d0 d]; [discriminate|]. inversion H; subst. simpl in E.
  destruct s as [|c s']; [inversion E1; subst; simpl in *; lia|].
  destruct (N.eqb c (ch "-")); [inversion E1; subst; simpl; lia|].
  destruct (N.eqb c (ch "+")); inversion E1; subst; simpl in *; lia.
Qed.

Lemma parse_json_number_length (s rest : jsstring) (x : number) :
  parse_json_number s = Some (x, rest) -> List.length rest < List.length s.
Proof.
  unfold parse_json_number. intros H.
  destruct (match s with
            | [] => (false, s)
            | c :: r => if N.eqb c (ch "-") then (true, r) else (false, s)
            end) as [neg s1] eqn:E1.
  assert (L1 : List.length s1 <= List.length s).
  { destruct s as [|c r]; [inversion E1; subst; lia|].
    destruct (N.eqb c (ch "-")); inversion E1; subst; simpl; lia. }
  destruct (match s1 with
            | [] => ([], [])
            | c :: r => if N.eqb c (ch "0") then ([c], r) else span_digits s1
            end) as [ip s2] eqn:E2.
  assert (L2 : List.length ip + List.length s2 = List.length s1).
  { destruct s1 as [|c r]; [inversion E2; subst; reflexivity|].
    destruct (N.eqb c (ch "0")); [inversion E2; subst; simpl; lia|].
    apply span_digits_length in E2. exact E2. }
  destruct ip as [|i0 ip]; [discriminate|]. simpl in L2.
  match type of H with
  | match ?f with _ => _ end = _ => destruct f as [[fp s3]|] eqn:E3; [|discriminate]
  end.
  assert (L3 : List.length s3 <= List.length s2).
  { destruct s2 as [|c r]; [inversion E3; subst; lia|].
    destruct (N.eqb c (ch ".")).
    - destruct (span_digits r) as [d r'] eqn:E. apply span_digits_length in E.
      destruct d; [discriminate|]. inversion E3; subst. simpl in *. lia.
    - inversion E3; subst. lia. }
  match type of H with
  | match ?f with _ => _ end = _ => destruct f as [[e s4]|] eqn:E4; [|discriminate]
  end.
  inversion H; subst.
  assert (L4 : List.length rest <= List.length s3).
  { destruct s3 as [|c r]; [inversion E4; subst; lia|].
    destruct (is_exponent_indicator c).
    - apply parse_exponent_length in E4. simpl. lia.
    - inversion E4; subst. lia. }
  lia.
Qed.

Lemma parse_string_chars_length (s : jsstring) :
  forall acc str rest, parse_string_chars s acc = Some (str, rest) ->
    List.length rest < List.length s.
Proof.
  assert (G : forall n s, List.length s <= n -> forall acc str rest,
             parse_string_chars s acc = Some (str, rest) -> List.length rest < List.length s).
  { induction n as [|n IH]; intros s0 Hn acc str rest H.
    - destruct s0; [discriminate | simpl in Hn; lia].
    - destruct s0 as [|c r]; [discriminate|]. simpl in H. simpl in Hn.
      case_if H; [inversion H; subst; simpl; lia|].
      case_if H.
      + destruct r as [|e r']; [discriminate|]. simpl in Hn.
        case_if H.
        * destruct r' as [|h1 [|h2 [|h3 [|h4 r'']]]]; try discriminate.
          destruct (hex4 h1 h2 h3 h4); [|discriminate].
          apply IH in H; simpl in *; lia.
        * destruct (simple_escape e); [|discriminate].
          apply IH in H; simpl in *; lia.
      + case_if H; [discriminate|].
        apply IH in H; simpl in *; lia. }
  intros. eapply G; eauto.
Qed.

Lemma parse_literal_length (s rest : jsstring) (v : json) :
  parse_literal s = Parsed v rest -> List.length rest < List.length s.
Proof.
  unfold parse_literal. intros H.
  destruct (strip_prefix (js "true") s) eqn:E1.
  { inversion H; subst. apply strip_prefix_length in E1. simpl in E1. lia. }
  destruct (strip_prefix (js "false") s) eqn:E2.
  { inversion H; subst. apply strip_prefix_length in E2. simpl in E2. lia. }
  destruct (strip_prefix (js "null") s) eqn:E3.
  { inversion H; subst. apply strip_prefix_length in E3. simpl in E3. lia. }
  destruct (parse_json_number s) as [[x r]|] eqn:E4; [|discriminate].
  inversion H; subst. eapply parse_json_number_length; eauto.
Qed.

Lemma parse_literal_fuel (s : jsstring) : parse_literal s <> OutOfFuel.
Proof.
  unfold parse_literal.
  destruct (strip_prefix (js "true") s); [discriminate|].
  destruct (strip_prefix (js "false") s); [discriminate|].
  destruct (strip_prefix (js "null") s); [discriminate|].
  destruct (parse_json_number s) as [[x r]|]; discriminate.
Qed.

Lemma parsed_map_fuel {A B : Type} (f : A -> B) (p : parsed A) :
  parsed_map f p = OutOfFuel -> p = OutOfFuel.
Proof. destruct p; simpl; congruence. Qed.

Lemma parsed_map_parsed {A B : Type} (f : A -> B) (p : parsed A) (b : B) (rest : jsstring) :
  parsed_map f p = Parsed b rest -> exists a, p = Parsed a rest /\ b = f a.
Proof. destruct p; simpl; intros H; inversion H; subst; eauto. Qed.

Lemma fuel_ok_error {A : Type} (s : jsstring) : fuel_ok (@SyntaxError A) s.
Proof. split; [discriminate | intros a rest H; discriminate]. Qed.

Lemma fuel_ok_parsed {A : Type} (a : A) (rest s : jsstring) :
  List.length rest < List.length s -> fuel_ok (Parsed a rest) s.
Proof. intros L; split; [discriminate | intros a' rest' H; inversion H; subst; exact L]. Qed.

Lemma fuel_ok_map {A B : Type} (f : A -> B) (p : parsed A) (s s' : jsstring) :
  fuel_ok p s' -> List.length s' <= List.length s -> fuel_ok (parsed_map f p) s.
Proof.
  intros [F L] Hl; split.
  - intros H; apply parsed_map_fuel in H; contradiction.
  - intros b rest H. apply parsed_map_parsed in H as (a & H & _).
    apply L in H. lia.
Qed.

Lemma parse_fuel_enough (fuel : nat) :
  (forall s, 2 * List.length s < fuel -> fuel_ok (parse_value fuel s) s)
  /\ (forall s, 2 * List.length s < fuel -> fuel_ok (parse_members fuel s) s)
  /\ (forall s, 2 * List.length s + 1 < fuel -> fuel_ok (parse_elements fuel s) s).
Proof.
  induction fuel as [|f (IHv & IHm & IHe)]; [repeat split; intros; lia|].
  split; [|split]; intros s Hs.
  - cbn [parse_value]. pose proof (skip_ws_length s) as Lw.
    destruct (skip_ws s) as [|c r] eqn:E; [apply fuel_ok_error|]. simpl in Lw.
    goal_if.
    { pose proof (skip_ws_length r) as Lr.
      destruct (skip_ws r) as [|c' r'] eqn:E'; [apply fuel_ok_error|]. simpl in Lr.
      goal_if; [apply fuel_ok_parsed; lia|].
      apply fuel_ok_map with (s' := c' :: r'); [apply IHm; simpl; lia | simpl; lia]. }
    goal_if.
    { pose proof (skip_ws_length r) as Lr.
      destruct (skip_ws r) as [|c' r'] eqn:E'; [apply fuel_ok_error|]. simpl in Lr.
      goal_if; [apply fuel_ok_parsed; lia|].
      apply fuel_ok_map with (s' := c' :: r'); [apply IHe; simpl; lia | simpl; lia]. }
    goal_if.
    { destruct (parse_string_chars r []) as [[str rest]|] eqn:Es; [|apply fuel_ok_error].
      apply parse_string_chars_length in Es. apply fuel_ok_parsed; lia. }
    split; [apply parse_literal_fuel|].
    intros a rest H. apply parse_literal_length in H. simpl in H. lia.
  - cbn [parse_members]. pose proof (skip_ws_length s) as Lw.
    destruct (skip_ws s) as [|c r] eqn:E; [apply fuel_ok_error|]. simpl in Lw.
    goal_if; [|apply fuel_ok_error].
    destruct (parse_string_chars r []) as [[k r1]|] eqn:Es; [|apply fuel_ok_error].
    apply parse_string_chars_length in Es.
    pose proof (skip_ws_length r1) as L1.
    destruct (skip_ws r1) as [|c1 r2] eqn:E1; [apply fuel_ok_error|]. simpl in L1.
    goal_if; [|apply fuel_ok_error].
    destruct (IHv r2) as [Fv Lv]; [lia|].
    destruct (parse_value f r2) as [v r3| |] eqn:Ev; [|apply fuel_ok_error|contradiction].
    specialize (Lv _ _ eq_refl).
    pose proof (skip_ws_length r3) as L3.
    destruct (skip_ws r3) as [|c3 r4] eqn:E3; [apply fuel_ok_error|]. simpl in L3.
    goal_if.
    { apply fuel_ok_map with (s' := r4); [apply IHm; lia | lia]. }
    goal_if; [apply fuel_ok_parsed; lia | apply fuel_ok_error].
  - cbn [parse_elements].
    destruct (IHv s) as [Fv Lv]; [lia|].
    destruct (parse_value f s) as [v r1| |] eqn:Ev; [|apply fuel_ok_error|contradiction].
    specialize (Lv _ _ eq_refl).
    pose proof (skip_ws_length r1) as L1.
    destruct (skip_ws r1) as [|c r2] eqn:E1; [apply fuel_ok_error|]. simpl in L1.
    goal_if.
    { apply fuel_ok_map with (s' := r2); [apply IHe; lia | lia]. }
    goal_if; [apply fuel_ok_parsed; lia | apply fuel_ok_error].
Qed.

(** The fuel of [JSON_parse] is enough for every text. *)
Lemma JSON_parse_fuel (s : jsstring) : parse_value (S (2 * List.length s)) s <> OutOfFuel.
Proof. apply (parse_fuel_enough (S (2 * List.length s))). lia. Qed.

(** ** Order on numbers, [Math.min], [Math.max] and [clamp] *)

Lemma SFcompare_antisym (a b : number) :
  SFcompare b a = option_map CompOpp (SFcompare a b).
Proof.
  destruct a as [sa|sa| |sa ma ea], b as [sb|sb| |sb mb eb]; simpl; try reflexivity;
    try (destruct sa; reflexivity); try (destruct sb; reflexivity);
    try (destruct sa, sb; reflexivity).
  assert (P : Pos.compare_cont Eq mb ma = CompOpp (Pos.compare_cont Eq ma mb)).
  { rewrite (Pos.compare_cont_antisym ma mb Eq). reflexivity. }
  destruct sa, sb; simpl; try reflexivity;
    rewrite (Z.compare_antisym ea eb), P; destruct (ea ?= eb)%Z; simpl; try reflexivity;
    destruct (Pos.compare_cont Eq ma mb); reflexivity.
Qed.

Lemma SFcompare_total (a b : number) :
  is_nan a = false -> is_nan b = false -> exists c, SFcompare a b = Some c.
Proof.
  destruct a, b; simpl; intros; try discriminate; eauto.
Qed.

Lemma num_lt_le (a b : number) : num_lt a b = true -> num_le a b = true.
Proof.
  unfold num_lt, num_le, SFltb, SFleb.
  destruct (SFcompare a b) as [[]|]; congruence.
Qed.

Lemma num_not_lt_le (a b : number) :
  is_nan a = false -> is_nan b = false ->
  num_lt a b = false -> num_lt b a = false -> num_le a b = true /\ num_le b a = true.
Proof.
  intros Ha Hb. unfold num_lt, num_le, SFltb, SFleb.
  rewrite (SFcompare_antisym a b).
  destruct (SFcompare_total a b Ha Hb) as [c ->]. destruct c; simpl; auto; discriminate.
Qed.

Lemma Math_min_nan (a b : number) :
  is_nan a = false -> is_nan b = false -> is_nan (Math_min a b) = false.
Proof.
  intros Ha Hb. unfold Math_min. rewrite Ha, Hb. simpl.
  destruct (num_lt a b); [exact Ha|]. destruct (num_lt b a); [exact Hb|].
  destruct a as [[]| | |]; auto.
Qed.

Lemma num_le_refl (x : number) : is_nan x = false -> num_le x x = true.
Proof.
  intros Hx. unfold num_le, SFleb. pose proof (SFcompare_antisym x x) as X.
  destruct (SFcompare_total x x Hx Hx) as [c E]. rewrite E in *.
  destruct c; simpl in X; congruence.
Qed.

(** [Math.min a b] is below both arguments. *)
Lemma Math_min_le (a b : number) :
  is_nan a = false -> is_nan b = false ->
  num_le (Math_min a b) a = true /\ num_le (Math_min a b) b = true.
Proof.
  intros Ha Hb. unfold Math_min. rewrite Ha, Hb. simpl.
  pose proof (num_le_refl a Ha) as Ra. pose proof (num_le_refl b Hb) as Rb.
  destruct (num_lt a b) eqn:L1; [split; [exact Ra | apply num_lt_le; exact L1]|].
  destruct (num_lt b a) eqn:L2; [split; [apply num_lt_le; exact L2 | exact Rb]|].
  destruct (num_not_lt_le a b Ha Hb L1 L2) as [H1 H2].
  destruct a as [[]| | |]; auto.
Qed.

(** [Math.max a b] is above both arguments, and is one of them. *)
Lemma Math_max_ge (a b : number) :
  is_nan a = false -> is_nan b = false ->
  num_le a (Math_max a b) = true /\ num_le b (Math_max a b) = true.
Proof.
  intros Ha Hb. unfold Math_max. rewrite Ha, Hb. simpl.
  pose proof (num_le_refl a Ha) as Ra. pose proof (num_le_refl b Hb) as Rb.
  destruct (num_lt a b) eqn:L1; [split; [apply num_lt_le; exact L1 | exact Rb]|].
  destruct (num_lt b a) eqn:L2; [split; [exact Ra | apply num_lt_le; exact L2]|].
  destruct (num_not_lt_le a b Ha Hb L1 L2) as [H1 H2].
  destruct a as [[]| | |]; auto.
Qed.

Lemma Math_max_cases (a b : number) :
  is_nan a = false -> is_nan b = false -> Math_max a b = a \/ Math_max a b = b.
Proof.
  intros Ha Hb. unfold Math_max. rewrite Ha, Hb. simpl.
  destruct (num_lt a b); auto. destruct (num_lt b a); auto.
  destruct a as [[]| | |]; auto.
Qed.

Lemma finite_not_nan (x : number) : Number_isFinite x = true -> is_nan x = false.
Proof. destruct x; simpl; congruence. Qed.

(** [clamp] of a number that is not NaN, between bounds [lo <= hi], lies
    within the bounds. *)
Lemma clamp_in_range (n lo hi : number) :
  is_nan n = false -> is_nan lo = false -> is_nan hi = false -> num_le lo hi = true ->
  num_le lo (clamp n lo hi) = true /\ num_le (clamp n lo hi) hi = true.
Proof.
  intros Hn Hlo Hhi Hle. unfold clamp.
  pose proof (Math_min_nan hi n Hhi Hn) as Hm.
  destruct (Math_min_le hi n Hhi Hn) as [M1 _].
  destruct (Math_max_ge lo (Math_min hi n) Hlo Hm) as [G1 _].
  split; [exact G1|].
  destruct (Math_max_cases lo (Math_min hi n) Hlo Hm) as [-> | ->]; assumption.
Qed.

(** ** [parseLine] *)

Lemma startsWith_brace (s : jsstring) :
  startsWith s (js "{") = true -> exists r, s = ch "{" :: r.
Proof.
  unfold startsWith. destruct s as [|c r]; [discriminate|].
  change (js "{") with [ch "{"]. cbn [strip_prefix].
  destruct (N.eqb (ch "{") c) eqn:E; [|discriminate].
  apply N.eqb_eq in E. subst c. eauto.
Qed.

Lemma parse_value_brace (fuel : nat) (r : jsstring) :
  parse_value (S fuel) (ch "{" :: r) =
  match skip_ws r with
  | [] => SyntaxError
  | c' :: r' =>
      if N.eqb c' (ch "}") then Parsed (JObject []) r'
      else parsed_map JObject (parse_members fuel (c' :: r'))
  end.
Proof. reflexivity. Qed.

(** A text that starts with a brace parses, if at all, to an object. *)
Lemma JSON_parse_object (s : jsstring) (v : json) :
  startsWith s (js "{") = true -> JSON_parse s = Normal v -> exists m, v = JObject m.
Proof.
  intros H P. apply startsWith_brace in H as [r ->].
  unfold JSON_parse in P. rewrite parse_value_brace in P.
  destruct (skip_ws r) as [|c' r']; [discriminate|].
  destruct (N.eqb c' (ch "}")).
  - destruct (skip_ws r'); inversion P; eauto.
  - destruct (parse_members _ (c' :: r')) as [m rest| |];
      simpl in P; try discriminate.
    destruct (skip_ws rest); inversion P; eauto.
Qed.

Lemma parseLine_unfold (ts line : jsstring) (r : RealtimeRow) :
  parseLine ts line = Some r <->
  startsWith (trim line) (js "{") = true /\ endsWith (trim line) (js "}") = true
  /\ parseLine_try ts (trim line) = Normal (Some r).
Proof.
  unfold parseLine. split.
  - destruct (trim line) as [|c s] eqn:E; [discriminate|].
    destruct (startsWith (c :: s) (js "{")); simpl; [|discriminate].
    destruct (endsWith (c :: s) (js "}")); simpl; [|discriminate].
    destruct (parseLine_try ts (c :: s)) as [o|]; [|discriminate].
    intros ->. auto.
  - intros (H1 & H2 & H3).
    destruct (trim line) as [|c s] eqn:E; [discriminate|].
    rewrite H1, H2, H3. reflexivity.
Qed.

Lemma Get_object (m : list (jsstring * json)) (k : jsstring) :
  Get (JObject m) k = Normal (look m k).
Proof. unfold Get, look. destruct (own_property k m); reflexivity. Qed.

Lemma parseLine_try_object (ts s : jsstring) (m : list (jsstring * json)) :
  JSON_parse s = Normal (JObject m) -> parseLine_try ts s = decode_object ts m.
Proof.
  intros P. unfold parseLine_try, decode_object. rewrite P.
  cbn [bind]. repeat (rewrite Get_object; cbn [bind]).
  change (look m (js "pressure") ?? look m (js "measuredPressure") ?? look m (js "p")
            ?? look m (js "pr"))
    with (fold_left nullish (map (look m) pressure_aliases) Undefined).
  destruct (Number _) as [pressure|]; [|reflexivity]. cbn [bind].
  repeat (rewrite Get_object; cbn [bind]).
  change (look m (js "temperature") ?? look m (js "temp") ?? look m (js "t"))
    with (fold_left nullish (map (look m) temperature_aliases) Undefined).
  destruct (Number _) as [temp|]; [|reflexivity]. cbn [bind].
  repeat (rewrite Get_object; cbn [bind]).
  change (look m (js "cycle") ?? look m (js "cycleIndex"))
    with (fold_left nullish (map (look m) cycle_aliases) Undefined).
  destruct (Number_isFinite pressure && Number_isFinite temp); [|reflexivity].
  unfold decode_cycle.
  destruct (fold_left nullish (map (look m) cycle_aliases) Undefined) as [|[]]; reflexivity.
Qed.

Lemma coalesce_kept (vs : list jsvalue) (acc : jsvalue) :
  is_nullish acc = false -> fold_left nullish vs acc = acc.
Proof.
  revert acc; induction vs as [|v vs IH]; intros acc H; simpl; [reflexivity|].
  replace (acc ?? v) with acc; [apply IH; exact H|].
  destruct acc as [|[]]; simpl in *; congruence.
Qed.

(** A chain of [??] over the aliases of a field evaluates to the first
    value that is neither absent nor [null]; if there is none, to
    [undefined] or [null]. *)
Lemma coalesce_first_non_null (m : list (jsstring * json)) (ks : list jsstring) :
  forall acc, is_nullish acc = true ->
    match first_non_null ks m with
    | Some v => fold_left nullish (map (look m) ks) acc = Json v
    | None => is_nullish (fold_left nullish (map (look m) ks) acc) = true
    end.
Proof.
  induction ks as [|k ks IH]; intros acc H; simpl; [exact H|].
  replace (acc ?? look m k) with (look m k) by (destruct acc as [|[]]; simpl in *; congruence).
  assert (L : look m k = match own_property k m with Some v => Json v | None => Undefined end)
    by reflexivity.
  destruct (own_property k m) as [v|]; rewrite L.
  - destruct v; try (apply coalesce_kept; reflexivity); apply IH; reflexivity.
  - apply IH; reflexivity.
Qed.

Lemma decode_cycle_value (v : json) (ci : option number) :
  decode_cycle (Json v) = Normal ci -> ci = cycle_value v.
Proof.
  unfold decode_cycle, cycle_value.
  destruct v; try (intros H; inversion H; reflexivity);
    destruct (Number _) as [n|]; cbn [bind]; try discriminate;
    destruct (Number_isFinite n); intros H; inversion H; reflexivity.
Qed.

Lemma decode_cycle_total (v : json) :
  Number (Json v) <> Throw -> exists ci, decode_cycle (Json v) = Normal ci.
Proof.
  unfold decode_cycle. intros H.
  destruct v; try (eexists; reflexivity);
    destruct (Number _) as [n|]; cbn [bind]; try contradiction;
    destruct (Number_isFinite n); eexists; reflexivity.
Qed.

Lemma decode_object_some (ts : jsstring) (m : list (jsstring * json)) (r : RealtimeRow) :
  decode_object ts m = Normal (Some r) ->
  exists ci,
    Number (fold_left nullish (map (look m) pressure_aliases) Undefined) = Normal (measuredPressure r)
    /\ Number (fold_left nullish (map (look m) temperature_aliases) Undefined) = Normal (temperature r)
    /\ Number_isFinite (measuredPressure r) = true
    /\ Number_isFinite (temperature r) = true
    /\ decode_cycle (fold_left nullish (map (look m) cycle_aliases) Undefined) = Normal ci
    /\ r = {| timestamp := ts; measuredPressure := measuredPressure r;
              temperature := temperature r; cycleIndex := ci |}.
Proof.
  unfold decode_object.
  destruct (Number (fold_left nullish (map (look m) pressure_aliases) Undefined)) as [p|];
    cbn [bind]; [|discriminate].
  destruct (Number (fold_left nullish (map (look m) temperature_aliases) Undefined)) as [t|];
    cbn [bind]; [|discriminate].
  destruct (Number_isFinite p) eqn:Fp, (Number_isFinite t) eqn:Ft; cbn [andb];
    try discriminate.
  destruct (decode_cycle _) as [ci|]; cbn [bind]; [|discriminate].
  intros H; inversion H; subst; simpl. exists ci. repeat split; auto.
Qed.

Lemma first_non_null_chain (m : list (jsstring * json)) (ks : list jsstring) (v : json) :
  first_non_null ks m = Some v ->
  fold_left nullish (map (look m) ks) Undefined = Json v.
Proof.
  intros H. pose proof (coalesce_first_non_null m ks Undefined eq_refl) as C.
  rewrite H in C. exact C.
Qed.

Lemma absent_chain (m : list (jsstring * json)) :
  own_property (js "cycle") m = None -> own_property (js "cycleIndex") m = None ->
  fold_left nullish (map (look m) cycle_aliases) Undefined = Undefined.
Proof.
  intros H1 H2. unfold cycle_aliases. cbn [map fold_left]. unfold look.
  rewrite H1, H2. reflexivity.
Qed.

(** What [parseLine] returns, it returns for an object text, and the row
    holds the time stamp and the finite coercions of the first non-null
    aliases. *)
Lemma parseLine_sound (ts line : jsstring) (r : RealtimeRow) :
  parseLine ts line = Some r ->
  exists m, is_object_text (trim line) m
    /\ timestamp r = ts
    /\ Number_isFinite (measuredPressure r) = true
    /\ Number_isFinite (temperature r) = true
    /\ (forall v, first_non_null pressure_aliases m = Some v ->
          Number (Json v) = Normal (measuredPressure r))
    /\ (forall v, first_non_null temperature_aliases m = Some v ->
          Number (Json v) = Normal (temperature r))
    /\ (forall v, first_non_null cycle_aliases m = Some v -> cycleIndex r = cycle_value v)
    /\ (own_property (js "cycle") m = None -> own_property (js "cycleIndex") m = None ->
        cycleIndex r = None).
Proof.
  intros H. apply parseLine_unfold in H as (H1 & H2 & H3).
  destruct (JSON_parse (trim line)) as [obj|] eqn:P;
    [|unfold parseLine_try in H3; rewrite P in H3; discriminate].
  destruct (JSON_parse_object _ _ H1 P) as [m ->].
  rewrite (parseLine_try_object _ _ _ P) in H3.
  apply decode_object_some in H3 as (ci & Np & Nt & Fp & Ft & Ci & R).
  exists m. split; [repeat split; assumption|].
  split; [rewrite R; reflexivity|].
  split; [exact Fp|]. split; [exact Ft|].
  split; [intros v Hv; rewrite (first_non_null_chain _ _ _ Hv) in Np; exact Np|].
  split; [intros v Hv; rewrite (first_non_null_chain _ _ _ Hv) in Nt; exact Nt|].
  split.
  - intros v Hv. rewrite (first_non_null_chain _ _ _ Hv) in Ci.
    apply decode_cycle_value in Ci. rewrite R. exact Ci.
  - intros A1 A2. rewrite (absent_chain _ A1 A2) in Ci.
    rewrite R. simpl. inversion Ci. reflexivity.
Qed.

(** For an object text whose first non-null pressure and temperature
    aliases coerce to finite numbers, [parseLine] returns a row with those
    numbers, whatever the cycle field holds, unless coercing it throws. *)
Lemma parseLine_complete (ts line : jsstring) (m : list (jsstring * json))
    (vp vt : json) (p t : number) :
  is_object_text (trim line) m ->
  first_non_null pressure_aliases m = Some vp -> Number (Json vp) = Normal p ->
  Number_isFinite p = true ->
  first_non_null temperature_aliases m = Some vt -> Number (Json vt) = Normal t ->
  Number_isFinite t = true ->
  (forall vc, first_non_null cycle_aliases m = Some vc -> Number (Json vc) <> Throw) ->
  exists r, parseLine ts line = Some r /\ measuredPressure r = p /\ temperature r = t
            /\ timestamp r = ts.
Proof.
  intros (H1 & H2 & P) Hp Np Fp Ht Nt Ft Hc.
  assert (exists ci, decode_cycle (fold_left nullish (map (look m) cycle_aliases) Undefined)
                     = Normal ci) as [ci Ci].
  { destruct (fold_left nullish (map (look m) cycle_aliases) Undefined) as [|vc] eqn:E.
    - eexists; reflexivity.
    - apply decode_cycle_total.
      pose proof (coalesce_first_non_null m cycle_aliases Undefined eq_refl) as C.
      destruct (first_non_null cycle_aliases m) as [v|] eqn:F.
      + rewrite E in C. inversion C; subst. apply Hc. reflexivity.
      + rewrite E in C. destruct vc; discriminate. }
  exists {| timestamp := ts; measuredPressure := p; temperature := t; cycleIndex := ci |}.
  split; [|auto]. apply parseLine_unfold. split; [exact H1|]. split; [exact H2|].
  rewrite (parseLine_try_object _ _ _ P). unfold decode_object.
  rewrite (first_non_null_chain _ _ _ Hp), Np. cbn [bind].
  rewrite (first_non_null_chain _ _ _ Ht), Nt. cbn [bind].
  rewrite Fp, Ft, Ci. reflexivity.
Qed.

Lemma nullish_left (acc v : jsvalue) : is_nullish acc = true -> acc ?? v = v.
Proof. destruct acc as [|[]]; simpl; congruence. Qed.

(** The value of a chain of [??] over the aliases of a field. *)
Lemma chain_from (m : list (jsstring * json)) (ks : list jsstring) :
  forall acc, is_nullish acc = true ->
    fold_left nullish (map (look m) ks) acc =
    match first_non_null ks m with
    | Some v => Json v
    | None =>
        match ks with
        | [] => acc
        | _ :: _ => if last_alias_null ks m then Json JNull else Undefined
        end
    end.
Proof.
  induction ks as [|k ks IH]; intros acc H; [reflexivity|].
  cbn [map fold_left first_non_null]. rewrite (nullish_left _ _ H).
  change (look m k) with (match own_property k m with Some v => Json v | None => Undefined end).
  assert (L : last_alias_null (k :: ks) m =
              match ks with
              | [] => match own_property k m with Some JNull => true | _ => false end
              | _ :: _ => last_alias_null ks m
              end).
  { destruct ks; reflexivity. }
  destruct (own_property k m) as [v|] eqn:O; cbv beta iota.
  - destruct v; try (apply coalesce_kept; reflexivity).
    rewrite (IH (Json JNull) eq_refl), L.
    destruct (first_non_null ks m); [reflexivity|]. destruct ks; reflexivity.
  - rewrite (IH Undefined eq_refl), L.
    destruct (first_non_null ks m); [reflexivity|]. destruct ks; reflexivity.
Qed.

Lemma chain_value (m : list (jsstring * json)) (ks : list jsstring) :
  ks <> [] ->
  fold_left nullish (map (look m) ks) Undefined =
  match first_non_null ks m with
  | Some v => Json v
  | None => if last_alias_null ks m then Json JNull else Undefined
  end.
Proof.
  intros N. rewrite (chain_from m ks Undefined eq_refl).
  destruct (first_non_null ks m); [reflexivity|]. destruct ks; [contradiction|reflexivity].
Qed.

Lemma chain_number (m : list (jsstring * json)) (ks : list jsstring) (x : number) :
  ks <> [] ->
  (Number (fold_left nullish (map (look m) ks) Undefined) = Normal x
   /\ Number_isFinite x = true)
  <-> alias_number ks m = Some x.
Proof.
  intros N. rewrite (chain_value m ks N). unfold alias_number.
  destruct (first_non_null ks m) as [v|].
  - destruct (Number (Json v)) as [y|]; [|split; [intros [X _]; discriminate | discriminate]].
    split.
    + intros [X F]. inversion X; subst. rewrite F. reflexivity.
    + destruct (Number_isFinite y) eqn:F; [|discriminate].
      intros X. inversion X; subst. auto.
  - destruct (last_alias_null ks m); cbn [Number].
    + split; [intros [X _]; inversion X; reflexivity | intros X; inversion X; auto].
    + split; [intros [X F]; inversion X; subst; discriminate | discriminate].
Qed.

Lemma chain_cycle (m : list (jsstring * json)) (ci : option number) :
  decode_cycle (fold_left nullish (map (look m) cycle_aliases) Undefined) = Normal ci
  <-> alias_cycle m = Some ci.
Proof.
  rewrite (chain_value m cycle_aliases) by discriminate. unfold alias_cycle.
  destruct (first_non_null cycle_aliases m) as [v|].
  - unfold decode_cycle.
    destruct v; try (split; intros X; inversion X; reflexivity);
      destruct (Number _) as [n|]; cbn [bind];
      try (split; discriminate);
      destruct (Number_isFinite n); split; intros X; inversion X; reflexivity.
  - destruct (last_alias_null cycle_aliases m);
      split; intros X; inversion X; reflexivity.
Qed.

(** [parseLine] returns exactly the rows of the object texts whose
    pressure and temperature decode to numbers and whose cycle field can
    be coerced. *)
Lemma parseLine_exact (ts line : jsstring) (r : RealtimeRow) :
  parseLine ts line = Some r <->
  exists m, is_object_text (trim line) m
    /\ timestamp r = ts
    /\ alias_number pressure_aliases m = Some (measuredPressure r)
    /\ alias_number temperature_aliases m = Some (temperature r)
    /\ alias_cycle m = Some (cycleIndex r).
Proof.
  split.
  - intros H. apply parseLine_unfold in H as (H1 & H2 & H3).
    destruct (JSON_parse (trim line)) as [obj|] eqn:P;
      [|unfold parseLine_try in H3; rewrite P in H3; discriminate].
    destruct (JSON_parse_object _ _ H1 P) as [m ->].
    rewrite (parseLine_try_object _ _ _ P) in H3.
    apply decode_object_some in H3 as (ci & Np & Nt & Fp & Ft & Ci & R).
    exists m. split; [repeat split; assumption|].
    split; [rewrite R; reflexivity|].
    split; [apply chain_number; [discriminate | auto]|].
    split; [apply chain_number; [discriminate | auto]|].
    apply chain_cycle. rewrite R. exact Ci.
  - intros (m & (H1 & H2 & P) & T & Ap & At & Ac).
    apply chain_number in Ap as [Np Fp]; [|discriminate].
    apply chain_number in At as [Nt Ft]; [|discriminate].
    apply chain_cycle in Ac.
    apply parseLine_unfold. split; [exact H1|]. split; [exact H2|].
    rewrite (parseLine_try_object _ _ _ P). unfold decode_object.
    rewrite Np, Nt. cbn [bind]. rewrite Fp, Ft, Ac. cbn [andb bind].
    destruct r. cbn in *. subst. reflexivity.
Qed.

Lemma absent_alias_number (ks : list jsstring) (m : list (jsstring * json)) :
  (forall k, In k ks -> own_property k m = None) -> alias_number ks m = None.
Proof.
  intros H. unfold alias_number.
  assert (F : first_non_null ks m = None).
  { induction ks as [|k ks IH]; [reflexivity|]. cbn [first_non_null].
    rewrite (H k (or_introl eq_refl)). apply IH. intros k' I. apply H. right. exact I. }
  rewrite F. unfold last_alias_null. destruct ks as [|k ks]; [reflexivity|].
  rewrite (H (last (k :: ks) [])); [reflexivity|].
  destruct (@exists_last _ (k :: ks) ltac:(discriminate)) as (l' & a & E).
  rewrite E, last_last. apply in_or_app. right. left. reflexivity.
Qed.

(** ** The buffer *)

Lemma slice_last_length {A : Type} (k : nat) (l : list A) :
  List.length (slice_last k l) = Nat.min k (List.length l).
Proof. unfold slice_last. rewrite length_skipn. lia. Qed.

Lemma slice_last_short {A : Type} (k : nat) (l : list A) :
  List.length l <= k -> slice_last k l = l.
Proof.
  intros H. unfold slice_last. replace (List.length l - k) with 0 by lia. reflexivity.
Qed.

Lemma slice_last_app {A : Type} (k : nat) (l l' : list A) :
  slice_last k (slice_last k l ++ l') = slice_last k (l ++ l').
Proof.
  destruct (Nat.le_gt_cases (List.length l) k) as [H|H].
  - rewrite (slice_last_short k l H). reflexivity.
  - unfold slice_last.
    rewrite !length_app, length_skipn.
    replace (List.length l - (List.length l - k) + List.length l' - k)
      with (List.length l') by lia.
    replace (List.length l + List.length l' - k)
      with (List.length l' + (List.length l - k)) by lia.
    rewrite <- skipn_skipn. f_equal.
    rewrite skipn_app.
    replace (List.length l - k - List.length l) with 0 by lia.
    reflexivity.
Qed.

Lemma slice_last_suffix {A : Type} (k : nat) (l l' : list A) :
  k <= List.length l' -> slice_last k (l ++ l') = slice_last k l'.
Proof.
  intros H. unfold slice_last. rewrite length_app, skipn_app.
  rewrite skipn_all2 by lia. simpl. f_equal. lia.
Qed.

Lemma push_reading_length (r : RealtimeRow) (prev : list RealtimeRow) :
  List.length (push_reading r prev) <= 200.
Proof. unfold push_reading. rewrite slice_last_length. lia. Qed.

Lemma push_reading_last (r : RealtimeRow) (prev : list RealtimeRow) :
  last_row (push_reading r prev) = Some r.
Proof.
  unfold push_reading, slice_last, last_row.
  rewrite skipn_app, length_app. simpl.
  replace (List.length prev + 1 - 200 - List.length prev) with 0 by lia.
  simpl. rewrite rev_app_distr. reflexivity.
Qed.

Lemma push_all_slice (rs prev : list RealtimeRow) :
  push_all (slice_last 200 prev) rs = slice_last 200 (prev ++ rs).
Proof.
  revert prev; induction rs as [|r rs IH]; intros prev.
  - rewrite app_nil_r. reflexivity.
  - unfold push_all. cbn [fold_left]. fold (push_all (push_reading r (slice_last 200 prev)) rs).
    unfold push_reading. rewrite slice_last_app, IH, <- app_assoc. reflexivity.
Qed.

Lemma push_all_cons (prev : list RealtimeRow) (r : RealtimeRow) (rs : list RealtimeRow) :
  push_all prev (r :: rs) = slice_last 200 (prev ++ r :: rs).
Proof.
  unfold push_all. cbn [fold_left]. fold (push_all (push_reading r prev) rs).
  unfold push_reading. rewrite push_all_slice, <- app_assoc. reflexivity.
Qed.

(** After at least 200 appends the buffer holds the last 200 rows
    appended, in order of arrival. *)
Lemma push_all_last_200 (prev rs : list RealtimeRow) :
  200 <= List.length rs ->
  push_all prev rs = skipn (List.length rs - 200) rs
  /\ List.length (push_all prev rs) = 200.
Proof.
  intros H. destruct rs as [|r rs]; [simpl in H; lia|].
  rewrite push_all_cons, slice_last_suffix by exact H.
  split; [reflexivity|]. rewrite slice_last_length. lia.
Qed.

(** At capacity an append evicts the oldest row. *)
Lemma push_reading_evicts (x r : RealtimeRow) (prev : list RealtimeRow) :
  List.length (x :: prev) = 200 -> push_reading r (x :: prev) = prev ++ [r].
Proof.
  intros H. unfold push_reading, slice_last. rewrite length_app, H. reflexivity.
Qed.

Lemma push_reading_below (r : RealtimeRow) (prev : list RealtimeRow) :
  List.length prev < 200 -> push_reading r prev = prev ++ [r].
Proof.
  intros H. unfold push_reading. apply slice_last_short. rewrite length_app. simpl. lia.
Qed.

(** ** The read loop *)

Lemma parseLine_finite (ts line : jsstring) (r : RealtimeRow) :
  parseLine ts line = Some r ->
  Number_isFinite (measuredPressure r) = true /\ Number_isFinite (temperature r) = true.
Proof.
  intros H. apply parseLine_sound in H as (m & _ & _ & Fp & Ft & _). auto.
Qed.

Lemma parseLine_nonempty (ts line : jsstring) (r : RealtimeRow) :
  parseLine ts line = Some r -> exists c v, line = c :: v.
Proof.
  destruct line as [|c v]; [discriminate | eauto].
Qed.

Lemma upload_dto_within (r : RealtimeRow) :
  Number_isFinite (measuredPressure r) = true -> Number_isFinite (temperature r) = true ->
  within zero (num_of_Z 200) (dto_measuredPressure (upload_dto r))
  /\ within zero (num_of_Z 80) (dto_temperature (upload_dto r)).
Proof.
  intros Fp Ft. unfold within, upload_dto. cbn [dto_measuredPressure dto_temperature].
  split; apply clamp_in_range; auto using finite_not_nan.
Qed.

Lemma loop_head_eq (l : Loop) (s : State) :
  loop_head l s =
  (at_pc (if closeLoopRef s then Returned else AwaitRead) l, s,
   if closeLoopRef s then [] else [call_read (connected l)]).
Proof. unfold loop_head. destruct (closeLoopRef s); reflexivity. Qed.

(** The three ways a decoded line ends an iteration. *)
Lemma on_reading_cases (l : Loop) (s : State) (r : RealtimeRow) (now : Z) :
  let s1 := if present (seen_session l) && negb (seen_isMonitoring l)
            then setStartedFromDevice true (setIsMonitoring true s) else s in
  let s2 := setRealtime (push_reading r) s1 in
  (exists sess, seen_session l = Some sess /\ (1000 <= now - lastSentRef s)%Z
     /\ on_reading l s r now =
        (at_pc AwaitAddData l, set_lastSentRef now s2,
         [call_addData (id sess) (upload_dto r)]))
  \/ ((seen_session l = None \/ (now - lastSentRef s < 1000)%Z)
      /\ on_reading l s r now = loop_head l s2).
Proof.
  intros s1 s2. unfold on_reading. fold s1. fold s2.
  assert (L : lastSentRef s2 = lastSentRef s).
  { unfold s2, s1. open_state s.
    destruct (present (seen_session l) && negb (seen_isMonitoring l)); reflexivity. }
  rewrite L.
  destruct (seen_session l) as [sess|]; [|right; auto].
  destruct (1000 <=? now - lastSentRef s)%Z eqn:E.
  - left. exists sess. apply Z.leb_le in E. auto.
  - right. apply Z.leb_gt in E. auto.
Qed.

Lemma resume_read_line (l : Loop) (s : State) (ts line : jsstring) (now : Z) (r : RealtimeRow) :
  pc l = AwaitRead -> parseLine ts line = Some r ->
  readLoop_resume l s (ReadSettled (line_read line) ts now) = Some (on_reading l s r now).
Proof.
  intros Hpc Hp. unfold readLoop_resume, line_read. rewrite Hpc. cbn [done value].
  destruct (parseLine_nonempty _ _ _ Hp) as (c & v & ->). rewrite Hp. reflexivity.
Qed.

(** Every upload a resumption of the loop dispatches carries the decoded
    row of a line, clamped. *)
Lemma resume_upload (l l' : Loop) (s s' : State) (ev : loop_event) (cs : list call)
    (sid : jsstring) (dto : CreateSessionDataDto) :
  readLoop_resume l s ev = Some (l', s', cs) -> In (call_addData sid dto) cs ->
  exists ts line r, parseLine ts line = Some r /\ dto = upload_dto r
    /\ pc l' = AwaitAddData /\ cs = [call_addData sid dto].
Proof.
  assert (NH : forall l0 s0 l1 s1 cs1, loop_head l0 s0 = (l1, s1, cs1) ->
                ~ In (call_addData sid dto) cs1).
  { intros l0 s0 l1 s1 cs1 H. rewrite loop_head_eq in H.
    destruct (closeLoopRef s0); inversion H; subst; simpl; [tauto|].
    intros [X|[]]; discriminate. }
  unfold readLoop_resume. intros H Hin.
  destruct (pc l) eqn:Hpc, ev as [[rr|e] ts now|u]; try discriminate.
  - destruct (done rr); [inversion H; subst; destruct Hin|].
    destruct (value rr) as [[|c v]|];
      try (inversion H as [H']; apply NH in H'; contradiction).
    destruct (parseLine ts (c :: v)) as [r|] eqn:Hp;
      [|inversion H as [H']; apply NH in H'; contradiction].
    inversion H as [H']. clear H.
    destruct (on_reading_cases l s r now) as [(sess & Hs & Hn & E)|(_ & E)]; rewrite E in H'.
    + inversion H'; subst. destruct Hin as [X|[]]. inversion X; subst.
      exists ts, (c :: v), r. auto.
    + apply NH in H'. contradiction.
  - destruct (closeLoopRef s); inversion H; subst; destruct Hin.
  - inversion H as [H']. apply NH in H'. contradiction.
Qed.

Lemma on_reading_realtime (l l' : Loop) (s s' : State) (r : RealtimeRow) (now : Z) (cs : list call) :
  on_reading l s r now = (l', s', cs) -> realtime s' = push_reading r (realtime s).
Proof.
  intros H.
  destruct (on_reading_cases l s r now) as [(sess & _ & _ & E)|(_ & E)]; rewrite E in H.
  - inversion H; subst. open_state s.
    destruct (present (seen_session l) && negb (seen_isMonitoring l)); reflexivity.
  - rewrite loop_head_eq in H. inversion H; subst. open_state s.
    destruct (present (seen_session l) && negb (seen_isMonitoring l)); reflexivity.
Qed.

(** Every upload a resumption of the loop dispatches is the upload of the
    row decoded from the line just read, to the session the loop was
    started with; that row is the one appended to the buffer. *)
Lemma resume_upload_row (l l' : Loop) (s s' : State) (ev : loop_event) (cs : list call)
    (sid : jsstring) (dto : CreateSessionDataDto) :
  readLoop_resume l s ev = Some (l', s', cs) -> In (call_addData sid dto) cs ->
  exists ts line now r sess,
    ev = ReadSettled (line_read line) ts now /\ parseLine ts line = Some r
    /\ seen_session l = Some sess /\ sid = id sess /\ dto = upload_dto r
    /\ realtime s' = push_reading r (realtime s).
Proof.
  assert (NH : forall l0 s0 l1 s1 cs1, loop_head l0 s0 = (l1, s1, cs1) ->
                ~ In (call_addData sid dto) cs1).
  { intros l0 s0 l1 s1 cs1 H. rewrite loop_head_eq in H.
    destruct (closeLoopRef s0); inversion H; subst; simpl; [tauto|].
    intros [X|[]]; discriminate. }
  unfold readLoop_resume. intros H Hin.
  destruct (pc l) eqn:Hpc, ev as [[[v d]|e] ts now|u]; try discriminate; cbn [done value] in H.
  - destruct d; [inversion H; subst; destruct Hin|].
    destruct v as [[|c v]|];
      try (inversion H as [H']; apply NH in H'; contradiction).
    destruct (parseLine ts (c :: v)) as [r|] eqn:Hp;
      [|inversion H as [H']; apply NH in H'; contradiction].
    inversion H as [H']. clear H.
    pose proof (on_reading_realtime _ _ _ _ _ _ _ H') as RT.
    destruct (on_reading_cases l s r now) as [(sess & Hs & Hn & E)|(_ & E)]; rewrite E in H'.
    + inversion H'; subst. destruct Hin as [X|[]]. inversion X; subst.
      exists ts, (c :: v), now, r, sess. repeat split; auto.
    + apply NH in H'. contradiction.
  - destruct (closeLoopRef s); inversion H; subst; destruct Hin.
  - inversion H as [H']. apply NH in H'. contradiction.
Qed.

(** A fulfilled read that is not the end of the stream, on a loop that is
    not cancelled: the loop either dispatches an upload and awaits it, or
    issues its next read at once. *)
Lemma resume_read_next (l : Loop) (s : State) (rr : ReadResult) (ts : jsstring) (now : Z) :
  pc l = AwaitRead -> done rr = false -> closeLoopRef s = false ->
  exists l' s' cs,
    readLoop_resume l s (ReadSettled (Fulfilled rr) ts now) = Some (l', s', cs)
    /\ ((existsb is_addData cs = true /\ pc l' = AwaitAddData)
        \/ (existsb is_addData cs = false /\ pc l' = AwaitRead
            /\ cs = [call_read (connected l)])).
Proof.
  intros Hpc Hd Hc. unfold readLoop_resume. rewrite Hpc, Hd.
  assert (HH : forall s0, closeLoopRef s0 = false ->
                 exists l' s' cs, Some (loop_head l s0) = Some (l', s', cs)
                   /\ ((existsb is_addData cs = true /\ pc l' = AwaitAddData)
                       \/ (existsb is_addData cs = false /\ pc l' = AwaitRead
                           /\ cs = [call_read (connected l)]))).
  { intros s0 C0. rewrite loop_head_eq, C0. eexists _, _, _. split; [reflexivity|].
    right. auto. }
  destruct (value rr) as [[|c v]|]; try (apply HH; exact Hc).
  destruct (parseLine ts (c :: v)) as [r|]; [|apply HH; exact Hc].
  set (s2 := setRealtime (push_reading r)
               (if present (seen_session l) && negb (seen_isMonitoring l)
                then setStartedFromDevice true (setIsMonitoring true s) else s)).
  assert (C2 : closeLoopRef s2 = false).
  { unfold s2. open_state s. cbn in Hc. subst.
    destruct (present (seen_session l) && negb (seen_isMonitoring l)); reflexivity. }
  destruct (on_reading_cases l s r now) as [(x & _ & _ & E)|(_ & E)]; rewrite E; fold s2.
  - eexists _, _, _. split; [reflexivity|]. left. auto.
  - apply HH. exact C2.
Qed.

(** ** Scenarios of the specification *)

(** Scenario B: a line with pressure, temperature and cycle. *)
Example scenario_B :
  parseLine ts1 line_B =
  Some {| timestamp := ts1; measuredPressure := num_23_4; temperature := num_32_1;
          cycleIndex := Some (num_of_Z 1) |}.
Proof. vm_compute. reflexivity. Qed.

(** Scenario C: a line that is no JSON. *)
Example scenario_C : parseLine ts1 (js "not-json") = None.
Proof. vm_compute. reflexivity. Qed.

(** Scenario D: the row decoded from a line with a pressure of 250. *)
Example scenario_D_decoded : parseLine ts1 line_D = Some row_D.
Proof. vm_compute. reflexivity. Qed.

(** The page and its loop after [connect_events]. *)
Example connected_page_loop :
  loops (run_acts mounted connect_events) = [loop1]
  /\ io connected_page = Some 1%N /\ session connected_page = Some session1
  /\ isMonitoring connected_page = false.
Proof. vm_compute. auto. Qed.

(** Scenario A: the session is created with the chosen patient and the
    default protocol, and stored. *)
Example scenario_A :
  calls (handleCreateSession patient_chosen_page (Fulfilled session1))
  = [call_create {| dto_patientId := js "p1"; dto_targetPressure := num_of_Z 30;
                    dto_holdTimeSeconds := num_of_Z 10 |}]
  /\ session (after (handleCreateSession patient_chosen_page (Fulfilled session1)))
     = Some session1.
Proof. vm_compute. auto. Qed.

(** ** The throttle *)

(** What a settled read does to the throttle. *)
Lemma resume_read_throttle (l l1 : Loop) (s s1 : State) (r : settled ReadResult)
    (ts : jsstring) (now : Z) (cs : list call) :
  readLoop_resume l s (ReadSettled r ts now) = Some (l1, s1, cs) ->
  (existsb is_addData cs = true /\ (1000 <= now - lastSentRef s)%Z
   /\ lastSentRef s1 = now /\ pc l1 = AwaitAddData)
  \/ (existsb is_addData cs = false /\ lastSentRef s1 = lastSentRef s /\ pc l1 <> AwaitAddData).
Proof.
  assert (NH : forall l0 s0 l' s' cs', loop_head l0 s0 = (l', s', cs') ->
            existsb is_addData cs' = false /\ lastSentRef s' = lastSentRef s0
            /\ pc l' <> AwaitAddData).
  { intros l0 s0 l' s' cs' H. rewrite loop_head_eq in H.
    destruct (closeLoopRef s0); inversion H; subst; simpl; repeat split; discriminate. }
  unfold readLoop_resume. intros H.
  destruct (pc l), r as [rr|e]; try discriminate.
  - destruct (done rr); [inversion H; subst; right; simpl; repeat split; discriminate|].
    destruct (value rr) as [[|c v]|]; try (inversion H as [H']; right; apply (NH _ _ _ _ _ H')).
    destruct (parseLine ts (c :: v)) as [row|];
      [|inversion H as [H']; right; apply (NH _ _ _ _ _ H')].
    inversion H as [H']. clear H.
    destruct (on_reading_cases l s row now) as [(sess & Hs & Hn & E)|(_ & E)]; rewrite E in H'.
    + inversion H'; subst. left. open_state s.
      destruct (present (seen_session l) && negb (seen_isMonitoring l)); simpl; auto.
    + right. apply NH in H' as (A & B & C). repeat split; auto.
      rewrite B. open_state s.
      destruct (present (seen_session l) && negb (seen_isMonitoring l)); reflexivity.
  - destruct (closeLoopRef s); inversion H; subst; right; simpl; repeat split;
      try discriminate. open_state s. reflexivity.
Qed.

(** One iteration dispatches an upload only 1000 ms or more after the
    last one, and then records its own time. *)
Lemma iteration_throttle (l l1 : Loop) (s s1 : State) (o : offer) (sent : bool) :
  iteration (l, s) o = (l1, s1, sent) ->
  (sent = true /\ (lastSentRef s + 1000 <= offer_now o)%Z /\ lastSentRef s1 = offer_now o)
  \/ (sent = false /\ lastSentRef s1 = lastSentRef s).
Proof.
  unfold iteration.
  destruct (readLoop_resume l s _) as [[[l' s'] cs]|] eqn:E.
  - apply resume_read_throttle in E as [(A & B & C & D)|(A & B & C)].
    + unfold readLoop_resume. rewrite D, loop_head_eq. intros H; inversion H; subst.
      left. repeat split; auto. lia.
    + assert (N : forall u, readLoop_resume l' s' (AddDataSettled u) = None).
      { intros u. unfold readLoop_resume. destruct (pc l'); try reflexivity. contradiction. }
      rewrite N. intros H; inversion H; subst. right. auto.
  - intros H; inversion H; subst. right. auto.
Qed.

Lemma feed_spaced (os : list offer) :
  forall l s, spaced (lastSentRef s) (snd (feed (l, s) os)).
Proof.
  induction os as [|o os IH]; intros l s; cbn [feed]; [exact I|].
  destruct (iteration (l, s) o) as [[l1 s1] sent] eqn:E.
  specialize (IH l1 s1). destruct (feed (l1, s1) os) as [ls2 times]. cbn [snd] in *.
  apply iteration_throttle in E as [(-> & A & B)|(-> & B)]; rewrite B in IH.
  - split; assumption.
  - exact IH.
Qed.

Lemma spaced_lower (times : list Z) :
  forall last t, spaced last times -> In t times -> (last + 1000 <= t)%Z.
Proof.
  induction times as [|x times IH]; intros last t H Hin; [destruct Hin|].
  destruct H as [H1 H2]. destruct Hin as [->|Hin]; [exact H1|].
  specialize (IH _ _ H2 Hin). lia.
Qed.

Lemma filter_none {A : Type} (f : A -> bool) (l : list A) :
  (forall x, In x l -> f x = false) -> filter f l = [].
Proof.
  induction l as [|a l IH]; intros H; [reflexivity|]. cbn [filter].
  rewrite (H a (or_introl eq_refl)). apply IH. intros x Hx. apply H. right. exact Hx.
Qed.

(** Of times spaced by 1000 ms at most one falls in a window of 1000 ms. *)
Lemma spaced_window (w : Z) (times : list Z) :
  forall last, spaced last times -> uploads_in_window w times <= 1.
Proof.
  unfold uploads_in_window.
  induction times as [|t times IH]; intros last H; cbn [filter]; [simpl; lia|].
  destruct H as [H1 H2]. destruct (in_window w t) eqn:W.
  - assert (F : filter (in_window w) times = []).
    { apply filter_none. intros x Hx.
      pose proof (spaced_lower _ _ _ H2 Hx) as L. unfold in_window in *.
      apply andb_true_iff in W as [W _]. apply Z.leb_le in W.
      apply andb_false_iff. right. apply Z.ltb_ge. lia. }
    rewrite F. simpl. lia.
  - apply (IH t H2).
Qed.

(** A valid line at least 1000 ms after the last upload is uploaded, and
    the loop comes back to its read. *)
Lemma iteration_sends (l : Loop) (s : State) (sess : Session) (o : offer) :
  pc l = AwaitRead -> seen_session l = Some sess -> closeLoopRef s = false ->
  parseLine (offer_ts o) (offer_line o) <> None ->
  (lastSentRef s + 1000 <= offer_now o)%Z ->
  exists l1 s1, iteration (l, s) o = (l1, s1, true)
    /\ pc l1 = AwaitRead /\ seen_session l1 = Some sess /\ closeLoopRef s1 = false
    /\ lastSentRef s1 = offer_now o.
Proof.
  intros Hpc Hs Hc Hp Hn.
  destruct (parseLine (offer_ts o) (offer_line o)) as [r|] eqn:P; [|contradiction].
  unfold iteration. rewrite (resume_read_line _ _ _ _ (offer_now o) _ Hpc P).
  destruct (on_reading_cases l s r (offer_now o)) as [(x & Hx & _ & E)|([A|A] & _)];
    [|congruence|lia].
  rewrite E. unfold readLoop_resume. cbn [pc at_pc]. rewrite loop_head_eq.
  assert (C : closeLoopRef
                (set_lastSentRef (offer_now o)
                   (setRealtime (push_reading r)
                      (if present (seen_session l) && negb (seen_isMonitoring l)
                       then setStartedFromDevice true (setIsMonitoring true s) else s)))
              = false).
  { open_state s. simpl in Hc. subst.
    destruct (present (seen_session l) && negb (seen_isMonitoring l)); reflexivity. }
  rewrite C. eexists _, _. split; [reflexivity|].
  split; [reflexivity|]. split; [exact Hs|]. split; [exact C|].
  open_state s. destruct (present (seen_session l) && negb (seen_isMonitoring l)); reflexivity.
Qed.

Lemma feed_all_sent (os : list offer) :
  forall (l : Loop) (s : State) (sess : Session),
    pc l = AwaitRead -> seen_session l = Some sess -> closeLoopRef s = false ->
    Forall (fun o => parseLine (offer_ts o) (offer_line o) <> None) os ->
    spaced (lastSentRef s) (map offer_now os) ->
    snd (feed (l, s) os) = map offer_now os.
Proof.
  induction os as [|o os IH]; intros l s sess Hpc Hs Hc Hv Hsp; [reflexivity|].
  inversion Hv as [|? ? Hv1 Hv2]; subst. destruct Hsp as [Hn Hsp]. cbn [feed map].
  destruct (iteration_sends l s sess o Hpc Hs Hc Hv1 Hn) as (l1 & s1 & E & A & B & C & D).
  rewrite E. rewrite <- D in Hsp. specialize (IH l1 s1 sess A B C Hv2 Hsp).
  destruct (feed (l1, s1) os) as [ls2 times]. cbn [snd] in *. rewrite IH. reflexivity.
Qed.

Lemma resume_io (l l' : Loop) (s s' : State) (ev : loop_event) (cs : list call) :
  readLoop_resume l s ev = Some (l', s', cs) -> io s' = io s.
Proof.
  unfold readLoop_resume. intros H.
  destruct (pc l), ev as [[rr|e] ts now|u]; try discriminate.
  - destruct (done rr); [inversion H; reflexivity|].
    destruct (value rr) as [[|c v]|]; try (rewrite loop_head_eq in H; inversion H; reflexivity).
    destruct (parseLine ts (c :: v)) as [row|];
      [|rewrite loop_head_eq in H; inversion H; reflexivity].
    destruct (on_reading_cases l s row now) as [(x & _ & _ & E)|(_ & E)];
      rewrite E in H; [|rewrite loop_head_eq in H]; inversion H; subst; open_state s;
      destruct (present (seen_session l) && negb (seen_isMonitoring l)); reflexivity.
  - destruct (closeLoopRef s); inversion H; subst; [reflexivity|]. open_state s. reflexivity.
  - rewrite loop_head_eq in H; inversion H; reflexivity.
Qed.

Lemma resume_realtime (l l' : Loop) (s s' : State) (ev : loop_event) (cs : list call) :
  readLoop_resume l s ev = Some (l', s', cs) ->
  List.length (realtime s) <= 200 -> List.length (realtime s') <= 200.
Proof.
  unfold readLoop_resume. intros H L.
  destruct (pc l), ev as [[rr|e] ts now|u]; try discriminate.
  - destruct (done rr); [inversion H; subst; exact L|].
    destruct (value rr) as [[|c v]|];
      try (rewrite loop_head_eq in H; inversion H; subst; exact L).
    destruct (parseLine ts (c :: v)) as [row|];
      [|rewrite loop_head_eq in H; inversion H; subst; exact L].
    destruct (on_reading l s row now) as [[l1 s1] cs1] eqn:E. inversion H; subst.
    apply on_reading_realtime in E. rewrite E. apply push_reading_length.
  - destruct (closeLoopRef s); inversion H; subst; [exact L|]. open_state s. exact L.
  - rewrite loop_head_eq in H; inversion H; subst; exact L.
Qed.

Lemma step_connection_invariant (sys : System) (ev : event) :
  disconnects ev = false -> connection_invariant sys -> connection_invariant (step sys ev).
Proof.
  intros Hd Inv. destruct sys as [s ls lg]. unfold connection_invariant in *.
  cbn [page loops] in Inv.
  destruct ev; try discriminate; cbn [step page loops with_page with_run].
  - open_state s. exact Inv.
  - open_state s. exact Inv.
  - open_state s. exact Inv.
  - unfold handleCreateSession. open_state s. cbn in *.
    destruct (negb (nonempty pid)); [exact Inv|]. destruct created; exact Inv.
  - open_state s. exact Inv.
  - unfold handleRequestPort. open_state s. cbn in *.
    destruct picked; [|exact Inv]. destruct listed; exact Inv.
  - unfold handleConnect. open_state s. cbn in *.
    destruct (idx <? 0)%Z; [cbn; rewrite app_nil_r; exact Inv|].
    destruct opened; cbn; [discriminate | rewrite app_nil_r; exact Inv].
  - unfold handleStart. open_state s. cbn in *.
    destruct cio; [|exact Inv]. destruct sess; [|discriminate].
    destruct written; cbn; discriminate.
  - unfold handleStop. open_state s. cbn in *.
    destruct cio; [|exact Inv]. destruct sess; [|discriminate].
    destruct written; cbn; discriminate.
  - destruct (nth_error ls i) as [l|] eqn:N; [|exact Inv].
    destruct (readLoop_resume l s ev) as [[[l' s'] cs]|] eqn:E; [|exact Inv].
    cbn [page loops]. intros Hio. rewrite (resume_io _ _ _ _ _ _ E) in Hio.
    destruct (Inv Hio) as [_ ->]. destruct i; discriminate.
Qed.

Lemma run_steps_connection_invariant (evs : list event) :
  forall sys, forallb (fun ev => negb (disconnects ev)) evs = true ->
    connection_invariant sys -> connection_invariant (run_steps sys evs).
Proof.
  induction evs as [|ev evs IH]; intros sys Hd Inv; [exact Inv|].
  cbn [forallb] in Hd. apply andb_true_iff in Hd as [H1 H2].
  apply (IH (step sys ev) H2). apply step_connection_invariant; [|exact Inv].
  destruct (disconnects ev); [discriminate | reflexivity].
Qed.

Lemma handleDisconnect_fields (s : State) (closed : settled unit) :
  isMonitoring (after (handleDisconnect s closed)) = isMonitoring s
  /\ startedFromDevice (after (handleDisconnect s closed)) = startedFromDevice s
  /\ io (after (handleDisconnect s closed)) = None
  /\ realtime (after (handleDisconnect s closed)) = realtime s.
Proof.
  unfold handleDisconnect. open_state s. cbn. destruct cio; cbn; auto.
Qed.

Lemma step_realtime (sys : System) (ev : event) :
  List.length (realtime (page sys)) <= 200 ->
  List.length (realtime (page (step sys ev))) <= 200.
Proof.
  intros L. destruct sys as [s ls lg]. cbn [page] in L.
  destruct ev; cbn [step page loops with_page with_run].
  - open_state s. exact L.
  - open_state s. exact L.
  - open_state s. exact L.
  - unfold handleCreateSession. open_state s. cbn in *.
    destruct (negb (nonempty pid)); [exact L|]. destruct created; exact L.
  - open_state s. exact L.
  - unfold handleRequestPort. open_state s. cbn in *.
    destruct picked; [|exact L]. destruct listed; exact L.
  - unfold handleConnect. open_state s. cbn in *.
    destruct (idx <? 0)%Z; [exact L|]. destruct opened; exact L.
  - rewrite (proj2 (proj2 (proj2 (handleDisconnect_fields s closed)))). exact L.
  - unfold handleStart. open_state s. cbn in *.
    destruct cio; [|exact L]. destruct sess; [|exact L]. destruct written; exact L.
  - unfold handleStop. open_state s. cbn in *.
    destruct cio; [|exact L]. destruct sess; [|exact L]. destruct written; exact L.
  - unfold handleReset. destruct (isMonitoring s) eqn:M; [exact L|].
    cbn [after returns]. destruct (after (handleDisconnect s closed)). cbn. lia.
  - destruct (nth_error ls i) as [l|]; [|exact L].
    destruct (readLoop_resume l s ev) as [[[l' s'] cs]|] eqn:E; [|exact L].
    cbn [page]. apply (resume_realtime _ _ _ _ _ _ E L).
Qed.

Lemma run_steps_realtime (evs : list event) :
  forall sys, List.length (realtime (page sys)) <= 200 ->
    List.length (realtime (page (run_steps sys evs))) <= 200.
Proof.
  induction evs as [|ev evs IH]; intros sys L; [exact L|].
  apply (IH (step sys ev)). apply step_realtime. exact L.
Qed.

(** A valid line fed to a running loop is appended, and the loop comes
    back to its read. *)
Lemma iteration_appends (l : Loop) (s : State) (o : offer) (r : RealtimeRow) :
  pc l = AwaitRead -> closeLoopRef s = false ->
  parseLine (offer_ts o) (offer_line o) = Some r ->
  exists l1 s1 sent, iteration (l, s) o = (l1, s1, sent)
    /\ pc l1 = AwaitRead /\ closeLoopRef s1 = false
    /\ realtime s1 = push_reading r (realtime s).
Proof.
  intros Hpc Hc P. unfold iteration.
  rewrite (resume_read_line _ _ _ _ (offer_now o) _ Hpc P).
  set (s2 := setRealtime (push_reading r)
               (if present (seen_session l) && negb (seen_isMonitoring l)
                then setStartedFromDevice true (setIsMonitoring true s) else s)).
  assert (C2 : closeLoopRef s2 = false /\ realtime s2 = push_reading r (realtime s)).
  { unfold s2. open_state s. cbn in Hc. subst.
    destruct (present (seen_session l) && negb (seen_isMonitoring l)); cbn; auto. }
  destruct C2 as [C2 R2].
  destruct (on_reading_cases l s r (offer_now o)) as [(x & _ & _ & E)|(_ & E)];
    rewrite E; fold s2.
  - unfold readLoop_resume. cbn [pc at_pc]. rewrite loop_head_eq.
    assert (C3 : closeLoopRef (set_lastSentRef (offer_now o) s2) = false
                 /\ realtime (set_lastSentRef (offer_now o) s2) = push_reading r (realtime s)).
    { rewrite <- C2, <- R2. destruct s2; cbn; auto. }
    destruct C3 as [C3 R3]. rewrite C3.
    eexists _, _, _. split; [reflexivity|]. auto.
  - rewrite loop_head_eq, C2. unfold readLoop_resume. cbn [pc at_pc].
    eexists _, _, _. split; [reflexivity|]. auto.
Qed.

Lemma feed_realtime (os : list offer) :
  forall (l : Loop) (s : State) (rows : list RealtimeRow),
    pc l = AwaitRead -> closeLoopRef s = false ->
    Forall2 (fun o r => parseLine (offer_ts o) (offer_line o) = Some r) os rows ->
    realtime (snd (fst (feed (l, s) os))) = push_all (realtime s) rows.
Proof.
  induction os as [|o os IH]; intros l s rows Hpc Hc HF; inversion HF; subst;
    [reflexivity|].
  cbn [feed].
  destruct (iteration_appends l s o _ Hpc Hc H1) as (l1 & s1 & sent & E & A & B & C).
  rewrite E. specialize (IH l1 s1 _ A B H3).
  destruct (feed (l1, s1) os) as [ls2 times]. cbn [fst snd] in *.
  rewrite IH, C. reflexivity.
Qed.

(** Every loop the operator can start has seen a session: the connect
    button is disabled without one. *)
Lemma resume_seen (l l' : Loop) (s s' : State) (ev : loop_event) (cs : list call) :
  readLoop_resume l s ev = Some (l', s', cs) ->
  seen_session l' = seen_session l /\ seen_isMonitoring l' = seen_isMonitoring l
  /\ connected l' = connected l.
Proof.
  unfold readLoop_resume. intros H.
  destruct (pc l), ev as [[rr|e] ts now|u]; try discriminate.
  - destruct (done rr); [inversion H; auto|].
    destruct (value rr) as [[|c v]|];
      try (rewrite loop_head_eq in H; inversion H; solve [auto]).
    destruct (parseLine ts (c :: v)) as [row|];
      [|rewrite loop_head_eq in H; inversion H; auto].
    destruct (on_reading_cases l s row now) as [(x & _ & _ & E)|(_ & E)];
      rewrite E in H; [|rewrite loop_head_eq in H]; inversion H; auto.
  - destruct (closeLoopRef s); inversion H; auto.
  - rewrite loop_head_eq in H; inversion H; auto.
Qed.

Lemma Forall_replace_nth {A : Type} (P : A -> Prop) (l : list A) :
  forall i x, Forall P l -> P x -> Forall P (replace_nth i x l).
Proof.
  induction l as [|y l IH]; intros i x F Hx; [destruct i; constructor|].
  inversion F; subst. destruct i; simpl; constructor; auto.
Qed.

Lemma act_loops_have_session (sys : System) (ev : event) :
  Forall (fun l => seen_session l <> None) (loops sys) ->
  Forall (fun l => seen_session l <> None) (loops (act sys ev)).
Proof.
  intros F. unfold act. destruct (enabled (page sys) ev) eqn:En; [|exact F].
  destruct sys as [s ls lg]. cbn [page loops] in *.
  destruct ev; cbn [step page loops log with_page with_run]; try exact F.
  - cbn [enabled] in En.
    apply andb_true_iff in En as [_ En]. unfold canConnect in En.
    apply andb_true_iff in En as [En _]. apply andb_true_iff in En as [En _].
    destruct (handleConnect s opened) as [r started] eqn:E. cbn [loops].
    apply Forall_app. split; [exact F|].
    destruct started as [l|]; [|constructor]. constructor; [|constructor].
    unfold handleConnect in E.
    destruct (selectedPortIdx s <? 0)%Z; [discriminate|].
    destruct opened; inversion E; subst. cbn.
    destruct (session s); discriminate.
  - destruct (nth_error ls i) as [l|] eqn:N; [|exact F].
    destruct (readLoop_resume l s ev) as [[[l' s'] cs]|] eqn:E; [|exact F].
    cbn [loops]. apply Forall_replace_nth; [exact F|].
    destruct (resume_seen _ _ _ _ _ _ E) as [-> _].
    apply nth_error_In in N. rewrite Forall_forall in F. apply F. exact N.
Qed.

Lemma loops_have_session (evs : list event) :
  Forall (fun l => seen_session l <> None) (loops (run_acts mounted evs)).
Proof.
  assert (G : forall sys, Forall (fun l => seen_session l <> None) (loops sys) ->
                Forall (fun l => seen_session l <> None) (loops (run_acts sys evs))).
  { induction evs as [|ev evs IH]; intros sys F; [exact F|].
    apply (IH (act sys ev)). apply act_loops_have_session. exact F. }
  apply G. constructor.
Qed.

(** * The claims *)

(** ** C1: clamping *)

(** C1 as stated fails. For the line with p = 250 and t = 10 the loop
    appends the decoded row to the buffer with the pressure 250, above
    200; only the upload is clamped. *)
Lemma C1_buffer_row_not_clamped : ~ C1_as_stated.
Proof.
  intros H.
  assert (E : readLoop_resume loop1 connected_page (ReadSettled (line_read line_D) ts1 5000)
              = Some (at_pc AwaitAddData loop1,
                      set_lastSentRef 5000
                        (setRealtime (push_reading row_D)
                           (setStartedFromDevice true (setIsMonitoring true connected_page))),
                      [call_addData (js "s1") (upload_dto row_D)]))
    by (vm_compute; reflexivity).
  destruct (H _ _ _ _ _ _ _ _ E) as [B _].
  destruct (B _ scenario_D_decoded) as (row & L & [_ W] & _).
  assert (L' : last_row (realtime
                 (set_lastSentRef 5000
                    (setRealtime (push_reading row_D)
                       (setStartedFromDevice true (setIsMonitoring true connected_page)))))
               = Some row_D) by (vm_compute; reflexivity).
  rewrite L' in L. inversion L; subst row.
  assert (W' : num_le (measuredPressure row_D) (num_of_Z 200) = false)
    by (vm_compute; reflexivity).
  rewrite W' in W. discriminate.
Qed.

(** C1, amended. Whatever resumes the read loop, every upload it
    dispatches is the upload of the row decoded from the line just read,
    to the session of the loop: it carries [clamp] of the row's pressure
    between 0 and 200, [clamp] of the row's temperature between 0 and 80
    and the row's cycle index, so a pressure within [0,200] and a
    temperature within [0,80]; and the row appended to the buffer, for
    every line that decodes, is that row as decoded, not clamped. *)
Theorem C1_upload_clamped_buffer_as_decoded :
  (forall (l l' : Loop) (s s' : State) (ev : loop_event) (cs : list call)
          (sid : jsstring) (dto : CreateSessionDataDto),
     readLoop_resume l s ev = Some (l', s', cs) -> In (call_addData sid dto) cs ->
     exists (ts line : jsstring) (now : Z) (r : RealtimeRow) (sess : Session),
       ev = ReadSettled (line_read line) ts now
       /\ parseLine ts line = Some r
       /\ seen_session l = Some sess /\ sid = id sess
       /\ dto_measuredPressure dto = clamp (measuredPressure r) zero (num_of_Z 200)
       /\ dto_temperature dto = clamp (temperature r) zero (num_of_Z 80)
       /\ dto_cycleIndex dto = cycleIndex r
       /\ within zero (num_of_Z 200) (dto_measuredPressure dto)
       /\ within zero (num_of_Z 80) (dto_temperature dto)
       /\ last_row (realtime s') = Some r)
  /\ (forall (l : Loop) (s : State) (ts line : jsstring) (now : Z) (r : RealtimeRow),
        pc l = AwaitRead -> parseLine ts line = Some r ->
        exists l' s' cs,
          readLoop_resume l s (ReadSettled (line_read line) ts now) = Some (l', s', cs)
          /\ realtime s' = push_reading r (realtime s)
          /\ last_row (realtime s') = Some r).
Proof.
  split.
  - intros l l' s s' ev cs sid dto H Hin.
    destruct (resume_upload_row _ _ _ _ _ _ _ _ H Hin)
      as (ts & line & now & r & sess & -> & Hp & Hs & -> & -> & RT).
    exists ts, line, now, r, sess.
    destruct (parseLine_finite _ _ _ Hp) as [Fp Ft].
    destruct (upload_dto_within r Fp Ft) as [Wp Wt].
    rewrite RT.
    repeat (split; [first [reflexivity | assumption]|]). apply push_reading_last.
  - intros l s ts line now r Hpc Hp.
    destruct (on_reading l s r now) as [[l' s'] cs] eqn:E.
    exists l', s', cs. rewrite (resume_read_line _ _ _ _ _ _ Hpc Hp), E.
    split; [reflexivity|]. apply on_reading_realtime in E. rewrite E.
    split; [reflexivity | apply push_reading_last].
Qed.

(** C1 at the line with p = 250 and t = 10: the upload is dispatched and
    carries 200 and 10. *)
Lemma C1_witness :
  In (call_addData (js "s1") (upload_dto row_D))
     (snd (on_reading loop1 connected_page row_D 5000))
  /\ dto_measuredPressure (upload_dto row_D) = num_of_Z 200
  /\ dto_temperature (upload_dto row_D) = num_of_Z 10
  /\ within zero (num_of_Z 200) (dto_measuredPressure (upload_dto row_D))
  /\ within zero (num_of_Z 80) (dto_temperature (upload_dto row_D)).
Proof.
  assert (E : readLoop_resume loop1 connected_page (ReadSettled (line_read line_D) ts1 5000)
              = Some (on_reading loop1 connected_page row_D 5000)).
  { apply resume_read_line; [reflexivity | exact scenario_D_decoded]. }
  assert (I : In (call_addData (js "s1") (upload_dto row_D))
                 (snd (on_reading loop1 connected_page row_D 5000))).
  { vm_compute. left. reflexivity. }
  split; [exact I|].
  destruct (on_reading loop1 connected_page _ 5000) as [[l' s'] cs] eqn:O.
  destruct (proj1 C1_upload_clamped_buffer_as_decoded _ _ _ _ _ _ _ _ E I)
    as (ts & line & now & r & sess & Ev & P & _ & _ & Dp & Dt & _ & Wp & Wt & _).
  inversion Ev; subst. rewrite scenario_D_decoded in P. inversion P; subst r.
  split; [rewrite Dp; vm_compute; reflexivity|].
  split; [rewrite Dt; vm_compute; reflexivity|].
  split; assumption.
Defined.

(** ** C2: monitoring and the connection *)

(** Connect, start, disconnect, every control being enabled when it is used. *)
Example monitoring_without_connection :
  run_acts mounted disconnect_while_monitoring = run_steps mounted disconnect_while_monitoring
  /\ isMonitoring (page (run_steps mounted disconnect_while_monitoring)) = true
  /\ io (page (run_steps mounted disconnect_while_monitoring)) = None.
Proof. vm_compute. auto. Qed.

(** C2 as stated fails. Connect, start, disconnect: the monitoring flag is
    still true and no connection is open. *)
Lemma C2_disconnect_keeps_monitoring : ~ C2_as_stated.
Proof.
  intros H. apply (H disconnect_while_monitoring); vm_compute; reflexivity.
Qed.

(** C2, amended. In every state reached from the mounted page by events
    other than those that run [handleDisconnect] (the disconnect button and
    reset), monitoring implies an open connection; [handleDisconnect] closes
    the connection and leaves the monitoring flag as it was. *)
Theorem C2_monitoring_needs_connection_until_disconnect :
  (forall evs : list event,
     forallb (fun ev => negb (disconnects ev)) evs = true ->
     isMonitoring (page (run_steps mounted evs)) = true ->
     io (page (run_steps mounted evs)) <> None)
  /\ (forall (s : State) (closed : settled unit),
        isMonitoring (after (handleDisconnect s closed)) = isMonitoring s
        /\ io (after (handleDisconnect s closed)) = None).
Proof.
  split.
  - intros evs Hd Hm Hio.
    assert (Inv : connection_invariant (run_steps mounted evs)).
    { apply run_steps_connection_invariant; [exact Hd|]. intros _. split; reflexivity. }
    destruct (Inv Hio) as [F _]. rewrite F in Hm. discriminate.
  - intros s closed. destruct (handleDisconnect_fields s closed) as (A & _ & B & _). auto.
Qed.

(** C2 after connect and start: monitoring is true and the connection is
    open. *)
Lemma C2_witness :
  io (page (run_steps mounted (connect_events ++ [ClickStart (Fulfilled tt)]))) <> None.
Proof.
  apply (proj1 C2_monitoring_needs_connection_until_disconnect
           (connect_events ++ [ClickStart (Fulfilled tt)])); vm_compute; reflexivity.
Defined.

(** ** C3: stop *)

(** The page after the device has started a cycle. *)
Example device_started_flags :
  isMonitoring device_started_page = true /\ startedFromDevice device_started_page = true
  /\ io device_started_page = Some 1%N /\ session device_started_page = Some session1.
Proof. vm_compute. auto. Qed.

(** C3 as stated fails. After a cycle started by the device, a stop that
    sends [S] leaves [startedFromDevice] true. *)
Lemma C3_stop_keeps_startedFromDevice : ~ C3_as_stated.
Proof.
  intros H.
  assert (T : startedFromDevice (after (handleStop device_started_page (Fulfilled tt))) = true)
    by (vm_compute; reflexivity).
  assert (F : startedFromDevice (after (handleStop device_started_page (Fulfilled tt))) = false).
  { refine (proj2 (H device_started_page 1%N _)). vm_compute; reflexivity. }
  rewrite T in F. discriminate.
Qed.

(** C3, amended. With a connection and a session, a stop whose write
    succeeds sends the single command [S] and sets the monitoring flag to
    false, however monitoring began; [startedFromDevice] keeps its value. *)
Theorem C3_stop_clears_monitoring (s : State) (c : SerialIO) (sess : Session) :
  io s = Some c -> session s = Some sess ->
  calls (handleStop s (Fulfilled tt)) = [call_writeLine c (js "S")]
  /\ result (handleStop s (Fulfilled tt)) = Fulfilled tt
  /\ isMonitoring (after (handleStop s (Fulfilled tt))) = false
  /\ startedFromDevice (after (handleStop s (Fulfilled tt))) = startedFromDevice s.
Proof.
  intros Hio Hs. unfold handleStop. rewrite Hio, Hs. open_state s. simpl. auto.
Qed.

(** C3 on the page on which the device started the cycle. *)
Lemma C3_witness :
  calls (handleStop device_started_page (Fulfilled tt)) = [call_writeLine 1%N (js "S")]
  /\ result (handleStop device_started_page (Fulfilled tt)) = Fulfilled tt
  /\ isMonitoring (after (handleStop device_started_page (Fulfilled tt))) = false
  /\ startedFromDevice (after (handleStop device_started_page (Fulfilled tt))) = true.
Proof.
  exact (C3_stop_clears_monitoring device_started_page 1%N session1 eq_refl eq_refl).
Defined.

(** ** C4: the upload and the next read *)

(** C4 as stated fails. The run of the loop that dispatches an upload
    stops at the upload: it issues no read and is not back at its read. *)
Lemma C4_next_read_waits_for_upload : ~ C4_as_stated.
Proof.
  intros H.
  assert (E : readLoop_resume loop1 connected_page (ReadSettled (line_read line_B) ts1 5000)
              = Some (at_pc AwaitAddData loop1,
                      set_lastSentRef 5000
                        (setRealtime (push_reading row_B)
                           (setStartedFromDevice true (setIsMonitoring true connected_page))),
                      [call_addData (js "s1") (upload_dto row_B)]))
    by (vm_compute; reflexivity).
  destruct (H _ _ _ _ _ _ _ _ E) as [_ P]; [vm_compute; reflexivity | reflexivity |].
  discriminate.
Qed.

(** C4, amended. When a settled read makes the loop dispatch an upload,
    the loop is suspended on that upload and has issued no next read;
    nothing but the settling of the upload resumes it, and when the upload
    has settled, fulfilled or rejected, the loop goes to its head and, if
    not cancelled, issues the next read. Every other iteration of a loop
    that is not cancelled (an empty line, a line that does not decode, a
    line within the throttle or without session) issues the next read at
    once. And the connect handler starts the loop without awaiting it: it
    ends fulfilled with the loop suspended on its first read. *)
Theorem C4_upload_awaited :
  (forall (l l' : Loop) (s s' : State) (r : settled ReadResult)
          (ts : jsstring) (now : Z) (cs : list call),
     readLoop_resume l s (ReadSettled r ts now) = Some (l', s', cs) ->
     existsb is_addData cs = true ->
     pc l' = AwaitAddData
     /\ ~ In (call_read (connected l)) cs
     /\ (forall ev, readLoop_resume l' s' ev <> None -> exists u, ev = AddDataSettled u)
     /\ (forall u, readLoop_resume l' s' (AddDataSettled u) = Some (loop_head l' s'))
     /\ (closeLoopRef s' = false ->
         loop_head l' s' = (at_pc AwaitRead l', s', [call_read (connected l)])))
  /\ (forall (l : Loop) (s : State) (rr : ReadResult) (ts : jsstring) (now : Z),
        pc l = AwaitRead -> done rr = false -> closeLoopRef s = false ->
        exists l' s' cs,
          readLoop_resume l s (ReadSettled (Fulfilled rr) ts now) = Some (l', s', cs)
          /\ ((existsb is_addData cs = true /\ pc l' = AwaitAddData)
              \/ (existsb is_addData cs = false /\ pc l' = AwaitRead
                  /\ cs = [call_read (connected l)])))
  /\ (forall (s : State) (c : SerialIO),
        (0 <= selectedPortIdx s)%Z ->
        exists r l,
          handleConnect s (Fulfilled c) = (r, Some l)
          /\ result r = Fulfilled tt
          /\ calls r = [call_openPort (port_at (ports s) (selectedPortIdx s)) 115200;
                        call_read c]
          /\ connected l = c /\ pc l = AwaitRead).
Proof.
  split; [|split].
  - intros l l' s s' r ts now cs H Hex.
    apply existsb_exists in Hex as (c & Hin & Hc).
    destruct c; try discriminate.
    destruct (resume_upload _ _ _ _ _ _ _ _ H Hin) as (_ & _ & _ & _ & _ & Hpc & ->).
    destruct (resume_seen _ _ _ _ _ _ H) as (_ & _ & Hconn).
    split; [exact Hpc|]. split; [intros [X|[]]; discriminate|].
    split; [|split].
    + intros ev Hev. unfold readLoop_resume in Hev. rewrite Hpc in Hev.
      destruct ev as [x y z|u]; [contradiction Hev; destruct x; reflexivity | eauto].
    + intros u. unfold readLoop_resume. rewrite Hpc. reflexivity.
    + intros Hcl. rewrite loop_head_eq, Hcl, Hconn. reflexivity.
  - exact resume_read_next.
  - intros s c Hi. unfold handleConnect.
    destruct (selectedPortIdx s <? 0)%Z eqn:L; [apply Z.ltb_lt in L; lia|].
    eexists _, _. split; [reflexivity|]. repeat split; reflexivity.
Qed.

(** C4 at scenario B on the connected page. *)
Lemma C4_witness :
  pc (at_pc AwaitAddData loop1) = AwaitAddData
  /\ ~ In (call_read 1%N) [call_addData (js "s1") (upload_dto row_B)].
Proof.
  assert (E : readLoop_resume loop1 connected_page (ReadSettled (line_read line_B) ts1 5000)
              = Some (at_pc AwaitAddData loop1,
                      set_lastSentRef 5000
                        (setRealtime (push_reading row_B)
                           (setStartedFromDevice true (setIsMonitoring true connected_page))),
                      [call_addData (js "s1") (upload_dto row_B)]))
    by (vm_compute; reflexivity).
  destruct (proj1 C4_upload_awaited _ _ _ _ _ _ _ _ E eq_refl) as (P & N & _).
  split; assumption.
Defined.

(** ** C5: creating the session *)

(** C5 as stated fails. On the mounted page no patient is chosen, and the
    handler returns normally: no error is raised. *)
Lemma C5_handler_never_fails : ~ C5_as_stated.
Proof.
  intros H. destruct (H initial (Fulfilled session1) eq_refl) as [[e E] _].
  discriminate.
Qed.

(** Called with a target pressure of 0, the handler itself does call the
    session service and stores the session: only the disabled button keeps
    this from happening. *)
Example C5_handler_calls_without_gate :
  canCreateSession bad_pressure_page = false
  /\ calls (handleCreateSession bad_pressure_page (Fulfilled session1))
     = [call_create {| dto_patientId := js "p1"; dto_targetPressure := zero;
                       dto_holdTimeSeconds := num_of_Z 10 |}]
  /\ session (after (handleCreateSession bad_pressure_page (Fulfilled session1)))
     = Some session1.
Proof. vm_compute. auto. Qed.

(** C5, amended. While [canCreateSession] is false the create button is
    disabled, so that the operator's action makes no call and changes
    nothing; the handler itself returns at once when no patient is chosen
    and never ends in an error; with [canCreateSession] true it calls the
    session service with the patient and the protocol and, on success,
    stores the session returned, or on failure stores the error message
    and no session. *)
Theorem C5_createSession_gated :
  (forall (sys : System) (created : settled Session),
     canCreateSession (page sys) = false -> act sys (ClickCreateSession created) = sys)
  /\ (forall (s : State) (created : settled Session),
        patientId s = [] -> handleCreateSession s created = returns s [])
  /\ (forall (s : State) (created : settled Session),
        result (handleCreateSession s created) = Fulfilled tt)
  /\ (forall (s : State) (sess : Session),
        canCreateSession s = true ->
        calls (handleCreateSession s (Fulfilled sess))
        = [call_create {| dto_patientId := patientId s;
                          dto_targetPressure := targetPressure s;
                          dto_holdTimeSeconds := holdTimeSeconds s |}]
        /\ session (after (handleCreateSession s (Fulfilled sess))) = Some sess)
  /\ (forall (s : State) (e : thrown),
        canCreateSession s = true ->
        session (after (handleCreateSession s (Rejected e))) = None
        /\ err (after (handleCreateSession s (Rejected e)))
           = Some (message_or e msg_create_failed)).
Proof.
  split; [|split; [|split; [|split]]].
  - intros sys created H. unfold act, enabled. rewrite H. reflexivity.
  - intros s created H. unfold handleCreateSession. rewrite H. reflexivity.
  - intros s created. unfold handleCreateSession.
    destruct (negb (nonempty (patientId s))); reflexivity.
  - intros s sess H. unfold canCreateSession in H.
    unfold handleCreateSession.
    destruct (nonempty (patientId s)); [|discriminate]. open_state s. simpl. auto.
  - intros s e H. unfold canCreateSession in H.
    unfold handleCreateSession.
    destruct (nonempty (patientId s)); [|discriminate].
    destruct (present (session s)) eqn:P; [discriminate|].
    open_state s. simpl in *. destruct sess; [discriminate|]. auto.
Qed.

(** C5 on the mounted page (button disabled) and after a patient has been
    chosen. *)
Lemma C5_witness :
  act mounted (ClickCreateSession (Fulfilled session1)) = mounted
  /\ session (after (handleCreateSession patient_chosen_page (Fulfilled session1)))
     = Some session1.
Proof.
  split.
  - exact (proj1 C5_createSession_gated mounted (Fulfilled session1) eq_refl).
  - exact (proj2 (proj1 (proj2 (proj2 (proj2 C5_createSession_gated)))
                    patient_chosen_page session1 eq_refl)).
Defined.

(** ** C6: the decoder *)

(** A null alias is passed over for the next one; a null in the last
    alias, [pr], counts as 0, while a null in [pressure] alone does not. *)
Example null_alias_skipped :
  parseLine ts1 line_null_alias =
  Some {| timestamp := ts1; measuredPressure := num_of_Z 5; temperature := num_of_Z 1;
          cycleIndex := None |}
  /\ parseLine ts1 (jsq "{'pressure':null,'t':1}") = None
  /\ parseLine ts1 (jsq "{'pr':null,'t':1}") =
     Some {| timestamp := ts1; measuredPressure := zero; temperature := num_of_Z 1;
             cycleIndex := None |}.
Proof. vm_compute. auto. Qed.

(** The cycle index: a numeric text is coerced, another text is dropped, no
    cycle field gives none; an object with an own [toString] makes the
    coercion throw, and the line is dropped. *)
Example cycle_forms :
  option_map cycleIndex (parseLine ts1 (jsq "{'p':1,'t':2,'cycle':'3'}"))
    = Some (Some (num_of_Z 3))
  /\ option_map cycleIndex (parseLine ts1 (jsq "{'p':1,'t':2,'cycle':'x'}")) = Some None
  /\ option_map cycleIndex (parseLine ts1 (jsq "{'p':1,'t':2}")) = Some None
  /\ parseLine ts1 (jsq "{'p':1,'t':2,'cycle':{'toString':0}}") = None.
Proof. vm_compute. auto. Qed.

(** C6 as stated fails. In a line with pressure null, p = 5 and t = 1 the
    first pressure field present is [pressure], whose coercion is 0, but
    the row returned carries 5. *)
Lemma C6_first_present_alias_not_taken : ~ C6_as_stated.
Proof.
  intros H.
  pose proof (proj1 null_alias_skipped) as E.
  apply (proj1 (H _ _ _)) in E as (m & (_ & _ & P) & Np & _).
  assert (P' : JSON_parse (trim line_null_alias)
               = Normal (JObject [(js "pressure", JNull); (js "p", JNumber (num_of_Z 5));
                                  (js "t", JNumber (num_of_Z 1))]))
    by (vm_compute; reflexivity).
  rewrite P' in P. inversion P; subst m. cbn in Np. discriminate.
Qed.

(** C6, amended. [parseLine] is a total function, so no input makes it
    raise. A row is returned only for a trimmed line that is the text of a
    JSON object; it carries the time stamp, finite numbers, the coercions
    of the first pressure alias and of the first temperature alias whose
    value is not null when there is one, and as cycle index the first
    non-null cycle alias if it is a number or coerces to a finite number,
    none if no cycle alias is a field. A row with those numbers is returned
    for every object text in which the first non-null pressure and
    temperature aliases coerce to finite numbers, unless coercing the cycle
    field throws. Nothing is returned for a line that is no object text,
    nor when such an alias coerces to a number that is not finite.
    Exactly: a row is returned if and only if the line is an object text
    whose pressure and temperature each decode to a number ([alias_number]:
    the finite coercion of the first non-null alias; with every alias
    absent or null, 0 if the last alias is null and nothing otherwise) and
    whose cycle field can be coerced ([alias_cycle]), and the row carries
    these. In particular an object with no pressure alias or with no
    temperature alias among its fields yields nothing. *)
Theorem C6_parseLine_decodes_first_non_null_aliases :
  (forall (ts line : jsstring) (r : RealtimeRow),
     parseLine ts line = Some r ->
     exists m, is_object_text (trim line) m
       /\ timestamp r = ts
       /\ Number_isFinite (measuredPressure r) = true
       /\ Number_isFinite (temperature r) = true
       /\ (forall v, first_non_null pressure_aliases m = Some v ->
             Number (Json v) = Normal (measuredPressure r))
       /\ (forall v, first_non_null temperature_aliases m = Some v ->
             Number (Json v) = Normal (temperature r))
       /\ (forall v, first_non_null cycle_aliases m = Some v -> cycleIndex r = cycle_value v)
       /\ (own_property (js "cycle") m = None -> own_property (js "cycleIndex") m = None ->
           cycleIndex r = None))
  /\ (forall (ts line : jsstring) (m : list (jsstring * json)) (vp vt : json) (p t : number),
        is_object_text (trim line) m ->
        first_non_null pressure_aliases m = Some vp -> Number (Json vp) = Normal p ->
        Number_isFinite p = true ->
        first_non_null temperature_aliases m = Some vt -> Number (Json vt) = Normal t ->
        Number_isFinite t = true ->
        (forall vc, first_non_null cycle_aliases m = Some vc -> Number (Json vc) <> Throw) ->
        exists r, parseLine ts line = Some r /\ measuredPressure r = p /\ temperature r = t
                  /\ timestamp r = ts)
  /\ (forall (ts line : jsstring),
        (forall m, ~ is_object_text (trim line) m) -> parseLine ts line = None)
  /\ (forall (ts line : jsstring) (m : list (jsstring * json)) (v : json) (x : number),
        is_object_text (trim line) m ->
        (first_non_null pressure_aliases m = Some v
         \/ first_non_null temperature_aliases m = Some v) ->
        Number (Json v) = Normal x -> Number_isFinite x = false ->
        parseLine ts line = None)
  /\ (forall (ts line : jsstring) (r : RealtimeRow),
        parseLine ts line = Some r <->
        exists m, is_object_text (trim line) m
          /\ timestamp r = ts
          /\ alias_number pressure_aliases m = Some (measuredPressure r)
          /\ alias_number temperature_aliases m = Some (temperature r)
          /\ alias_cycle m = Some (cycleIndex r))
  /\ (forall (ts line : jsstring) (m : list (jsstring * json)),
        is_object_text (trim line) m ->
        (forall k, In k pressure_aliases -> own_property k m = None)
        \/ (forall k, In k temperature_aliases -> own_property k m = None) ->
        parseLine ts line = None).
Proof.
  split; [exact parseLine_sound|]. split; [exact parseLine_complete|]. split; [|split].
  - intros ts line H. destruct (parseLine ts line) as [r|] eqn:E; [|reflexivity].
    apply parseLine_sound in E as (m & O & _). destruct (H m O).
  - intros ts line m v x (_ & _ & P) Hv Nv Fx.
    destruct (parseLine ts line) as [r|] eqn:E; [|reflexivity].
    apply parseLine_sound in E as (m' & (_ & _ & P') & _ & Fp & Ft & Hp & Ht & _).
    rewrite P in P'. inversion P'; subst m'.
    destruct Hv as [Hv|Hv]; [apply Hp in Hv | apply Ht in Hv];
      rewrite Nv in Hv; inversion Hv; subst; congruence.
  - split; [exact parseLine_exact|].
    intros ts line m (_ & _ & P) H.
    destruct (parseLine ts line) as [r|] eqn:E; [|reflexivity].
    apply parseLine_exact in E as (m' & (_ & _ & P') & _ & Ap & At & _).
    rewrite P in P'. inversion P'; subst m'.
    destruct H as [H|H]; apply absent_alias_number in H; congruence.
Qed.

(** C6 at scenario B. *)
Lemma C6_witness :
  exists r, parseLine ts1 line_B = Some r
    /\ measuredPressure r = num_23_4 /\ temperature r = num_32_1 /\ timestamp r = ts1.
Proof.
  refine (proj1 (proj2 C6_parseLine_decodes_first_non_null_aliases) ts1 line_B
            [(js "pressure", JNumber num_23_4); (js "temperature", JNumber num_32_1);
             (js "cycle", JNumber (num_of_Z 1))]
            (JNumber num_23_4) (JNumber num_32_1) num_23_4 num_32_1 _ _ _ _ _ _ _ _).
  - repeat split; vm_compute; reflexivity.
  - reflexivity.
  - reflexivity.
  - reflexivity.
  - reflexivity.
  - reflexivity.
  - reflexivity.
  - intros vc H. vm_compute in H. inversion H; subst. discriminate.
Defined.

(** ** C7: the throttle *)

(** C7. For a loop started with a session: a decoded line dispatches an
    upload exactly when [now - lastSentRef >= 1000], and then [lastSentRef]
    is already [now] in the state in which the loop is suspended on the
    upload. For every sequence of lines fed to any loop, at most one upload
    falls in any window of 1000 ms; and when the lines are valid and each
    comes at least 1000 ms after the one before, every one is uploaded. *)
Theorem C7_throttle :
  (forall (l : Loop) (s : State) (sess : Session) (ts line : jsstring) (now : Z) (r : RealtimeRow),
     pc l = AwaitRead -> seen_session l = Some sess -> parseLine ts line = Some r ->
     exists l' s' cs,
       readLoop_resume l s (ReadSettled (line_read line) ts now) = Some (l', s', cs)
       /\ (((1000 <= now - lastSentRef s)%Z
            /\ cs = [call_addData (id sess) (upload_dto r)]
            /\ pc l' = AwaitAddData /\ lastSentRef s' = now)
           \/ ((now - lastSentRef s < 1000)%Z
               /\ existsb is_addData cs = false /\ lastSentRef s' = lastSentRef s)))
  /\ (forall (l : Loop) (s : State) (os : list offer) (w : Z),
        uploads_in_window w (snd (feed (l, s) os)) <= 1)
  /\ (forall (l : Loop) (s : State) (sess : Session) (os : list offer),
        pc l = AwaitRead -> seen_session l = Some sess -> closeLoopRef s = false ->
        Forall (fun o => parseLine (offer_ts o) (offer_line o) <> None) os ->
        spaced (lastSentRef s) (map offer_now os) ->
        snd (feed (l, s) os) = map offer_now os).
Proof.
  split; [|split].
  - intros l s sess ts line now r Hpc Hs Hp.
    rewrite (resume_read_line _ _ _ _ now _ Hpc Hp).
    destruct (on_reading l s r now) as [[l' s'] cs] eqn:E. exists l', s', cs.
    split; [reflexivity|].
    destruct (on_reading_cases l s r now) as [(x & Hx & Hn & E')|([A|A] & E')];
      rewrite E' in E; [| congruence |].
    + left. inversion E; subst. rewrite Hs in Hx. inversion Hx; subst.
      repeat split; auto. open_state s.
      destruct (present (seen_session l) && negb (seen_isMonitoring l)); reflexivity.
    + right. split; [exact A|]. rewrite loop_head_eq in E. inversion E; subst.
      split; [destruct (closeLoopRef _); reflexivity|]. open_state s.
      destruct (present (seen_session l) && negb (seen_isMonitoring l)); reflexivity.
  - intros l s os w. apply (spaced_window w _ (lastSentRef s)). apply feed_spaced.
  - intros l s sess os. apply feed_all_sent.
Qed.

(** Lines that arrive faster than one per second: one upload per second. *)
Example dense_offers_throttled :
  snd (feed (loop1, connected_page) offers_dense) = [5000; 6000; 7000]%Z.
Proof. vm_compute. reflexivity. Qed.

(** C7 for three lines at 5000, 6000 and 7500 ms. *)
Lemma C7_witness :
  snd (feed (loop1, connected_page) offers_spaced) = [5000; 6000; 7500]%Z.
Proof.
  refine (proj2 (proj2 C7_throttle) loop1 connected_page session1 offers_spaced _ _ _ _ _).
  - reflexivity.
  - reflexivity.
  - reflexivity.
  - repeat constructor; vm_compute; discriminate.
  - cbn. lia.
Defined.

(** ** C8: the buffer *)

(** C8. In every state of the page the buffer holds at most 200 rows; an
    append below capacity adds the row at the end, and at capacity it also
    evicts the oldest row; after at least 200 appends, also when they are
    the valid lines read by a running loop, the buffer holds exactly the
    last 200 rows appended, in order of arrival. *)
Theorem C8_buffer_fifo_200 :
  (forall evs : list event, List.length (realtime (page (run_steps mounted evs))) <= 200)
  /\ (forall (r : RealtimeRow) (prev : list RealtimeRow),
        List.length prev < 200 -> push_reading r prev = prev ++ [r])
  /\ (forall (x r : RealtimeRow) (prev : list RealtimeRow),
        List.length (x :: prev) = 200 -> push_reading r (x :: prev) = prev ++ [r])
  /\ (forall prev rs : list RealtimeRow,
        200 <= List.length rs ->
        List.length (push_all prev rs) = 200
        /\ push_all prev rs = skipn (List.length rs - 200) rs)
  /\ (forall (l : Loop) (s : State) (os : list offer) (rows : list RealtimeRow),
        pc l = AwaitRead -> closeLoopRef s = false ->
        Forall2 (fun o r => parseLine (offer_ts o) (offer_line o) = Some r) os rows ->
        200 <= List.length rows ->
        realtime (snd (fst (feed (l, s) os))) = skipn (List.length rows - 200) rows).
Proof.
  split; [|split; [|split; [|split]]].
  - intros evs. apply run_steps_realtime. simpl. lia.
  - apply push_reading_below.
  - apply push_reading_evicts.
  - intros prev rs H. destruct (push_all_last_200 prev rs H) as [A B]. auto.
  - intros l s os rows Hpc Hc HF H.
    rewrite (feed_realtime os l s rows Hpc Hc HF).
    apply (push_all_last_200 (realtime s) rows H).
Qed.

(** C8 for 300 rows appended to the empty buffer. *)
Lemma C8_witness :
  List.length (push_all [] rows_300) = 200
  /\ push_all [] rows_300 = skipn 100 rows_300.
Proof.
  assert (L : List.length rows_300 = 300).
  { unfold rows_300. rewrite length_map, length_seq. reflexivity. }
  assert (H : 200 <= List.length rows_300) by (rewrite L; lia).
  pose proof (proj1 (proj2 (proj2 (proj2 C8_buffer_fifo_200))) [] rows_300 H) as [A B].
  split; [exact A|]. rewrite B, L. reflexivity.
Defined.

(** ** C9: cycles started by the device *)

(** C9, a defect of the code. After start, disconnect, connect and stop, the
    monitoring flag is false, a session exists and connection 2 is open,
    but its loop was started in a render in which [isMonitoring] was true:
    the valid line of scenario B is appended to the buffer and the flags
    stay false. *)
Theorem C9_stale_closure_misses_device_start :
  isMonitoring (page reconnected) = false
  /\ session (page reconnected) = Some session1
  /\ io (page reconnected) = Some 2%N
  /\ nth_error (loops reconnected) 1
     = Some {| connected := 2%N; seen_session := Some session1;
               seen_isMonitoring := true; pc := AwaitRead |}
  /\ parseLine ts1 line_B = Some row_B
  /\ (let sys' := act reconnected (LoopResumes 1 (ReadSettled (line_read line_B) ts1 9000)) in
      isMonitoring (page sys') = false /\ startedFromDevice (page sys') = false
      /\ realtime (page sys') = [row_B]).
Proof. vm_compute. repeat split; reflexivity. Qed.

(** The same run against C9 as the specification states it. *)
Lemma C9_not_as_stated : ~ C9_as_stated.
Proof.
  intros H.
  assert (E : isMonitoring
                (page (step reconnected
                         (LoopResumes 1 (ReadSettled (line_read line_B) ts1 9000))))
              = false) by (vm_compute; reflexivity).
  assert (M : isMonitoring
                (page (step reconnected
                         (LoopResumes 1 (ReadSettled (line_read line_B) ts1 9000))))
              = true).
  { refine (proj1 (H reconnected 1
              {| connected := 2%N; seen_session := Some session1;
                 seen_isMonitoring := true; pc := AwaitRead |}
              ts1 line_B 9000%Z row_B _ _ _ _ _ _)).
    - vm_compute; reflexivity.
    - reflexivity.
    - vm_compute; reflexivity.
    - vm_compute; discriminate.
    - vm_compute; discriminate.
    - vm_compute; reflexivity. }
  rewrite E in M. discriminate.
Qed.

(** The loop does set both flags when the render it was started in had a
    session and was not monitoring. *)
Lemma device_start_detected (l : Loop) (s : State) (sess : Session) (r : RealtimeRow) (now : Z) :
  seen_session l = Some sess -> seen_isMonitoring l = false ->
  isMonitoring (snd (fst (on_reading l s r now))) = true
  /\ startedFromDevice (snd (fst (on_reading l s r now))) = true.
Proof.
  intros Hs Hm.
  destruct (on_reading_cases l s r now) as [(x & _ & _ & E)|(_ & E)]; rewrite E;
    [|rewrite loop_head_eq]; rewrite Hs, Hm; open_state s; simpl; auto.
Qed.

(** ** C10: failed uploads *)

(** C10. When the upload a loop awaits is rejected, the loop resumes with
    the state of the page unchanged (no error message, the buffer, the
    flags and [lastSentRef] as they were), dispatches no upload, and does
    what it does when the upload is fulfilled: it goes to its head and, if
    not cancelled, issues the next read. *)
Theorem C10_upload_failure_swallowed (l : Loop) (s : State) (e : thrown) :
  pc l = AwaitAddData ->
  exists l' cs,
    readLoop_resume l s (AddDataSettled (Rejected e)) = Some (l', s, cs)
    /\ existsb is_addData cs = false
    /\ (forall d, readLoop_resume l s (AddDataSettled (Fulfilled d)) = Some (l', s, cs))
    /\ (closeLoopRef s = false -> pc l' = AwaitRead /\ cs = [call_read (connected l)]).
Proof.
  intros Hpc. unfold readLoop_resume. rewrite Hpc, loop_head_eq.
  eexists _, _. split; [reflexivity|].
  split; [destruct (closeLoopRef s); reflexivity|].
  split; [reflexivity|]. intros ->. auto.
Qed.

(** C10 for a network error on the connected page. *)
Lemma C10_witness :
  exists l' cs,
    readLoop_resume (at_pc AwaitAddData loop1) connected_page
      (AddDataSettled (Rejected (ErrorWith (js "Network Error"))))
    = Some (l', connected_page, cs)
    /\ existsb is_addData cs = false.
Proof.
  destruct (C10_upload_failure_swallowed (at_pc AwaitAddData loop1) connected_page
              (ErrorWith (js "Network Error")) eq_refl) as (l' & cs & H1 & H2 & _).
  exists l', cs. split; assumption.
Defined.

(** * Further properties of the code *)

(** ** The decoder and white space *)

Lemma trimStart_app (a b : jsstring) :
  trimStart (a ++ b) = if forallb is_white_space a then trimStart b else trimStart a ++ b.
Proof.
  induction a as [|c a IH]; [reflexivity|].
  cbn [app trimStart forallb]. destruct (is_white_space c); [exact IH | reflexivity].
Qed.

Lemma trimStart_white (a : jsstring) :
  forallb is_white_space a = true -> trimStart a = [].
Proof.
  induction a as [|c a IH]; [reflexivity|]. cbn [forallb trimStart].
  destruct (is_white_space c); [exact IH | discriminate].
Qed.

Lemma forallb_rev {A : Type} (f : A -> bool) (l : list A) :
  forallb f (rev l) = forallb f l.
Proof.
  induction l as [|x l IH]; [reflexivity|]. cbn [rev forallb].
  rewrite forallb_app, IH. cbn [forallb]. rewrite andb_true_r. apply andb_comm.
Qed.

Lemma trim_padded (pre line post : jsstring) :
  forallb is_white_space pre = true -> forallb is_white_space post = true ->
  trim (pre ++ line ++ post) = trim line.
Proof.
  intros Hpre Hpost. unfold trim.
  rewrite (trimStart_app pre), Hpre. rewrite (trimStart_app line).
  destruct (forallb is_white_space line) eqn:W.
  - rewrite (trimStart_white post Hpost), (trimStart_white line W). reflexivity.
  - rewrite rev_app_distr, (trimStart_app (rev post)), forallb_rev, Hpost. reflexivity.
Qed.

(** X1. White space around a line, such as the carriage return of a
    CRLF line ending, does not change what the line decodes to. *)
Theorem parseLine_ignores_padding (ts pre line post : jsstring) :
  forallb is_white_space pre = true -> forallb is_white_space post = true ->
  parseLine ts (pre ++ line ++ post) = parseLine ts line.
Proof.
  intros Hpre Hpost. unfold parseLine. rewrite (trim_padded pre line post Hpre Hpost).
  reflexivity.
Qed.

(** Scenario B with a leading space and a trailing carriage return. *)
Lemma parseLine_ignores_padding_witness :
  parseLine ts1 (js " " ++ line_B ++ [13%N]) = Some row_B.
Proof.
  rewrite (parseLine_ignores_padding ts1 (js " ") line_B [13%N]); vm_compute; reflexivity.
Defined.

(** ** Numbers: [clamp] and the bar of a metric box *)

Lemma zero_eq : zero = S754_zero false.
Proof. reflexivity. Qed.

(** X2. [clamp] between 0 and a positive bound: a value above the bound
    gives the bound, a value below 0 gives 0, and every other value comes
    back as it is (negative zero as zero, NaN as NaN). *)
Theorem clamp_saturates (n hi : number) :
  num_lt zero hi = true ->
  clamp n zero hi =
    if num_lt hi n then hi
    else if num_lt n zero then zero
    else match n with S754_zero true => zero | _ => n end.
Proof.
  intros Hhi. rewrite zero_eq in *. unfold clamp.
  destruct hi as [sh|sh| |sh mh eh]; try discriminate;
    try (destruct sh; discriminate).
  - destruct sh; [discriminate|].
    destruct n as [[]|[]| |[] mn en]; reflexivity.
  - destruct sh; [discriminate|].
    destruct n as [[]|[]| |[] mn en]; try reflexivity.
    unfold Math_min, Math_max. cbn [is_nan orb].
    destruct (num_lt (S754_finite false mh eh) (S754_finite false mn en)) eqn:L1.
    + reflexivity.
    + destruct (num_lt (S754_finite false mn en) (S754_finite false mh eh)); reflexivity.
Qed.

(** 250 and -3 saturate between 0 and 200; 23.4 passes unchanged. *)
Lemma clamp_saturates_witness :
  clamp (num_of_Z 250) zero (num_of_Z 200) = num_of_Z 200
  /\ clamp (num_of_Z (-3)) zero (num_of_Z 200) = zero
  /\ clamp num_23_4 zero (num_of_Z 200) = num_23_4.
Proof.
  split; [|split].
  - rewrite (clamp_saturates (num_of_Z 250) (num_of_Z 200)); reflexivity.
  - rewrite (clamp_saturates (num_of_Z (-3)) (num_of_Z 200)); reflexivity.
  - rewrite (clamp_saturates num_23_4 (num_of_Z 200)); reflexivity.
Defined.

Lemma shr_1_nonneg (mrs : shr_record) : (0 <= shr_m mrs)%Z -> (0 <= shr_m (shr_1 mrs))%Z.
Proof.
  destruct mrs as [m r s]. simpl. destruct m as [|p|p]; simpl; intros H; try lia.
  - destruct p; simpl; lia.
Qed.

Lemma iter_shr_1_nonneg (p : positive) :
  forall mrs, (0 <= shr_m mrs)%Z -> (0 <= shr_m (iter_pos shr_1 p mrs))%Z.
Proof.
  induction p as [p IH|p IH|]; intros mrs H; simpl.
  - apply IH. apply IH. apply shr_1_nonneg. exact H.
  - apply IH. apply IH. exact H.
  - apply shr_1_nonneg. exact H.
Qed.

Lemma shr_fexp_nonneg (m e : Z) (l : location) :
  (0 <= m)%Z -> (0 <= shr_m (fst (shr_fexp prec emax m e l)))%Z.
Proof.
  intros H. unfold shr_fexp, shr.
  assert (H0 : (0 <= shr_m (shr_record_of_loc m l))%Z).
  { unfold shr_record_of_loc. destruct l as [|[]]; simpl; exact H. }
  destruct (fexp prec emax (Zdigits2 m + e) - e)%Z; simpl; try exact H0.
  apply iter_shr_1_nonneg. exact H0.
Qed.

Lemma round_nearest_even_nonneg (m : Z) (l : location) :
  (0 <= m)%Z -> (0 <= round_nearest_even m l)%Z.
Proof.
  intros H. unfold round_nearest_even.
  destruct l as [|[]]; try lia; destruct (Z.even m); lia.
Qed.

Lemma binary_round_aux_not_nan (sx : bool) (mx ex : Z) (lx : location) :
  (0 <= mx)%Z -> is_nan (binary_round_aux prec emax sx mx ex lx) = false.
Proof.
  intros H. unfold binary_round_aux.
  pose proof (shr_fexp_nonneg mx ex lx H) as H1.
  destruct (shr_fexp prec emax mx ex lx) as [mrs' e']. cbn [fst] in H1.
  pose proof (shr_fexp_nonneg _ e' loc_Exact
                (round_nearest_even_nonneg _ (loc_of_shr_record mrs') H1)) as H2.
  destruct (shr_fexp prec emax (round_nearest_even (shr_m mrs') (loc_of_shr_record mrs')) e' loc_Exact)
    as [mrs'' e'']. cbn [fst] in H2.
  destruct (shr_m mrs'') as [|p|p]; [reflexivity| |lia].
  destruct (e'' <=? emax - prec)%Z; reflexivity.
Qed.

Lemma SFdiv_core_binary_nonneg (m1 m2 : positive) (e1 e2 : Z) :
  (0 <= fst (fst (SFdiv_core_binary prec emax (Zpos m1) e1 (Zpos m2) e2)))%Z.
Proof.
  unfold SFdiv_core_binary.
  generalize (e1 - e2 -
              Z.min (fexp prec emax (Zdigits2 (Z.pos m1) + e1 - (Zdigits2 (Z.pos m2) + e2)))
                (e1 - e2))%Z.
  intros s.
  assert (M : (0 <= match s with
                    | Zpos _ => Z.shiftl (Zpos m1) s
                    | Z0 => Zpos m1
                    | Zneg _ => 0
                    end)%Z).
  { destruct s; try lia. apply Z.shiftl_nonneg. lia. }
  revert M.
  generalize (match s with
              | Zpos _ => Z.shiftl (Zpos m1) s
              | Z0 => Zpos m1
              | Zneg _ => 0%Z
              end).
  intros m' M.
  pose proof (Z.div_eucl_eq m' (Zpos m2)) as E.
  pose proof (Z.mod_pos_bound m' (Zpos m2)) as B.
  unfold Z.modulo in B.
  destruct (Z.div_eucl m' (Z.pos m2)) as [q r]. cbn [fst].
  specialize (E ltac:(lia)). specialize (B ltac:(lia)). nia.
Qed.

Lemma num_div_not_nan (v maxBar : number) :
  Number_isFinite v = true -> Number_isFinite maxBar = true -> truthy_number maxBar = true ->
  is_nan (num_div v maxBar) = false.
Proof.
  intros Fv Fm Tm. unfold num_div.
  destruct v as [sv|sv| |sv mv ev]; try discriminate;
    destruct maxBar as [sm|sm| |sm mm em]; try discriminate; try reflexivity.
  unfold SFdiv.
  pose proof (SFdiv_core_binary_nonneg mv mm ev em) as N.
  destruct (SFdiv_core_binary prec emax (Z.pos mv) ev (Z.pos mm) em) as [[mz ez] lz].
  cbn [fst] in N. apply binary_round_aux_not_nan. exact N.
Qed.

Lemma num_mul_not_nan (x y : number) :
  is_nan x = false -> Number_isFinite y = true -> truthy_number y = true ->
  is_nan (num_mul x y) = false.
Proof.
  intros Nx Fy Ty. unfold num_mul.
  destruct x as [sx|sx| |sx mx ex]; try discriminate;
    destruct y as [sy|sy| |sy my ey]; try discriminate; try reflexivity.
  unfold SFmul. apply binary_round_aux_not_nan. lia.
Qed.

(** X3. The bar of a metric box is filled between 0 and 100 per cent
    whatever the value shown (absent, infinite or NaN included), for every
    full-scale value that is finite and not zero. *)
Theorem MetricBox_pct_in_range (value : option number) (maxBar : number) :
  Number_isFinite maxBar = true -> truthy_number maxBar = true ->
  within zero (num_of_Z 100) (MetricBox_pct value maxBar).
Proof.
  intros Fm Tm. unfold MetricBox_pct, MetricBox_v.
  assert (Z0 : within zero (num_of_Z 100) zero) by (split; reflexivity).
  destruct value as [x|]; [|exact Z0].
  destruct (Number_isFinite x) eqn:Fx; [|exact Z0].
  apply (clamp_in_range (num_mul (num_div x maxBar) (num_of_Z 100)) zero (num_of_Z 100));
    try reflexivity.
  apply num_mul_not_nan; try reflexivity. apply num_div_not_nan; assumption.
Qed.

(** A pressure of 250 on the bar of 100, and 40 degrees on the bar of 80: half of it. *)
Lemma MetricBox_pct_in_range_witness :
  within zero (num_of_Z 100) (MetricBox_pct (Some (num_of_Z 250)) (num_of_Z 100))
  /\ MetricBox_pct (Some (num_of_Z 40)) (num_of_Z 80) = num_of_Z 50.
Proof.
  split.
  - apply (MetricBox_pct_in_range (Some (num_of_Z 250)) (num_of_Z 100)); reflexivity.
  - vm_compute. reflexivity.
Defined.

(** ** The read loop: lines, failures, cancellation *)

Lemma resume_frame (l l' : Loop) (s s' : State) (ev : loop_event) (cs : list call) :
  readLoop_resume l s ev = Some (l', s', cs) ->
  patientId s' = patientId s /\ session s' = session s
  /\ targetPressure s' = targetPressure s /\ holdTimeSeconds s' = holdTimeSeconds s
  /\ ports s' = ports s /\ selectedPortIdx s' = selectedPortIdx s
  /\ io s' = io s /\ loading s' = loading s /\ closeLoopRef s' = closeLoopRef s.
Proof.
  unfold readLoop_resume. intros H.
  destruct (pc l), ev as [[rr|e] ts now|u]; try discriminate.
  - destruct (done rr); [inversion H; subst; same_fields|].
    destruct (value rr) as [[|c v]|];
      try (rewrite loop_head_eq in H; inversion H; subst; same_fields).
    destruct (parseLine ts (c :: v)) as [row|];
      [|rewrite loop_head_eq in H; inversion H; subst; same_fields].
    destruct (on_reading_cases l s row now) as [(x & _ & _ & E)|(_ & E)];
      rewrite E in H; [|rewrite loop_head_eq in H]; inversion H; subst; open_state s;
      destruct (present (seen_session l) && negb (seen_isMonitoring l)); cbn; same_fields.
  - remember (closeLoopRef s) as b eqn:C in H.
    destruct b; inversion H; subst; [same_fields|]. open_state s. cbn. same_fields.
  - rewrite loop_head_eq in H; inversion H; subst; same_fields.
Qed.

Lemma nth_error_replace_nth_same {A : Type} (l : list A) :
  forall i x y, nth_error l i = Some y -> nth_error (replace_nth i x l) i = Some x.
Proof.
  induction l as [|z l IH]; intros i x y H; destruct i; try discriminate; simpl in *.
  - reflexivity.
  - eapply IH. exact H.
Qed.

(** X4. A line that does not decode leaves the page as it is: nothing is
    buffered, no flag and no message changes, nothing is uploaded; at most
    the next read is issued. *)
Theorem undecodable_line_changes_nothing (sys : System) (i : nat) (ts line : jsstring) (now : Z) :
  parseLine ts line = None ->
  page (step sys (LoopResumes i (ReadSettled (line_read line) ts now))) = page sys
  /\ (log (step sys (LoopResumes i (ReadSettled (line_read line) ts now))) = log sys
      \/ exists c, log (step sys (LoopResumes i (ReadSettled (line_read line) ts now)))
                   = log sys ++ [call_read c]).
Proof.
  intros P. cbn [step].
  destruct (nth_error (loops sys) i) as [l|]; [|auto].
  unfold readLoop_resume, line_read. cbn [done value].
  destruct (pc l); [|auto|auto].
  assert (E : match line with
              | [] => Some (loop_head l (page sys))
              | c :: v => match parseLine ts (c :: v) with
                          | None => Some (loop_head l (page sys))
                          | Some reading => Some (on_reading l (page sys) reading now)
                          end
              end = Some (loop_head l (page sys))).
  { destruct line; [reflexivity|]. rewrite P. reflexivity. }
  rewrite E, loop_head_eq. cbn [page log].
  split; [reflexivity|]. destruct (closeLoopRef (page sys)); [left; apply app_nil_r | right; eauto].
Qed.

(** A boot message of the device on the connected page. *)
Lemma undecodable_line_changes_nothing_witness :
  page (step (run_acts mounted connect_events)
          (LoopResumes 0 (ReadSettled (line_read (js "boot ok")) ts1 5000)))
  = connected_page.
Proof.
  apply (undecodable_line_changes_nothing (run_acts mounted connect_events) 0 ts1
           (js "boot ok") 5000).
  vm_compute. reflexivity.
Defined.

(** X6. A failed read that was not cancelled is reported once and ends the
    loop; the connection stays recorded as open and the monitoring flag
    keeps its value. *)
Theorem read_failure_ends_loop (sys : System) (i : nat) (l : Loop) (e : thrown)
    (ts : jsstring) (now : Z) :
  nth_error (loops sys) i = Some l -> pc l = AwaitRead -> closeLoopRef (page sys) = false ->
  let sys' := step sys (LoopResumes i (ReadSettled (Rejected e) ts now)) in
  page sys' = setErr (Some (message_or e msg_read_failed)) (page sys)
  /\ io (page sys') = io (page sys)
  /\ isMonitoring (page sys') = isMonitoring (page sys)
  /\ nth_error (loops sys') i = Some (at_pc Returned l)
  /\ log sys' = log sys.
Proof.
  intros N Hpc Hc. cbn [step]. rewrite N. unfold readLoop_resume. rewrite Hpc, Hc.
  cbn [page loops log].
  split; [reflexivity|]. split; [destruct (page sys); reflexivity|].
  split; [destruct (page sys); reflexivity|].
  split; [apply (nth_error_replace_nth_same _ _ _ _ N) | apply app_nil_r].
Qed.

(** A read that fails on the connected page. *)
Lemma read_failure_ends_loop_witness :
  err (page (step (run_acts mounted connect_events)
               (LoopResumes 0 (ReadSettled (Rejected NotAnError) ts1 5000))))
  = Some msg_read_failed
  /\ io (page (step (run_acts mounted connect_events)
                 (LoopResumes 0 (ReadSettled (Rejected NotAnError) ts1 5000))))
     = Some 1%N.
Proof.
  destruct (read_failure_ends_loop (run_acts mounted connect_events) 0 loop1 NotAnError ts1 5000)
    as (P & I & _); try (vm_compute; reflexivity).
  split; [rewrite P | rewrite I]; vm_compute; reflexivity.
Defined.

(** X7. A resumption that finds the loop cancelled issues no read and
    reports no error. The loop has then returned, or it awaits the upload
    of the line it had just read; when that upload settles it returns if
    the cancellation flag is still set, and if a connect has cleared the
    flag meanwhile it reads on, from its old connection. *)
Theorem cancelled_resumption_issues_no_read (l l' : Loop) (s s' : State) (ev : loop_event)
    (cs : list call) :
  closeLoopRef s = true -> readLoop_resume l s ev = Some (l', s', cs) ->
  closeLoopRef s' = true /\ err s' = err s
  /\ (forall c, ~ In (call_read c) cs)
  /\ (pc l' = Returned
      \/ (pc l' = AwaitAddData
          /\ forall (s2 : State) (u : settled SessionData),
               readLoop_resume l' s2 (AddDataSettled u)
               = Some (if closeLoopRef s2
                       then (at_pc Returned l', s2, [])
                       else (at_pc AwaitRead l', s2, [call_read (connected l)])))).
Proof.
  intros Hc H.
  assert (HH : forall s0, closeLoopRef s0 = true -> err s0 = err s ->
                 Some (loop_head l s0) = Some (l', s', cs) ->
                 closeLoopRef s' = true /\ err s' = err s
                 /\ (forall c, ~ In (call_read c) cs) /\ pc l' = Returned).
  { intros s0 C0 E0 X. rewrite loop_head_eq, C0 in X. inversion X; subst.
    repeat split; auto. }
  unfold readLoop_resume in H.
  destruct (pc l) eqn:Hpc, ev as [[rr|e] ts now|u]; try discriminate.
  - destruct (done rr); [inversion H; subst; repeat split; auto|].
    destruct (value rr) as [[|c v]|];
      try (destruct (HH s Hc eq_refl H) as (A & B & C & D); solve [auto]).
    destruct (parseLine ts (c :: v)) as [row|];
      [|destruct (HH s Hc eq_refl H) as (A & B & C & D); solve [auto]].
    set (s2 := setRealtime (push_reading row)
                 (if present (seen_session l) && negb (seen_isMonitoring l)
                  then setStartedFromDevice true (setIsMonitoring true s) else s)).
    assert (C2 : closeLoopRef s2 = true /\ err s2 = err s).
    { unfold s2. open_state s. cbn in Hc. subst.
      destruct (present (seen_session l) && negb (seen_isMonitoring l)); cbn; auto. }
    destruct C2 as [C2 E2].
    destruct (on_reading_cases l s row now) as [(x & _ & _ & E)|(_ & E)];
      rewrite E in H; fold s2 in H.
    + inversion H; subst.
      assert (C3 : closeLoopRef (set_lastSentRef now s2) = true
                   /\ err (set_lastSentRef now s2) = err s).
      { rewrite <- C2, <- E2. destruct s2; cbn; auto. }
      destruct C3 as [C3 E3].
      split; [exact C3|]. split; [exact E3|].
      split; [intros c0 [X|[]]; discriminate|].
      right. split; [reflexivity|]. intros s3 u. unfold readLoop_resume. cbn [pc at_pc].
      rewrite loop_head_eq. destruct (closeLoopRef s3); reflexivity.
    + destruct (HH s2 C2 E2 H) as (A & B & C & D). auto.
  - rewrite Hc in H. inversion H; subst. repeat split; auto.
  - destruct (HH s Hc eq_refl H) as (A & B & C & D). auto.
Qed.

(** Scenario B read after a disconnect: uploaded, and no further read. *)
Lemma cancelled_resumption_issues_no_read_witness :
  closeLoopRef cancelled_page = true
  /\ forall c, ~ In (call_read c) [call_addData (js "s1") (upload_dto row_B)].
Proof.
  assert (E : readLoop_resume loop1 cancelled_page (ReadSettled (line_read line_B) ts1 5000)
              = Some (at_pc AwaitAddData loop1,
                      set_lastSentRef 5000
                        (setRealtime (push_reading row_B)
                           (setStartedFromDevice true (setIsMonitoring true cancelled_page))),
                      [call_addData (js "s1") (upload_dto row_B)]))
    by (vm_compute; reflexivity).
  assert (C : closeLoopRef cancelled_page = true) by reflexivity.
  destruct (cancelled_resumption_issues_no_read _ _ _ _ _ _ C E) as (_ & _ & N & _).
  split; [exact C | exact N].
Defined.

(** X8. The read loop never touches the configuration of the page: patient,
    session, protocol, ports, selection, connection, loading flag and
    cancellation flag are as before every resumption. *)
Theorem loop_leaves_configuration (sys : System) (i : nat) (ev : loop_event) :
  patientId (page (step sys (LoopResumes i ev))) = patientId (page sys)
  /\ session (page (step sys (LoopResumes i ev))) = session (page sys)
  /\ targetPressure (page (step sys (LoopResumes i ev))) = targetPressure (page sys)
  /\ holdTimeSeconds (page (step sys (LoopResumes i ev))) = holdTimeSeconds (page sys)
  /\ ports (page (step sys (LoopResumes i ev))) = ports (page sys)
  /\ selectedPortIdx (page (step sys (LoopResumes i ev))) = selectedPortIdx (page sys)
  /\ io (page (step sys (LoopResumes i ev))) = io (page sys)
  /\ loading (page (step sys (LoopResumes i ev))) = loading (page sys)
  /\ closeLoopRef (page (step sys (LoopResumes i ev))) = closeLoopRef (page sys).
Proof.
  cbn [step]. destruct (nth_error (loops sys) i) as [l|]; [|same_fields].
  destruct (readLoop_resume l (page sys) ev) as [[[l' s'] cs]|] eqn:E; [|same_fields].
  cbn [page]. exact (resume_frame _ _ _ _ _ _ E).
Qed.

(** ** The handlers *)

Lemma findIndex_from_found (p : SerialPort) (l : list SerialPort) :
  forall i, In p l ->
    (i <= findIndex_from i p l)%Z
    /\ nth_error l (Z.to_nat (findIndex_from i p l - i)) = Some p.
Proof.
  induction l as [|x l IH]; intros i H; [destruct H|].
  cbn [findIndex_from]. destruct (N.eqb x p) eqn:E.
  - apply N.eqb_eq in E. subst. rewrite Z.sub_diag. split; [lia | reflexivity].
  - destruct H as [H|H]; [subst; rewrite N.eqb_refl in E; discriminate|].
    destruct (IH (i + 1)%Z H) as [L N]. split; [lia|].
    replace (Z.to_nat (findIndex_from (i + 1) p l - i))
      with (S (Z.to_nat (findIndex_from (i + 1) p l - (i + 1)))) by lia.
    exact N.
Qed.

Lemma findIndex_from_absent (p : SerialPort) (l : list SerialPort) :
  forall i, ~ In p l -> findIndex_from i p l = (-1)%Z.
Proof.
  induction l as [|x l IH]; intros i H; [reflexivity|].
  cbn [findIndex_from]. destruct (N.eqb x p) eqn:E.
  - apply N.eqb_eq in E. subst. contradiction H. left. reflexivity.
  - apply IH. intros X. apply H. right. exact X.
Qed.

(** X9. The port the operator picks in the browser's dialog is the one that
    the next connect opens, at 115200 baud; when the picked port is not
    among the authorized ports, nothing is selected and connect does
    nothing. *)
Theorem picked_port_is_opened (s : State) (p : SerialPort) (list : list SerialPort)
    (opened : settled SerialIO) :
  let s1 := after (handleRequestPort s (Fulfilled p) (Fulfilled list)) in
  ports s1 = list
  /\ if existsb (N.eqb p) list
     then port_at (ports s1) (selectedPortIdx s1) = Some p
          /\ hd_error (calls (fst (handleConnect s1 opened)))
             = Some (call_openPort (Some p) 115200)
     else selectedPortIdx s1 = (-1)%Z /\ handleConnect s1 opened = (returns s1 [], None).
Proof.
  unfold handleRequestPort. cbn [after returns].
  split; [open_state s; reflexivity|].
  destruct (existsb (N.eqb p) list) eqn:Ex.
  - assert (H : In p list).
    { apply existsb_exists in Ex as (x & Hx & E). apply N.eqb_eq in E. subst. exact Hx. }
    destruct (findIndex_from_found p list 0%Z H) as [L N].
    rewrite Z.sub_0_r in N.
    assert (G : (0 <=? findIndex_from 0 p list)%Z = true) by (apply Z.leb_le; exact L).
    rewrite G.
    assert (P : port_at list (findIndex_from 0 p list) = Some p).
    { unfold port_at. destruct (findIndex_from 0 p list <? 0)%Z eqn:X; [|exact N].
      apply Z.ltb_lt in X. lia. }
    unfold handleConnect. open_state s. cbn.
    destruct (findIndex_from 0 p list <? 0)%Z eqn:X; [apply Z.ltb_lt in X; lia|].
    rewrite P. split; [reflexivity|]. destruct opened; reflexivity.
  - assert (H : ~ In p list).
    { intros H. assert (X : existsb (N.eqb p) list = true).
      { apply existsb_exists. exists p. split; [exact H | apply N.eqb_refl]. }
      rewrite X in Ex. discriminate. }
    rewrite (findIndex_from_absent p list 0%Z H).
    unfold handleConnect. open_state s. cbn. split; reflexivity.
Qed.

Lemma handleReset_eq (s : State) (closed : settled unit) :
  handleReset s closed =
    if isMonitoring s then returns s []
    else returns
           {| patientId := []; session := None;
              targetPressure := num_of_Z 30; holdTimeSeconds := num_of_Z 10;
              ports := ports s; selectedPortIdx := (-1)%Z; io := None;
              isMonitoring := false; startedFromDevice := false;
              loading := loading s; err := None; realtime := [];
              lastSentRef := lastSentRef s;
              closeLoopRef := present (io s) || closeLoopRef s |}
           (match io s with Some c => [call_close c] | None => [] end).
Proof.
  unfold handleReset, handleDisconnect. open_state s. cbn [isMonitoring io].
  destruct mon; [reflexivity|]. destruct cio; reflexivity.
Qed.

(** X10. Reset does nothing while monitoring; otherwise it brings the page
    back to its defaults, closing the connection if one is open, and keeps
    only the list of ports, the loading flag and the clock of the
    throttle. *)
Theorem reset_restores_defaults (s : State) (closed : settled unit) :
  if isMonitoring s then handleReset s closed = returns s []
  else
    after (handleReset s closed)
    = setPorts (ports s)
        (setLoading (loading s)
           (set_lastSentRef (lastSentRef s)
              (set_closeLoopRef (present (io s) || closeLoopRef s) initial)))
    /\ calls (handleReset s closed) = match io s with Some c => [call_close c] | None => [] end
    /\ result (handleReset s closed) = Fulfilled tt.
Proof.
  rewrite handleReset_eq. destruct (isMonitoring s); [reflexivity|].
  cbn [after calls result returns]. split; [reflexivity|]. split; reflexivity.
Qed.


(** X12. A start or stop command that cannot be written changes no monitoring
    flag and is not reported: the message is cleared, not set, and the
    handler's promise is rejected. *)
Theorem failed_command_not_reported (s : State) (c : SerialIO) (sess : Session) (e : thrown) :
  io s = Some c -> session s = Some sess ->
  (result (handleStart s (Rejected e)) = Rejected e
   /\ isMonitoring (after (handleStart s (Rejected e))) = isMonitoring s
   /\ err (after (handleStart s (Rejected e))) = None
   /\ calls (handleStart s (Rejected e)) = [call_writeLine c (js "I")])
  /\ (result (handleStop s (Rejected e)) = Rejected e
      /\ isMonitoring (after (handleStop s (Rejected e))) = isMonitoring s
      /\ err (after (handleStop s (Rejected e))) = None
      /\ calls (handleStop s (Rejected e)) = [call_writeLine c (js "S")]).
Proof.
  intros Hio Hs. unfold handleStart, handleStop. rewrite Hio, Hs.
  open_state s. cbn. repeat split; reflexivity.
Qed.

(** A stop that cannot be written on the connected page. *)
Lemma failed_command_not_reported_witness :
  err (after (handleStop connected_page (Rejected (ErrorWith (js "port lost"))))) = None
  /\ result (handleStop connected_page (Rejected (ErrorWith (js "port lost"))))
     = Rejected (ErrorWith (js "port lost")).
Proof.
  destruct (failed_command_not_reported connected_page 1%N session1
              (ErrorWith (js "port lost")) eq_refl eq_refl) as (_ & R & _ & E & _).
  split; [exact E | exact R].
Defined.

(** X13. A loop started while the page was not monitoring overrides the
    operator: after a stop, the next decoded line turns monitoring on
    again, and after a start by the operator, the next decoded line marks
    the cycle as started by the device. *)
Theorem line_overrides_operator (l : Loop) (s : State) (c : SerialIO) (sess sess' : Session)
    (r : RealtimeRow) (now : Z) :
  io s = Some c -> session s = Some sess ->
  seen_session l = Some sess' -> seen_isMonitoring l = false ->
  isMonitoring (after (handleStop s (Fulfilled tt))) = false
  /\ isMonitoring (snd (fst (on_reading l (after (handleStop s (Fulfilled tt))) r now))) = true
  /\ startedFromDevice (after (handleStart s (Fulfilled tt))) = false
  /\ startedFromDevice (snd (fst (on_reading l (after (handleStart s (Fulfilled tt))) r now)))
     = true.
Proof.
  intros Hio Hs Hl Hm. unfold handleStart, handleStop. rewrite Hio, Hs. cbn [after returns].
  split; [open_state s; reflexivity|].
  split; [|split; [open_state s; reflexivity|]].
  - match goal with |- context [on_reading l ?s0 r now] =>
      destruct (on_reading_cases l s0 r now) as [(x & _ & _ & E)|(_ & E)]; rewrite E;
        [|rewrite loop_head_eq]; rewrite Hl, Hm; open_state s; reflexivity
    end.
  - match goal with |- context [on_reading l ?s0 r now] =>
      destruct (on_reading_cases l s0 r now) as [(x & _ & _ & E)|(_ & E)]; rewrite E;
        [|rewrite loop_head_eq]; rewrite Hl, Hm; open_state s; reflexivity
    end.
Qed.

(** Stop on the connected page, then scenario B. *)
Lemma line_overrides_operator_witness :
  isMonitoring (snd (fst (on_reading loop1 (after (handleStop connected_page (Fulfilled tt)))
                            row_B 5000))) = true.
Proof.
  destruct (line_overrides_operator loop1 connected_page 1%N session1 session1 row_B 5000
              eq_refl eq_refl eq_refl eq_refl) as (_ & M & _).
  exact M.
Defined.

(** X14. Reset does not stop a line that is still to be read: a loop
    started with a session while not monitoring buffers the line read
    after the reset and turns monitoring on, on a page without session and
    without connection, where stop, start and reset are all disabled; and
    if 1000 ms have passed since the last upload it uploads the line to
    the session that was reset. *)
Theorem line_after_reset_is_processed (l : Loop) (s : State) (sess : Session)
    (r : RealtimeRow) (now : Z) (closed : settled unit) :
  isMonitoring s = false ->
  seen_session l = Some sess -> seen_isMonitoring l = false ->
  exists l1 s1 cs,
    on_reading l (after (handleReset s closed)) r now = (l1, s1, cs)
    /\ session s1 = None /\ io s1 = None
    /\ isMonitoring s1 = true /\ startedFromDevice s1 = true /\ realtime s1 = [r]
    /\ (forall w, enabled s1 (ClickStop w) = false)
    /\ (forall w, enabled s1 (ClickStart w) = false)
    /\ (forall w, enabled s1 (ClickReset w) = false)
    /\ cs = if (1000 <=? now - lastSentRef s)%Z
            then [call_addData (id sess) (upload_dto r)]
            else if present (io s) || closeLoopRef s then []
                 else [call_read (connected l)].
Proof.
  intros Hm Hl Hlm. rewrite handleReset_eq, Hm. cbn [after returns].
  unfold on_reading. rewrite Hl, Hlm. cbn [present negb andb].
  cbn [setIsMonitoring setStartedFromDevice setRealtime lastSentRef].
  destruct (1000 <=? now - lastSentRef s)%Z.
  - eexists _, _, _. split; [reflexivity|]. cbn. repeat split; reflexivity.
  - rewrite loop_head_eq. cbn [closeLoopRef].
    eexists _, _, _. split; [reflexivity|]. cbn [session io isMonitoring startedFromDevice realtime].
    repeat (split; [reflexivity|]).
    destruct (present (io s) || closeLoopRef s); reflexivity.
Qed.

(** Reset of the connected page, then scenario B. *)
Lemma line_after_reset_is_processed_witness :
  exists l1 s1,
    on_reading loop1 (after (handleReset connected_page (Fulfilled tt))) row_B 5000
    = (l1, s1, [call_addData (js "s1") (upload_dto row_B)])
    /\ session s1 = None /\ isMonitoring s1 = true.
Proof.
  destruct (line_after_reset_is_processed loop1 connected_page session1 row_B 5000 (Fulfilled tt)
              eq_refl eq_refl eq_refl)
    as (l1 & s1 & cs & E & S & _ & M & _ & _ & _ & _ & _ & C).
  exists l1, s1. rewrite E, C. split; [vm_compute; reflexivity|]. split; assumption.
Defined.



(** ** Runs of the page under any events *)

Lemma run_steps_snoc (sys : System) (evs : list event) (ev : event) :
  run_steps sys (evs ++ [ev]) = step (run_steps sys evs) ev.
Proof. unfold run_steps. rewrite fold_left_app. reflexivity. Qed.

(** What a resumption of the loop calls. *)
Lemma resume_calls (l l' : Loop) (s s' : State) (ev : loop_event) (cs : list call) :
  readLoop_resume l s ev = Some (l', s', cs) ->
  cs = [] \/ cs = [call_read (connected l)]
  \/ exists sess r, seen_session l = Some sess
       /\ Number_isFinite (measuredPressure r) = true
       /\ Number_isFinite (temperature r) = true
       /\ cs = [call_addData (id sess) (upload_dto r)].
Proof.
  assert (HH : forall s0, Some (loop_head l s0) = Some (l', s', cs) ->
                 cs = [] \/ cs = [call_read (connected l)]).
  { intros s0 X. rewrite loop_head_eq in X.
    destruct (closeLoopRef s0); inversion X; auto. }
  unfold readLoop_resume. intros H.
  destruct (pc l), ev as [[rr|e] ts now|u]; try discriminate.
  - destruct (done rr); [inversion H; auto|].
    destruct (value rr) as [[|c v]|]; try (destruct (HH _ H); solve [auto]).
    destruct (parseLine ts (c :: v)) as [row|] eqn:P; [|destruct (HH _ H); solve [auto]].
    destruct (parseLine_finite _ _ _ P) as [Fp Ft].
    destruct (on_reading_cases l s row now) as [(x & Hx & _ & E)|(_ & E)]; rewrite E in H.
    + inversion H; subst. right. right. exists x, row. auto.
    + destruct (HH _ H); auto.
  - destruct (closeLoopRef s); inversion H; auto.
  - destruct (HH _ H); auto.
Qed.

Lemma resume_lastSentRef (l l' : Loop) (s s' : State) (ev : loop_event) (cs : list call) :
  readLoop_resume l s ev = Some (l', s', cs) -> (lastSentRef s <= lastSentRef s')%Z.
Proof.
  unfold readLoop_resume. intros H.
  destruct (pc l), ev as [[rr|e] ts now|u]; try discriminate.
  - destruct (done rr); [inversion H; subst; lia|].
    destruct (value rr) as [[|c v]|];
      try (rewrite loop_head_eq in H; inversion H; subst; lia).
    destruct (parseLine ts (c :: v)) as [row|];
      [|rewrite loop_head_eq in H; inversion H; subst; lia].
    destruct (on_reading_cases l s row now) as [(x & _ & Hn & E)|(_ & E)];
      rewrite E in H; [|rewrite loop_head_eq in H]; inversion H; subst; open_state s;
      destruct (present (seen_session l) && negb (seen_isMonitoring l)); cbn in *; lia.
  - destruct (closeLoopRef s); inversion H; subst; [lia|]. open_state s. cbn. lia.
  - rewrite loop_head_eq in H; inversion H; subst; lia.
Qed.

Lemma step_lastSentRef (sys : System) (ev : event) :
  (lastSentRef (page sys) <= lastSentRef (page (step sys ev)))%Z.
Proof.
  destruct sys as [s ls lg].
  destruct ev; cbn [step page loops with_page with_run].
  - open_state s. cbn. lia.
  - open_state s. cbn. lia.
  - open_state s. cbn. lia.
  - unfold handleCreateSession. open_state s. cbn.
    destruct (negb (nonempty pid)); [cbn; lia|]. destruct created; cbn; lia.
  - open_state s. cbn. lia.
  - unfold handleRequestPort. open_state s. cbn.
    destruct picked; [|cbn; lia]. destruct listed; cbn; lia.
  - unfold handleConnect. open_state s. cbn.
    destruct (idx <? 0)%Z; [cbn; lia|]. destruct opened; cbn; lia.
  - unfold handleDisconnect. open_state s. cbn. destruct cio; cbn; lia.
  - unfold handleStart. open_state s. cbn.
    destruct cio; [|cbn; lia]. destruct sess; [|cbn; lia]. destruct written; cbn; lia.
  - unfold handleStop. open_state s. cbn.
    destruct cio; [|cbn; lia]. destruct sess; [|cbn; lia]. destruct written; cbn; lia.
  - unfold handleReset, handleDisconnect. open_state s. cbn.
    destruct mon; [cbn; lia|]. destruct cio; cbn; lia.
  - destruct (nth_error ls i) as [l|]; [|cbn; lia].
    destruct (readLoop_resume l s ev) as [[[l' s'] cs]|] eqn:E; [|cbn; lia].
    cbn [page]. apply (resume_lastSentRef _ _ _ _ _ _ E).
Qed.

(** X15. The clock of the throttle never goes back: no handler resets it, not
    even reset or a new connection, so the uploads of a new session are
    throttled against the last upload of the session before. *)
Theorem throttle_clock_never_goes_back (evs : list event) :
  forall sys : System, (lastSentRef (page sys) <= lastSentRef (page (run_steps sys evs)))%Z.
Proof.
  induction evs as [|ev evs IH]; intros sys; [cbn; lia|].
  cbn [run_steps fold_left]. pose proof (step_lastSentRef sys ev) as S1.
  specialize (IH (step sys ev)). unfold run_steps in IH. lia.
Qed.

Lemma serial_call_ok_mono (cs cs' : list SerialIO) (c : call) :
  incl cs cs' -> serial_call_ok cs c -> serial_call_ok cs' c.
Proof.
  intros I. destruct c; cbn; auto. intros [H1 H2]. auto.
Qed.

Lemma serial_inv_mono (cs cs' : list SerialIO) (sys : System) :
  incl cs cs' -> serial_inv cs sys -> serial_inv cs' sys.
Proof.
  intros I (I1 & I2 & I3). split; [|split].
  - intros c H. apply I. apply I1. exact H.
  - eapply Forall_impl; [|exact I2]. intros l H. apply I. exact H.
  - eapply Forall_impl; [|exact I3]. intros c. apply serial_call_ok_mono. exact I.
Qed.

Lemma Forall_snoc {A : Type} (P : A -> Prop) (l : list A) (x : A) :
  Forall P l -> P x -> Forall P (l ++ [x]).
Proof. intros H Hx. apply Forall_app. split; [exact H | constructor; [exact Hx | constructor]]. Qed.

Lemma step_serial (cs : list SerialIO) (sys : System) (ev : event) :
  serial_inv cs sys -> (forall c, ev = ClickConnect (Fulfilled c) -> In c cs) ->
  serial_inv cs (step sys ev).
Proof.
  destruct sys as [s ls lg]. intros (I1 & I2 & I3) Hc. cbn [page loops log] in *.
  unfold serial_inv.
  open_event ev;
    cbn [step page loops log with_page with_run].
  - split; [|auto]. open_state s. exact I1.
  - split; [|auto]. open_state s. exact I1.
  - split; [|auto]. open_state s. exact I1.
  - unfold handleCreateSession. open_state s. cbn in *.
    destruct (negb (nonempty pid)); cbn; [rewrite app_nil_r; auto|].
    split; [destruct created; exact I1|]. split; [exact I2|].
    apply Forall_snoc; [exact I3 | exact I].
  - split; [|auto]. open_state s. exact I1.
  - unfold handleRequestPort. open_state s. cbn in *.
    assert (T : Forall (serial_call_ok cs) (lg ++ [call_requestPort; call_getAuthorizedPorts])).
    { apply Forall_app. split; [exact I3|]. repeat constructor. }
    destruct picked; [destruct listed|]; cbn; auto.
    split; [exact I1|]. split; [exact I2|]. apply Forall_snoc; [exact I3 | exact I].
  - unfold handleConnect. open_state s. cbn in *.
    destruct (idx <? 0)%Z; cbn; [rewrite !app_nil_r; auto|].
    destruct opened as [c|e]; cbn.
    + specialize (Hc c eq_refl).
      split; [intros c0 X; inversion X; subst; exact Hc|].
      split; [apply Forall_snoc; [exact I2 | exact Hc]|].
      apply Forall_app. split; [exact I3|]. repeat constructor. exact Hc.
    + rewrite app_nil_r. split; [exact I1|]. split; [exact I2|].
      apply Forall_snoc; [exact I3 | reflexivity].
  - unfold handleDisconnect. open_state s. cbn in *.
    destruct cio as [c|]; cbn; [|rewrite app_nil_r; auto].
    split; [intros c0 X; discriminate|]. split; [exact I2|].
    apply Forall_snoc; [exact I3 | apply I1; reflexivity].
  - unfold handleStart. open_state s. cbn in *.
    destruct cio as [c|]; [|cbn; rewrite app_nil_r; auto].
    destruct sess; [|cbn; rewrite app_nil_r; auto].
    destruct written; cbn; (split; [exact I1|]; split; [exact I2|];
      apply Forall_snoc; [exact I3 | split; [apply I1; reflexivity | left; reflexivity]]).
  - unfold handleStop. open_state s. cbn in *.
    destruct cio as [c|]; [|cbn; rewrite app_nil_r; auto].
    destruct sess; [|cbn; rewrite app_nil_r; auto].
    destruct written; cbn; (split; [exact I1|]; split; [exact I2|];
      apply Forall_snoc; [exact I3 | split; [apply I1; reflexivity | right; reflexivity]]).
  - unfold handleReset, handleDisconnect. open_state s. cbn in *.
    destruct mon; [cbn; rewrite app_nil_r; auto|].
    destruct cio as [c|]; cbn; [|rewrite app_nil_r].
    + split; [intros c0 X; discriminate|]. split; [exact I2|].
      apply Forall_snoc; [exact I3 | apply I1; reflexivity].
    + split; [intros c0 X; discriminate|]. auto.
  - destruct (nth_error ls j) as [l|] eqn:N; [|auto].
    destruct (readLoop_resume l s ev') as [[[l' s'] cs']|] eqn:E; [|auto].
    cbn [page loops log].
    assert (Hl : In (connected l) cs).
    { rewrite Forall_forall in I2. apply I2. apply nth_error_In in N. exact N. }
    split; [|split].
    + rewrite (resume_io _ _ _ _ _ _ E). exact I1.
    + apply Forall_replace_nth; [exact I2|].
      destruct (resume_seen _ _ _ _ _ _ E) as (_ & _ & ->). exact Hl.
    + apply Forall_app. split; [exact I3|].
      destruct (resume_calls _ _ _ _ _ _ E) as [->|[->|(x & r & _ & _ & _ & ->)]];
        repeat constructor. exact Hl.
Qed.

Lemma opened_connections_snoc (evs : list event) (ev : event) :
  opened_connections (evs ++ [ev]) = opened_connections evs ++ opened_connections [ev].
Proof. unfold opened_connections. apply flat_map_app. Qed.

Lemma run_steps_serial (evs : list event) :
  serial_inv (opened_connections evs) (run_steps mounted evs).
Proof.
  induction evs as [|ev evs IH] using rev_ind.
  - split; [intros c X; discriminate|]. split; constructor.
  - rewrite run_steps_snoc, opened_connections_snoc. apply step_serial.
    + eapply serial_inv_mono; [|exact IH]. apply incl_appl. apply incl_refl.
    + intros c ->. apply in_or_app. right. left. reflexivity.
Qed.

(** X16. Everything the page ever asks of the serial adapter is in order: a
    port is opened at 115200 baud only, the only commands written are
    [I] and [S], and reads, writes and closes go to connections that an
    earlier connect of this page has opened. *)
Theorem serial_calls_conform (evs : list event) :
  Forall (serial_call_ok (opened_connections evs)) (log (run_steps mounted evs)).
Proof. exact (proj2 (proj2 (run_steps_serial evs))). Qed.

Lemma service_call_ok_mono (ss ss' : list Session) (c : call) :
  incl ss ss' -> service_call_ok ss c -> service_call_ok ss' c.
Proof.
  intros I. destruct c; cbn; auto. intros [(sess & H1 & H2) H3]. split; [|exact H3].
  exists sess. auto.
Qed.

Lemma service_inv_mono (ss ss' : list Session) (sys : System) :
  incl ss ss' -> service_inv ss sys -> service_inv ss' sys.
Proof.
  intros I (I1 & I2 & I3). split; [|split].
  - intros c H. apply I. apply I1. exact H.
  - eapply Forall_impl; [|exact I2]. intros l H sess X. apply I. apply H. exact X.
  - eapply Forall_impl; [|exact I3]. intros c. apply service_call_ok_mono. exact I.
Qed.

Lemma step_service (ss : list Session) (sys : System) (ev : event) :
  service_inv ss sys -> (forall sess, ev = ClickCreateSession (Fulfilled sess) -> In sess ss) ->
  service_inv ss (step sys ev).
Proof.
  destruct sys as [s ls lg]. intros (I1 & I2 & I3) Hc. cbn [page loops log] in *.
  unfold service_inv.
  open_event ev;
    cbn [step page loops log with_page with_run].
  - split; [|auto]. open_state s. exact I1.
  - split; [|auto]. open_state s. exact I1.
  - split; [|auto]. open_state s. exact I1.
  - unfold handleCreateSession. open_state s. cbn in *.
    destruct (negb (nonempty pid)) eqn:NP; cbn; [rewrite app_nil_r; auto|].
    split; [|split; [exact I2|]].
    + destruct created as [x|e]; [|exact I1]. cbn.
      intros sess0 X. inversion X; subst. apply Hc. reflexivity.
    + apply Forall_snoc; [exact I3|]. cbn. destruct (nonempty pid); [reflexivity|discriminate].
  - split; [|auto]. open_state s. exact I1.
  - unfold handleRequestPort. open_state s. cbn in *.
    assert (T : Forall (service_call_ok ss) (lg ++ [call_requestPort; call_getAuthorizedPorts])).
    { apply Forall_app. split; [exact I3|]. repeat constructor. }
    destruct picked; [destruct listed|]; cbn; auto.
    split; [exact I1|]. split; [exact I2|]. apply Forall_snoc; [exact I3 | exact I].
  - unfold handleConnect. open_state s. cbn in *.
    destruct (idx <? 0)%Z; cbn; [rewrite !app_nil_r; auto|].
    destruct opened as [c|e]; cbn.
    + split; [exact I1|].
      split; [apply Forall_snoc; [exact I2 | exact I1]|].
      apply Forall_app. split; [exact I3|]. repeat constructor.
    + rewrite app_nil_r. split; [exact I1|]. split; [exact I2|].
      apply Forall_snoc; [exact I3 | exact I].
  - unfold handleDisconnect. open_state s. cbn in *.
    destruct cio as [c|]; cbn; [|rewrite app_nil_r; auto].
    split; [exact I1|]. split; [exact I2|]. apply Forall_snoc; [exact I3 | exact I].
  - unfold handleStart. open_state s. cbn in *.
    destruct cio as [c|]; [|cbn; rewrite app_nil_r; auto].
    destruct sess; [|cbn; rewrite app_nil_r; auto].
    destruct written; cbn; (split; [exact I1|]; split; [exact I2|];
      apply Forall_snoc; [exact I3 | exact I]).
  - unfold handleStop. open_state s. cbn in *.
    destruct cio as [c|]; [|cbn; rewrite app_nil_r; auto].
    destruct sess; [|cbn; rewrite app_nil_r; auto].
    destruct written; cbn; (split; [exact I1|]; split; [exact I2|];
      apply Forall_snoc; [exact I3 | exact I]).
  - unfold handleReset, handleDisconnect. open_state s. cbn in *.
    destruct mon; [cbn; rewrite app_nil_r; auto|].
    destruct cio as [c|]; cbn; [|rewrite app_nil_r].
    + split; [intros c0 X; discriminate|]. split; [exact I2|].
      apply Forall_snoc; [exact I3 | exact I].
    + split; [intros c0 X; discriminate|]. auto.
  - destruct (nth_error ls j) as [l|] eqn:N; [|auto].
    destruct (readLoop_resume l s ev') as [[[l' s'] cs']|] eqn:E; [|auto].
    cbn [page loops log].
    assert (Hl : forall sess, seen_session l = Some sess -> In sess ss).
    { rewrite Forall_forall in I2. apply I2. apply nth_error_In in N. exact N. }
    split; [|split].
    + destruct (resume_frame _ _ _ _ _ _ E) as (_ & -> & _). exact I1.
    + apply Forall_replace_nth; [exact I2|].
      destruct (resume_seen _ _ _ _ _ _ E) as (-> & _). exact Hl.
    + apply Forall_app. split; [exact I3|].
      destruct (resume_calls _ _ _ _ _ _ E) as [->|[->|(x & r & Hx & Fp & Ft & ->)]];
        [constructor | repeat constructor |].
      constructor; [|constructor]. split; [|exact (upload_dto_within r Fp Ft)].
      exists x. split; [apply Hl; exact Hx | reflexivity].
Qed.

Lemma created_sessions_snoc (evs : list event) (ev : event) :
  created_sessions (evs ++ [ev]) = created_sessions evs ++ created_sessions [ev].
Proof. unfold created_sessions. apply flat_map_app. Qed.

Lemma run_steps_service (evs : list event) :
  service_inv (created_sessions evs) (run_steps mounted evs).
Proof.
  induction evs as [|ev evs IH] using rev_ind.
  - split; [intros c X; discriminate|]. split; constructor.
  - rewrite run_steps_snoc, created_sessions_snoc. apply step_service.
    + eapply service_inv_mono; [|exact IH]. apply incl_appl. apply incl_refl.
    + intros c ->. apply in_or_app. right. left. reflexivity.
Qed.

(** X17. Everything the page ever asks of the session service is in order: a
    session is created for a chosen patient only, and every upload names a
    session that an earlier create of this page returned and carries a
    pressure within 0 and 200 and a temperature within 0 and 80. *)
Theorem service_calls_conform (evs : list event) :
  Forall (service_call_ok (created_sessions evs)) (log (run_steps mounted evs)).
Proof. exact (proj2 (proj2 (run_steps_service evs))). Qed.

(** ** Runs of the page under the operator's actions *)

Lemma act_protocol_fixed (sys : System) (ev : event) :
  present (session (page sys)) = true -> resets ev = false ->
  patientId (page (act sys ev)) = patientId (page sys)
  /\ session (page (act sys ev)) = session (page sys)
  /\ targetPressure (page (act sys ev)) = targetPressure (page sys)
  /\ holdTimeSeconds (page (act sys ev)) = holdTimeSeconds (page sys).
Proof.
  intros S R. unfold act. destruct (enabled (page sys) ev) eqn:En; [|auto].
  destruct sys as [s ls lg]. cbn [page] in *.
  open_event ev;
    try discriminate; cbn [step page loops log with_page with_run].
  - cbn [enabled] in En. rewrite S in En. discriminate.
  - cbn [enabled] in En. rewrite S in En. discriminate.
  - cbn [enabled] in En. rewrite S in En. discriminate.
  - cbn [enabled] in En. unfold canCreateSession in En. rewrite S in En.
    rewrite !andb_false_r in En. discriminate.
  - open_state s. auto.
  - unfold handleRequestPort. open_state s. cbn in *.
    destruct picked; [destruct listed|]; cbn; auto.
  - unfold handleConnect. open_state s. cbn in *.
    destruct (idx <? 0)%Z; [auto|]. destruct opened; cbn; auto.
  - unfold handleDisconnect. open_state s. cbn in *. destruct cio; cbn; auto.
  - unfold handleStart. open_state s. cbn in *.
    destruct cio; [|auto]. destruct sess; [|auto]. destruct written; cbn; auto.
  - unfold handleStop. open_state s. cbn in *.
    destruct cio; [|auto]. destruct sess; [|auto]. destruct written; cbn; auto.
  - destruct (nth_error ls j) as [l|]; [|auto].
    destruct (readLoop_resume l s ev') as [[[l' s'] cs]|] eqn:E; [|auto].
    cbn [page]. destruct (resume_frame _ _ _ _ _ _ E) as (-> & -> & -> & -> & _). auto.
Qed.

(** X19. Once the session exists, nothing the operator can do short of a reset
    changes the patient, the session or the protocol values the session
    was created with. *)
Theorem protocol_fixed_once_session_exists (evs : list event) :
  forall sys : System,
    present (session (page sys)) = true -> forallb (fun ev => negb (resets ev)) evs = true ->
    patientId (page (run_acts sys evs)) = patientId (page sys)
    /\ session (page (run_acts sys evs)) = session (page sys)
    /\ targetPressure (page (run_acts sys evs)) = targetPressure (page sys)
    /\ holdTimeSeconds (page (run_acts sys evs)) = holdTimeSeconds (page sys).
Proof.
  induction evs as [|ev evs IH]; intros sys S F; [auto|].
  cbn [forallb] in F. apply andb_true_iff in F as [F1 F2].
  apply negb_true_iff in F1.
  destruct (act_protocol_fixed sys ev S F1) as (A & B & C & D).
  cbn [run_acts fold_left]. fold (run_acts (act sys ev) evs).
  rewrite <- A, <- B, <- C, <- D. apply IH; [rewrite B; exact S | exact F2].
Qed.

(** Typing a pressure and choosing a patient after the session was created. *)
Lemma protocol_fixed_once_session_exists_witness :
  targetPressure
    (page (run_acts (run_acts mounted connect_events)
             [TypeTargetPressure (js "99"); ChoosePatient (js "p2");
              ClickStart (Fulfilled tt)]))
  = num_of_Z 30.
Proof.
  assert (S : present (session (page (run_acts mounted connect_events))) = true)
    by (vm_compute; reflexivity).
  destruct (protocol_fixed_once_session_exists
              [TypeTargetPressure (js "99"); ChoosePatient (js "p2"); ClickStart (Fulfilled tt)]
              (run_acts mounted connect_events) S eq_refl) as (_ & _ & T & _).
  rewrite T. vm_compute. reflexivity.
Defined.
